(** * StressEase backend: chat sessions, mood quiz and stress prediction

    A shallow embedding of the request handlers and services of the
    [stressease] package, and the properties of its specification proved
    (or refuted) on that embedding.

    Conventions.
    - Python [str] values are Rocq [string]s, read as sequences of code
      points below 256; [str.isspace] and [str.lower] are the Unicode ones
      on that range.
    - Python [float] is IEEE binary64, i.e. Rocq's primitive [float].
    - Python dicts used as tables are [gmap]s; documents with a fixed set
      of keys are records.
    - A call that may raise returns an [outcome]; the [try]/[except]
      blocks of the source are the [match]es on it.
    - [threading.Thread(target=f, args=a).start()] appends a [Task] to the
      list of scheduled background tasks. *)

From Stdlib Require Import ZArith Floats Uint63 Ascii String List Lia Bool.
From stdpp Require Import gmap strings list sorting.

Set Warnings "-inexact-float".

#[local] Open Scope string_scope.
#[local] Open Scope list_scope.
#[local] Open Scope Z_scope.

(** ** Exceptions *)

Module Py.

(** The result of a call that may raise. *)
Inductive outcome (A : Type) : Type :=
| Returns (a : A)
| Raises.
Arguments Returns {A} a.
Arguments Raises {A}.

Definition bind {A B : Type} (m : outcome A) (k : A -> outcome B) : outcome B :=
  match m with
  | Returns a => k a
  | Raises => Raises
  end.

(** [try: m  except Exception: return d] *)
Definition except {A : Type} (m : outcome A) (d : A) : A :=
  match m with
  | Returns a => a
  | Raises => d
  end.

(** Truthiness of a [str], and of an optional one ([None] is falsy). *)
Definition truthy (s : string) : bool := negb (String.eqb s "").

Definition truthy_opt (s : option string) : bool :=
  match s with
  | Some s => truthy s
  | None => false
  end.

(** [float(n)] for an [int] of magnitude below [2^63]. *)
Definition float_of_int (n : Z) : float :=
  if n <? 0 then PrimFloat.opp (PrimFloat.of_uint63 (Uint63.of_Z (- n)))
  else PrimFloat.of_uint63 (Uint63.of_Z n).

(** [min(a, b)] and [max(a, b)] on floats: the first argument is kept unless
    the second compares strictly below (above) it. *)
Definition min (a b : float) : float := if PrimFloat.ltb b a then b else a.
Definition max (a b : float) : float := if PrimFloat.ltb a b then b else a.

(** [round(x * 10**ndigits)] to the nearest integer, ties to even, on the exact
    value [m * 2^e] of a positive finite float. *)
Definition nearest_even (num den : Z) : Z :=
  let q := num / den in
  let r := num mod den in
  if 2 * r <? den then q
  else if den <? 2 * r then q + 1
  else if Z.even q then q else q + 1.

(** [round(x, 2)]: the exact binary value is rounded to two decimals, ties to
    even, and the decimal is read back as the nearest float. *)
Definition round2 (x : float) : float :=
  match Prim2SF x with
  | S754_finite s m e =>
      let num := 100 * Z.pos m * 2 ^ Z.max e 0 in
      let den := 2 ^ Z.max (- e) 0 in
      let k := nearest_even num den in
      let r := PrimFloat.div (float_of_int k) 100%float in
      if s then PrimFloat.opp r else r
  | _ => x
  end.

End Py.

Export Py.

(** [outcome] is a monad: [x ← m; k] runs [k] unless [m] raised. *)
#[global] Instance outcome_ret : MRet outcome := @Returns.
#[global] Instance outcome_bind : MBind outcome := fun A B k m => Py.bind m k.
#[global] Instance outcome_fmap : FMap outcome :=
  fun A B f m => Py.bind m (fun a => Returns (f a)).

(** ** services/prediction/prediction_service.py *)

Module PredictionService.

(** [class StressPrediction(BaseModel)] *)
Record StressPrediction : Type := {
  stress_probability : float;
  label : string;
  confidence : float
}.

(** The dict returned by [predict_stress]. *)
Record Prediction : Type := {
  date : string;
  stressProbability : float;
  p_label : string;
  p_confidence : float;
  basedOn : float * Z * Z
}.

(** The label branch shared textually by both paths. *)
Definition label_of (prob : float) : string :=
  if PrimFloat.leb 0.7%float prob then "High"
  else if PrimFloat.leb 0.4%float prob then "Medium"
  else "Low".

(** [_predict_with_llm]: [base_llm] is the module global, [invoke] the result
    of [chain.invoke(...)] (prompt, model call and Pydantic parsing). *)
Definition _predict_with_llm (base_llm : bool) (invoke : outcome StressPrediction)
  : outcome (option StressPrediction) :=
  if negb base_llm then Raises
  else
    Returns
      match invoke with
      | Raises => None
      | Returns result =>
          let prob := Py.max 0.0%float (Py.min 1.0%float (stress_probability result)) in
          let conf := Py.max 0.0%float (Py.min 1.0%float (confidence result)) in
          Some {| stress_probability := prob;
                  label := label_of prob;
                  confidence := conf |}
      end.

Definition _fallback_prediction (avg_mood_score : float) (chat_count avg_quiz_score : Z)
  : StressPrediction :=
  let mood_factor := ((5.0 - avg_mood_score) / 4.0)%float in
  let chat_factor := Py.min (float_of_int chat_count / 15.0)%float 1.0%float in
  let quiz_factor := (float_of_int (60 - avg_quiz_score) / 48.0)%float in
  let stress_probability :=
    ((mood_factor * 0.4) + (chat_factor * 0.2) + (quiz_factor * 0.4))%float in
  let stress_probability := Py.max 0.0%float (Py.min 1.0%float stress_probability) in
  let label := label_of stress_probability in
  let confidence := 0.65%float in
  {| stress_probability := round2 stress_probability;
     label := label;
     confidence := confidence |}.

Definition predict_stress (base_llm : bool) (invoke : outcome StressPrediction)
  (tomorrow : string) (avg_mood_score : float) (chat_count avg_quiz_score : Z)
  : Prediction :=
  let answer (r : StressPrediction) :=
    {| date := tomorrow;
       stressProbability := stress_probability r;
       p_label := label r;
       p_confidence := confidence r;
       basedOn := (avg_mood_score, chat_count, avg_quiz_score) |} in
  match _predict_with_llm base_llm invoke with
  | Returns (Some llm_result) => answer llm_result
  | _ => answer (_fallback_prediction avg_mood_score chat_count avg_quiz_score)
  end.

End PredictionService.

(** ** The document store (Firestore) *)

Module Store.

(** A [datetime]: its calendar date in ISO format and the instant it denotes,
    which is what the store orders by. *)
Record Datetime : Type := {
  on_date : string;
  instant : Z
}.

(** Documents of [user_mood_logs]. Keys the handler always writes are
    fields; [date], [user_id] and [submitted_at] are set by the upsert. *)
Record CoreScores : Type := { mood : Z; energy : Z; sleep : Z; stress : Z }.
Record RotatingScores : Type := { domain_name : string; scores : list Z }.
Record DassToday : Type := { depression : Z; anxiety : Z; dass_stress : Z }.
Record Point : Type := { question_id : string; score : Z }.

Record MoodLog : Type := {
  date : option string;
  core_scores : CoreScores;
  rotating_scores : RotatingScores;
  dass_today : DassToday;
  high_point : Point;
  low_point : Point;
  core_avg : float;
  rotating_avg : float;
  additional_notes : option string;
  user_id : option string;
  submitted_at : option Datetime
}.

(** Documents of [user_weekly_dass]. *)
Record WeeklyDass : Type := {
  w_user_id : string;
  week_start : string;
  week_end : string;
  depression_total : Z;
  anxiety_total : Z;
  stress_total : Z;
  calculated_at : Datetime
}.

(** Documents of [users/{uid}/chat_sessions/{sid}/messages]. *)
Record MessageDoc : Type := {
  role : option string;
  content : option string;
  timestamp : Datetime;
  turn : Z
}.

(** The document [users/{uid}/chat_sessions/{sid}/metadata/info]. *)
Record SessionInfo : Type := {
  created_at : Datetime;
  last_activity : Datetime;
  session_status : string;
  message_count : Z;
  ended_at : option Datetime
}.

(** A user profile document; an absent key and a falsy value read alike. *)
Record UserProfile : Type := {
  (** [bool(profile)]: the document holds at least one key *)
  populated : bool;
  name : string;
  age : string;
  health_conditions : list string;
  stress_triggers : list string;
  goals : list string
}.

Record Firestore : Type := {
  (** [firebase_config.db is not None] *)
  initialized : bool;
  (** when [false], every request sent to the store raises *)
  reachable : bool;
  user_mood_logs : gmap string MoodLog;
  (** documents added under generated ids, in insertion order *)
  user_weekly_dass : list WeeklyDass;
  (** per (user, session): the message documents, in document order *)
  messages : gmap (string * string) (list MessageDoc);
  metadata_info : gmap (string * string) SessionInfo;
  profile_data : gmap string UserProfile;
  users : gmap string UserProfile
}.

Definition set_user_mood_logs (f : gmap string MoodLog -> gmap string MoodLog)
  (db : Firestore) : Firestore :=
  {| initialized := initialized db; reachable := reachable db;
     user_mood_logs := f (user_mood_logs db);
     user_weekly_dass := user_weekly_dass db;
     messages := messages db; metadata_info := metadata_info db;
     profile_data := profile_data db; users := users db |}.

Definition set_user_weekly_dass (f : list WeeklyDass -> list WeeklyDass)
  (db : Firestore) : Firestore :=
  {| initialized := initialized db; reachable := reachable db;
     user_mood_logs := user_mood_logs db;
     user_weekly_dass := f (user_weekly_dass db);
     messages := messages db; metadata_info := metadata_info db;
     profile_data := profile_data db; users := users db |}.

Definition set_messages
  (f : gmap (string * string) (list MessageDoc) -> gmap (string * string) (list MessageDoc))
  (db : Firestore) : Firestore :=
  {| initialized := initialized db; reachable := reachable db;
     user_mood_logs := user_mood_logs db;
     user_weekly_dass := user_weekly_dass db;
     messages := f (messages db); metadata_info := metadata_info db;
     profile_data := profile_data db; users := users db |}.

Definition set_metadata_info
  (f : gmap (string * string) SessionInfo -> gmap (string * string) SessionInfo)
  (db : Firestore) : Firestore :=
  {| initialized := initialized db; reachable := reachable db;
     user_mood_logs := user_mood_logs db;
     user_weekly_dass := user_weekly_dass db;
     messages := messages db; metadata_info := f (metadata_info db);
     profile_data := profile_data db; users := users db |}.

(** The store with its contents, out of reach: what a request that fails
    finds. *)
Definition out_of_reach (db : Firestore) : Firestore :=
  {| initialized := initialized db; reachable := false;
     user_mood_logs := user_mood_logs db;
     user_weekly_dass := user_weekly_dass db;
     messages := messages db; metadata_info := metadata_info db;
     profile_data := profile_data db; users := users db |}.

(** [firebase_config.get_firestore_client] *)
Definition get_firestore_client (db : Firestore) : outcome unit :=
  if initialized db then Returns tt else Raises.

(** A request to the store: it raises when the store is unreachable. *)
Definition request {A : Type} (db : Firestore) (answer : A) : outcome A :=
  if reachable db then Returns answer else Raises.

(** What the handlers read from their surroundings. *)
Record Clock : Type := {
  (** [date.today().isoformat()] *)
  today : string;
  (** [datetime.utcnow()] *)
  utcnow : Datetime;
  (** the id the store generates for an added document *)
  auto_id : string;
  (** [str(uuid.uuid4())] *)
  uuid4 : string
}.

End Store.

Export Store.

(** ** services/mood/mood_service.py *)

Module MoodService.

(** What [upsert_daily_mood_log] returns on success. *)
Record Upserted : Type := { doc_id : string; u_date : string }.

(** The composite document id [f"{user_id}_{date_str}"]. *)
Definition composite_id (uid date_str : string) : string :=
  uid +:+ "_" +:+ date_str.

(** [daily_log.get("date") or date.today().isoformat()] *)
Definition date_or_today (clk : Clock) (d : option string) : string :=
  match d with
  | Some d => if truthy d then d else today clk
  | None => today clk
  end.

(** The document [upsert_daily_mood_log] stores: [daily_log] with its date,
    user and submission time set. *)
Definition stamped (clk : Clock) (uid : string) (daily_log : MoodLog) : MoodLog :=
  {| date := Some (date_or_today clk (date daily_log));
     core_scores := core_scores daily_log;
     rotating_scores := rotating_scores daily_log;
     dass_today := dass_today daily_log;
     high_point := high_point daily_log;
     low_point := low_point daily_log;
     core_avg := core_avg daily_log;
     rotating_avg := rotating_avg daily_log;
     additional_notes := additional_notes daily_log;
     user_id := Some uid;
     submitted_at := Some (utcnow clk) |}.

Definition upsert_daily_mood_log (clk : Clock) (db : Firestore) (uid : string)
  (daily_log : MoodLog) : outcome (Firestore * option Upserted) :=
  _ ← get_firestore_client db;
  let date_str := date_or_today clk (date daily_log) in
  let doc_id := composite_id uid date_str in
  Returns
    match request db tt with
    | Returns _ =>
        (set_user_mood_logs (insert doc_id (stamped clk uid daily_log)) db,
         Some {| doc_id := doc_id; u_date := date_str |})
    | Raises => (db, None)
    end.

(** [.where("user_id", "==", user_id)] on [user_mood_logs]: the matching
    documents with their ids. *)
Definition logs_of_user (db : Firestore) (uid : string) : list (string * MoodLog) :=
  filter (fun entry => user_id entry.2 = Some uid) (map_to_list (user_mood_logs db)).

(** The instant an entry is ordered by; a document without [submitted_at]
    is left out of an ordered query. *)
Definition has_submitted_at (entry : string * MoodLog) : Prop :=
  is_Some (submitted_at entry.2).

Definition submitted_instant (entry : string * MoodLog) : Z :=
  match submitted_at entry.2 with
  | Some t => instant t
  | None => 0
  end.

(** [order_by("submitted_at", direction=DESCENDING)] *)
Definition newer_first (a b : string * MoodLog) : Prop :=
  submitted_instant b <= submitted_instant a.

#[global] Instance newer_first_dec a b : Decision (newer_first a b).
Proof. unfold newer_first. apply _. Defined.

Definition get_last_daily_mood_logs (db : Firestore) (uid : string) (limit : nat)
  : outcome (list (string * MoodLog)) :=
  _ ← get_firestore_client db;
  Returns
    (except
       (request db
          (take limit
             (merge_sort newer_first (filter has_submitted_at (logs_of_user db uid)))))
       []).

Definition get_daily_mood_logs_count (db : Firestore) (uid : string) : outcome Z :=
  _ ← get_firestore_client db;
  Returns (except (request db (Z.of_nat (length (logs_of_user db uid)))) 0).

Definition same_week (uid week_start_ week_end_ : string) (w : WeeklyDass) : bool :=
  String.eqb (w_user_id w) uid && String.eqb (week_start w) week_start_
  && String.eqb (week_end w) week_end_.

Definition weekly_dass_exists (db : Firestore) (uid week_start_ week_end_ : string)
  : outcome bool :=
  _ ← get_firestore_client db;
  Returns
    (except
       (request db (existsb (same_week uid week_start_ week_end_) (user_weekly_dass db)))
       false).

Definition save_weekly_dass_totals (clk : Clock) (db : Firestore)
  (uid week_start_ week_end_ : string) (depression_total_ anxiety_total_ stress_total_ : Z)
  : outcome (Firestore * option string) :=
  _ ← get_firestore_client db;
  let data :=
    {| w_user_id := uid;
       week_start := week_start_;
       week_end := week_end_;
       depression_total := depression_total_;
       anxiety_total := anxiety_total_;
       stress_total := stress_total_;
       calculated_at := utcnow clk |} in
  Returns
    match request db tt with
    | Returns _ => (set_user_weekly_dass (fun docs => docs ++ [data]) db, Some (auto_id clk))
    | Raises => (db, None)
    end.

End MoodService.

(** ** Handler results *)

Module Http.

(** [(jsonify(body), status)] *)
Record Response (B : Type) : Type := { body : B; status : Z }.
Arguments body {B} r.
Arguments status {B} r.

(** [{"success": False, "error": ..., "message": ...}] *)
Record Failure : Type := { error : string; message : string }.

(** A background thread started by a handler: its target and arguments. *)
Inductive Task : Type :=
| create_session_metadata (uid sid : string)
| save_conversation_turn (uid sid user_msg ai_msg : string) (turn_number : Z)
| update_session_activity (uid sid : string)
| end_session (uid sid : string).

End Http.

Export Http.

(** ** api/mood.py *)

Module MoodApi.

Import MoodService.

(** The JSON body of [POST /quiz/daily]; a key may be missing. *)
Record CorePayload : Type := {
  p_mood : option Z; p_energy : option Z; p_sleep : option Z; p_stress : option Z
}.
Record RotatingPayload : Type := {
  p_domain_name : option string; p_scores : option (list Z)
}.
Record DassPayload : Type := {
  p_depression : option Z; p_anxiety : option Z; p_dass_stress : option Z
}.
Record QuizPayload : Type := {
  p_core_scores : option CorePayload;
  p_rotating_scores : option RotatingPayload;
  p_dass_today : option DassPayload;
  p_date : option string;
  p_additional_notes : option string
}.

(** [weekly_result]; its two rounded weekly averages, which are returned and
    not stored, are left out. *)
Record WeeklyResult : Type := {
  weekly_id : string;
  r_week_start : string;
  r_week_end : string;
  r_depression_total : Z;
  r_anxiety_total : Z;
  r_stress_total : Z
}.

Inductive QuizBody : Type :=
| Rejected (f : Failure)
| Saved (log_id : string) (high low : Point) (weekly_dass : option WeeklyResult).

Definition reply (code : Z) (error_ message_ : string) : Response QuizBody :=
  {| body := Rejected {| error := error_; message := message_ |}; status := code |}.

(** The handler's [except Exception as e] answer; its message is [str(e)],
    which an [outcome] does not carry: it reads as the empty string. *)
Definition server_error : Response QuizBody := reply 500 "Server error" "".

Definition in_1_5 (s : Z) : bool := (1 <=? s) && (s <=? 5).

(** The checks of the request body, in the order the handler makes them:
    the first failed one answers 400. *)
Definition validate (payload : option QuizPayload)
  : Response QuizBody + (QuizPayload * CoreScores * RotatingScores * DassToday) :=
  match payload with
  | None => inl (reply 400 "Invalid request" "JSON body required")
  | Some payload =>
  match p_core_scores payload, p_rotating_scores payload, p_dass_today payload with
  | Some core, Some rotating, Some dass =>
  match p_mood core, p_energy core, p_sleep core, p_stress core with
  | Some mood_, Some energy_, Some sleep_, Some stress_ =>
  if negb (forallb in_1_5 [mood_; energy_; sleep_; stress_]) then
    inl (reply 400 "Invalid core_scores"
           "All core scores must be integers between 1 and 5")
  else
  match p_domain_name rotating, p_scores rotating with
  | Some domain, Some rotating_scores_ =>
  if negb (length rotating_scores_ =? 5)%nat then
    inl (reply 400 "Invalid rotating_scores" "scores must be a list of 5 integers")
  else if negb (forallb in_1_5 rotating_scores_) then
    inl (reply 400 "Invalid rotating_scores"
           "All rotating scores must be integers between 1 and 5")
  else
  match p_depression dass, p_anxiety dass, p_dass_stress dass with
  | Some depression_, Some anxiety_, Some dstress_ =>
  if negb (forallb in_1_5 [depression_; anxiety_; dstress_]) then
    inl (reply 400 "Invalid dass_today"
           "All DASS scores must be integers between 1 and 5")
  else
    inr (payload,
         {| mood := mood_; energy := energy_; sleep := sleep_; stress := stress_ |},
         {| domain_name := domain; scores := rotating_scores_ |},
         {| depression := depression_; anxiety := anxiety_; dass_stress := dstress_ |})
  | _, _, _ =>
    inl (reply 400 "Invalid dass_today" "Missing one of depression, anxiety, stress")
  end
  | _, _ =>
    inl (reply 400 "Invalid rotating_scores" "domain_name and scores are required")
  end
  | _, _, _, _ =>
    inl (reply 400 "Invalid core_scores" "Missing one of mood, energy, sleep, stress")
  end
  | _, _, _ =>
    inl (reply 400 "Missing required fields"
           "core_scores, rotating_scores, and dass_today are required")
  end
  end.

(** [max(l)] and [min(l)]: the first greatest (least) element; [ValueError] on
    an empty list. *)
Definition max_of (l : list Z) : outcome Z :=
  match l with
  | [] => Raises
  | x :: l' => Returns (fold_left (fun m y => if m <? y then y else m) l' x)
  end.

Definition min_of (l : list Z) : outcome Z :=
  match l with
  | [] => Raises
  | x :: l' => Returns (fold_left (fun m y => if y <? m then y else m) l' x)
  end.

(** [l.index(x)]: the first position holding [x]; [ValueError] if none. *)
Fixpoint index (l : list Z) (x : Z) : outcome nat :=
  match l with
  | [] => Raises
  | y :: l' => if y =? x then Returns 0%nat else i ← index l' x; Returns (S i)
  end.

(** [l[i]]: [IndexError] past the end. *)
Definition item {A : Type} (l : list A) (i : nat) : outcome A :=
  match l !! i with
  | Some a => Returns a
  | None => Raises
  end.

Definition all_questions : list string :=
  ["q1"; "q2"; "q3"; "q4"; "q5"; "q6"; "q7"; "q8"; "q9"; "q10"; "q11"; "q12"].

Definition all_scores_of (core : CoreScores) (rotating : RotatingScores) (dass : DassToday)
  : list Z :=
  [mood core; energy core; sleep core; stress core] ++ scores rotating
  ++ [depression dass; anxiety dass; dass_stress dass].

(** Step 3 of the handler: the high and the low point. *)
Definition high_low_points (all_scores : list Z) : outcome (Point * Point) :=
  hi ← max_of all_scores;
  high_idx ← index all_scores hi;
  lo ← min_of all_scores;
  low_idx ← index all_scores lo;
  high_q ← item all_questions high_idx;
  high_s ← item all_scores high_idx;
  low_q ← item all_questions low_idx;
  low_s ← item all_scores low_idx;
  Returns ({| question_id := high_q; score := high_s |},
           {| question_id := low_q; score := low_s |}).

(** [sum(l) / len(l)] on integers; [ZeroDivisionError] on an empty list. *)
Definition average (l : list Z) : outcome float :=
  if (length l =? 0)%nat then Raises
  else Returns (PrimFloat.div (float_of_int (fold_left Z.add l 0))
                               (float_of_int (Z.of_nat (length l)))).

(** [_to_dass_scale]: [mapping[int(score)]] raises [KeyError] off the table. *)
Definition _to_dass_scale (score_ : Z) : outcome Z :=
  if score_ =? 1 then Returns 0
  else if score_ =? 2 then Returns 1
  else if score_ =? 3 then Returns 1
  else if score_ =? 4 then Returns 2
  else if score_ =? 5 then Returns 3
  else Raises.

(** [sum(_to_dass_scale(s) for s in vals) * 2] *)
Fixpoint dass_sum (vals : list Z) : outcome Z :=
  match vals with
  | [] => Returns 0
  | s :: vals' => v ← _to_dass_scale s; rest ← dass_sum vals'; Returns (v + rest)
  end.

Definition dass_total (vals : list Z) : outcome Z :=
  total ← dass_sum vals; Returns (total * 2).

(** [_extract_date] *)
Definition _extract_date (entry : string * MoodLog) : option string :=
  match date entry.2 with
  | Some d => if truthy d then Some d else on_date <$> submitted_at entry.2
  | None => on_date <$> submitted_at entry.2
  end.

(** [min(dates)] and [max(dates)] on strings, given the first element. *)
Definition min_str (d : string) (dates : list string) : string :=
  fold_left (fun m x => if String.ltb x m then x else m) dates d.

Definition max_str (d : string) (dates : list string) : string :=
  fold_left (fun m x => if String.ltb m x then x else m) dates d.

(** [[d for d in (_extract_date(e) for e in last_7) if d]] *)
Definition dates_of (last_7 : list (string * MoodLog)) : list string :=
  filter (fun d => truthy d = true) (omap _extract_date last_7).

(** The week range of the entries: their earliest and latest date, today
    when none carries a date. *)
Definition week_range (clk : Clock) (last_7 : list (string * MoodLog)) : string * string :=
  match dates_of last_7 with
  | d :: dates' => (min_str d dates', max_str d dates')
  | [] => (today clk, today clk)
  end.

(** The four requests the handler sends to the store after the upsert, one
    by each service of the weekly aggregation. A request may fail on its own
    while the others are answered, and the service that sent it catches the
    failure: [true] marks a request that fails in this run of the handler.
    The request of the upsert itself is answered when [reachable db] holds. *)
Record Outage : Type := {
  (** the count of the user's daily logs *)
  count_fails : bool;
  (** the query of the user's last seven daily logs *)
  recent_fails : bool;
  (** the query of the aggregates of the user for the range *)
  exists_fails : bool;
  (** the write of the aggregate *)
  save_fails : bool
}.

(** The store as a request finds it. *)
Definition found (fails : bool) (db : Firestore) : Firestore :=
  if fails then out_of_reach db else db.

(** The weekly aggregation that follows a saved quiz: the store afterwards
    and [weekly_result]. *)
Definition weekly_aggregation (clk : Clock) (out : Outage) (db : Firestore) (uid : string)
  : outcome (Firestore * option WeeklyResult) :=
  total_count ← get_daily_mood_logs_count (found (count_fails out) db) uid;
  last_7 ← get_last_daily_mood_logs (found (recent_fails out) db) uid 7;
  if (7 <=? total_count) && (total_count mod 7 =? 0) && (length last_7 =? 7)%nat then
    depression_total_ ← dass_total ((fun entry => depression (dass_today entry.2)) <$> last_7);
    anxiety_total_ ← dass_total ((fun entry => anxiety (dass_today entry.2)) <$> last_7);
    stress_total_ ← dass_total ((fun entry => dass_stress (dass_today entry.2)) <$> last_7);
    let week_start_ := (week_range clk last_7).1 in
    let week_end_ := (week_range clk last_7).2 in
    exists_ ← weekly_dass_exists (found (exists_fails out) db) uid week_start_ week_end_;
    if negb exists_ then
      saved ← save_weekly_dass_totals clk (found (save_fails out) db) uid
                week_start_ week_end_ depression_total_ anxiety_total_ stress_total_;
      Returns
        match saved.2 with
        | Some weekly_id_ =>
            (saved.1,
             if truthy weekly_id_ then
               Some {| weekly_id := weekly_id_;
                       r_week_start := week_start_;
                       r_week_end := week_end_;
                       r_depression_total := depression_total_;
                       r_anxiety_total := anxiety_total_;
                       r_stress_total := stress_total_ |}
             else None)
        | None => (db, None)
        end
    else Returns (db, None)
  else Returns (db, None).

(** Steps 2 and 3 and the document built from them. *)
Definition daily_doc_of (payload : QuizPayload) (core : CoreScores)
  (rotating : RotatingScores) (dass : DassToday) : outcome MoodLog :=
  core_avg_ ← average [mood core; energy core; sleep core; stress core];
  rotating_avg_ ← average (scores rotating);
  points ← high_low_points (all_scores_of core rotating dass);
  Returns
    {| date := p_date payload;
       core_scores := core;
       rotating_scores := rotating;
       dass_today := dass;
       high_point := points.1;
       low_point := points.2;
       core_avg := core_avg_;
       rotating_avg := rotating_avg_;
       additional_notes :=
         if truthy_opt (p_additional_notes payload) then p_additional_notes payload
         else None;
       user_id := None;
       submitted_at := None |}.

(** [submit_daily_quiz]. The insight generation between the save and the
    weekly aggregation runs in a [try] of its own, writes to no collection
    read here and cannot fail the request; it leaves no trace in the model. *)
Definition submit_daily_quiz (clk : Clock) (out : Outage) (db : Firestore) (uid : string)
  (payload : option QuizPayload) : Firestore * Response QuizBody :=
  match validate payload with
  | inl refusal => (db, refusal)
  | inr (payload, core, rotating, dass) =>
      match daily_doc_of payload core rotating dass with
      | Raises => (db, server_error)
      | Returns daily_doc =>
          match upsert_daily_mood_log clk db uid daily_doc with
          | Raises => (db, server_error)
          | Returns (db1, None) =>
              (db1, reply 500 "Database error" "Failed to save daily mood log")
          | Returns (db1, Some result) =>
              match weekly_aggregation clk out db1 uid with
              | Raises => (db1, server_error)
              | Returns (db2, weekly_result) =>
                  (db2,
                   {| body := Saved (doc_id result) (high_point daily_doc)
                                (low_point daily_doc) weekly_result;
                      status := 201 |})
              end
          end
      end
  end.

End MoodApi.

(** ** [str] methods on code points below 256 *)

Module PyStr.

Definition code (c : ascii) : N := N_of_ascii c.

(** [c.isspace()]: tab to carriage return, the four separators, space,
    next line and no-break space. *)
Definition isspace (c : ascii) : bool :=
  ((9 <=? code c) && (code c <=? 13) || (28 <=? code c) && (code c <=? 32)
   || (code c =? 133) || (code c =? 160))%N.

Fixpoint lstrip (s : string) : string :=
  match s with
  | EmptyString => EmptyString
  | String c s' => if isspace c then lstrip s' else s
  end.

Fixpoint rstrip (s : string) : string :=
  match s with
  | EmptyString => EmptyString
  | String c s' =>
      match rstrip s' with
      | EmptyString => if isspace c then EmptyString else String c EmptyString
      | rest => String c rest
      end
  end.

(** [s.strip()] *)
Definition strip (s : string) : string := rstrip (lstrip s).

(** [c.lower()]: the capitals A to Z, and the accented capitals 192 to 222
    but for the multiplication sign, are 32 below their small letters. *)
Definition isupper (c : ascii) : bool :=
  ((65 <=? code c) && (code c <=? 90)
   || (192 <=? code c) && (code c <=? 222) && negb (code c =? 215))%N.

Definition lower_char (c : ascii) : ascii :=
  if isupper c then ascii_of_N (code c + 32) else c.

(** [s.lower()] *)
Fixpoint lower (s : string) : string :=
  match s with
  | EmptyString => EmptyString
  | String c s' => String (lower_char c) (lower s')
  end.

(** [sub in s] *)
Fixpoint contains (sub s : string) : bool :=
  String.prefix sub s ||
  match s with
  | EmptyString => false
  | String _ s' => contains sub s'
  end.

(** [sep.join(parts)] *)
Fixpoint join (sep : string) (parts : list string) : string :=
  match parts with
  | [] => ""
  | [part] => part
  | part :: parts' => part +:+ sep +:+ join sep parts'
  end.

(** The one-character string [\n]. *)
Definition newline : string := String (ascii_of_N 10) EmptyString.

End PyStr.

Export PyStr.

(** ** services/chat/llm_service.py *)

Module LlmService.

(** [langchain_core.messages]: the two message classes in use. *)
Inductive BaseMessage : Type :=
| HumanMessage (content_ : string)
| AIMessage (content_ : string).

(** The chain [prompt | advance_llm | StrOutputParser()]: its prompt is the
    fixed master template filled with [user_context], which therefore
    determines the chain. *)
Record Runnable : Type := { user_context : string }.

(** The two module globals and the remote model behind them. *)
Record Gemini : Type := {
  (** [base_llm is not None], [advance_llm is not None] *)
  base_llm : bool;
  advance_llm : bool;
  (** [chain_a.invoke] on the prompt written from the mood logs *)
  summary_model : list (string * MoodLog) -> outcome string;
  (** [chain.invoke({"input": ..., "history": ...})] *)
  chat_model : Runnable -> string -> list BaseMessage -> outcome string
}.

Definition summarize_mood_logs (llm : Gemini) (mood_logs : list (string * MoodLog))
  : outcome string :=
  if negb (base_llm llm) then Raises
  else if (length mood_logs =? 0)%nat then Returns ""
  else
    Returns
      (except (strip <$> summary_model llm mood_logs)
         "User has been tracking their mood regularly over the past week.").

Definition create_conversation_chain (llm : Gemini) (user_context_ : string)
  : outcome Runnable :=
  if negb (advance_llm llm) then Raises
  else Returns {| user_context := user_context_ |}.

(** One optional line of the profile section. *)
Definition line_if (present : bool) (line : string) : list string :=
  if present then [line] else [].

(** [build_user_context]; [if user_profile:] fails on [None] and on a
    document without keys. *)
Definition build_user_context (user_profile : option UserProfile) (mood_summary : string)
  : string :=
  let profile_parts :=
    match (if from_option populated false user_profile then user_profile else None) with
    | Some profile =>
        ["USER PROFILE CONTEXT:"]
        ++ line_if (truthy (name profile)) ("- Name: " +:+ name profile)
        ++ line_if (truthy (age profile)) ("- Age: " +:+ age profile)
        ++ line_if (negb (length (health_conditions profile) =? 0)%nat)
             ("- Health considerations: " +:+ join ", " (health_conditions profile))
        ++ line_if (negb (length (stress_triggers profile) =? 0)%nat)
             ("- Known stress triggers: " +:+ join ", " (stress_triggers profile))
        ++ line_if (negb (length (goals profile) =? 0)%nat)
             ("- Personal goals: " +:+ join ", " (goals profile))
    | None =>
        ["USER PROFILE CONTEXT:"; "(Profile incomplete - provide general support)"]
    end in
  let mood_parts :=
    if truthy mood_summary then
      [newline +:+ "MOOD CONTEXT:"; "Recent mood pattern: " +:+ mood_summary]
    else
      [newline +:+ "MOOD CONTEXT:"; "(No mood history available yet)"] in
  join newline (profile_parts ++ mood_parts).

Definition crisis_keywords : list string :=
  ["suicide"; "self-harm"; "kill yourself"; "end it all"; "hurt myself"; "die"].

Definition diagnosis_patterns : list string :=
  ["you have "; "you are suffering from"; "you might have"; "you probably have";
   "sounds like you have"; "diagnosis"; "diagnose"; "condition is"; "disorder";
   "i diagnose"; "you exhibit symptoms of"; "clinical depression";
   "clinical anxiety"; "you are experiencing"; "you are exhibiting";
   "pathological"; "psychiatric condition"].

Definition medication_patterns : list string :=
  ["you should take"; "you need to take"; "prescribe"; "medication"; "dosage";
   "you should try"; "treatment plan"; "medical treatment"; "therapy regimen"].

Definition sos_redirect : string :=
  "I notice this is a serious topic. If you're experiencing a crisis, please tap the red 'SOS' button in the chat to connect with professional crisis resources immediately. How can I support you right now?".

Definition no_diagnosis : string :=
  "I'm here to listen and support you, but I can't provide medical diagnoses or clinical advice. Consider discussing your feelings with a healthcare professional who can provide personalized guidance. How else can I support you today?".

Definition no_treatment : string :=
  "I'm here to provide emotional support, but I can't recommend specific treatments or medications. A healthcare professional would be the best person to discuss treatment options with you. Is there something else on your mind that you'd like to talk about?".

(** [for pattern in patterns: if pattern in text: return ...]: whether the
    loop returns. *)
Fixpoint any_in (patterns : list string) (text : string) : bool :=
  match patterns with
  | [] => false
  | pattern :: patterns' => if contains pattern text then true else any_in patterns' text
  end.

Definition validate_gemini_response (response : string) : option string :=
  if negb (truthy response) || (String.length (strip response) =? 0)%nat then None
  else
    let response_lower := lower response in
    if any_in crisis_keywords response_lower then Some sos_redirect
    else if any_in diagnosis_patterns response_lower then Some no_diagnosis
    else if any_in medication_patterns response_lower then Some no_treatment
    else Some response.

Definition no_helpful_response : string :=
  "I'm sorry, I couldn't generate a helpful response. How else can I support you today?".

Definition trouble_connecting : string :=
  "I'm having trouble connecting right now. Could we try again in a moment?".

Definition generate_chat_response (llm : Gemini) (chain : Runnable)
  (user_message : string) (history : list BaseMessage) : string :=
  match chat_model llm chain user_message history with
  | Returns response =>
      match validate_gemini_response response with
      | None => no_helpful_response
      | Some validated_response => validated_response
      end
  | Raises => trouble_connecting
  end.

End LlmService.

(** ** services/chat/chat_memory_service.py *)

Module ChatMemoryService.

Import LlmService.

Definition get_user_profile (db : Firestore) (uid : string) : outcome (option UserProfile) :=
  _ ← get_firestore_client db;
  Returns
    (except
       (request db
          match profile_data db !! uid with
          | Some profile => Some profile
          | None => users db !! uid
          end)
       None).

Definition create_session_metadata (clk : Clock) (db : Firestore) (uid sid : string)
  : outcome (Firestore * bool) :=
  _ ← get_firestore_client db;
  let metadata :=
    {| created_at := utcnow clk;
       last_activity := utcnow clk;
       session_status := "active";
       message_count := 0;
       ended_at := None |} in
  Returns
    match request db tt with
    | Returns _ => (set_metadata_info (insert (uid, sid) metadata) db, true)
    | Raises => (db, false)
    end.

(** [metadata_ref.update(...)] raises when the document does not exist. *)
Definition update_session_activity (clk : Clock) (db : Firestore) (uid sid : string)
  : outcome (Firestore * bool) :=
  _ ← get_firestore_client db;
  Returns
    match request db (metadata_info db !! (uid, sid)) with
    | Returns (Some info) =>
        (set_metadata_info
           (insert (uid, sid)
              {| created_at := created_at info;
                 last_activity := utcnow clk;
                 session_status := session_status info;
                 message_count := message_count info + 1;
                 ended_at := ended_at info |}) db,
         true)
    | _ => (db, false)
    end.

Definition end_session (clk : Clock) (db : Firestore) (uid sid : string)
  : outcome (Firestore * bool) :=
  _ ← get_firestore_client db;
  Returns
    match request db (metadata_info db !! (uid, sid)) with
    | Returns (Some info) =>
        (set_metadata_info
           (insert (uid, sid)
              {| created_at := created_at info;
                 last_activity := last_activity info;
                 session_status := "ended";
                 message_count := message_count info;
                 ended_at := Some (utcnow clk) |}) db,
         true)
    | _ => (db, false)
    end.

(** [order_by("timestamp", direction=ASCENDING)] *)
Definition older_first (a b : MessageDoc) : Prop :=
  instant (timestamp a) <= instant (timestamp b).

#[global] Instance older_first_dec a b : Decision (older_first a b).
Proof. unfold older_first. apply _. Defined.

(** The body of the loop over the streamed documents. *)
Definition to_message (doc : MessageDoc) : option BaseMessage :=
  let role_ := default "" (role doc) in
  let content_ := default "" (content doc) in
  if String.eqb role_ "user" then Some (HumanMessage content_)
  else if String.eqb role_ "assistant" then Some (AIMessage content_)
  else None.

(** The documents of a session's [messages] collection. *)
Definition session_messages (db : Firestore) (uid sid : string) : list MessageDoc :=
  default [] (messages db !! (uid, sid)).

(** [.order_by("timestamp", ASCENDING).limit(max_messages)] *)
Definition messages_query (db : Firestore) (uid sid : string) (max_messages : nat)
  : list MessageDoc :=
  take max_messages (merge_sort older_first (session_messages db uid sid)).

Definition load_conversation_memory (db : Firestore) (uid sid : string)
  (max_messages : nat) : outcome (list BaseMessage) :=
  _ ← get_firestore_client db;
  Returns (except (request db (omap to_message (messages_query db uid sid max_messages))) []).

Definition save_conversation_turn (clk : Clock) (db : Firestore)
  (uid sid user_msg ai_msg : string) (turn_number : Z) : outcome (Firestore * bool) :=
  _ ← get_firestore_client db;
  let timestamp_ := utcnow clk in
  let user_message_data :=
    {| role := Some "user"; content := Some user_msg;
       timestamp := timestamp_; turn := turn_number |} in
  let ai_message_data :=
    {| role := Some "assistant"; content := Some ai_msg;
       timestamp := timestamp_; turn := turn_number |} in
  Returns
    match request db tt with
    | Returns _ =>
        (set_messages
           (insert (uid, sid)
              (session_messages db uid sid ++ [user_message_data; ai_message_data])) db,
         true)
    | Raises => (db, false)
    end.

(** A background thread runs its target; what the target returns or raises
    is seen by nobody. *)
Definition run_task (clk : Clock) (db : Firestore) (task : Task) : Firestore :=
  let result :=
    match task with
    | Http.create_session_metadata uid sid => create_session_metadata clk db uid sid
    | Http.save_conversation_turn uid sid user_msg ai_msg turn_number =>
        save_conversation_turn clk db uid sid user_msg ai_msg turn_number
    | Http.update_session_activity uid sid => update_session_activity clk db uid sid
    | Http.end_session uid sid => end_session clk db uid sid
    end in
  match result with
  | Returns (db', _) => db'
  | Raises => db
  end.

End ChatMemoryService.

(** ** api/chat.py *)

Module ChatApi.

Import LlmService.

(** An entry of [active_chat_sessions[user_id]]. *)
Record SessionEntry : Type := {
  chain : Runnable;
  entry_last_activity : Datetime;
  entry_message_count : Z
}.

(** [active_chat_sessions]: user id, then session id. *)
Abbreviation Cache := (gmap string (gmap string SessionEntry)).

Definition sessions_of (cache : Cache) (uid : string) : gmap string SessionEntry :=
  default ∅ (cache !! uid).

(** [user_id in active_chat_sessions and session_id in active_chat_sessions[user_id]] *)
Definition cached (cache : Cache) (uid sid : string) : option SessionEntry :=
  cache !! uid ≫= fun sessions => sessions !! sid.

(** [if user_id not in active_chat_sessions: active_chat_sessions[user_id] = {}] *)
Definition with_user (cache : Cache) (uid : string) : Cache :=
  if decide (is_Some (cache !! uid)) then cache else <[uid := ∅]> cache.

(** [active_chat_sessions[user_id][session_id] = entry] *)
Definition store_entry (cache : Cache) (uid sid : string) (entry : SessionEntry) : Cache :=
  <[uid := <[sid := entry]> (sessions_of cache uid)]> cache.

Definition _create_chain_for_user (db : Firestore) (llm : Gemini) (uid : string)
  : outcome Runnable :=
  user_profile ← ChatMemoryService.get_user_profile db uid;
  mood_logs ← MoodService.get_last_daily_mood_logs db uid 7;
  mood_summary ←
    (if (length mood_logs =? 0)%nat then Returns ""
     else summarize_mood_logs llm mood_logs);
  let user_context_ := build_user_context user_profile mood_summary in
  create_conversation_chain llm user_context_.

(** What [load_conversation_memory] may hand to the loop of [_load_session]:
    a message object, or a dict with [role]/[type] and [content]/[text]
    keys (an absent key reads as the empty string). *)
Inductive RawMessage : Type :=
| message_object (msg : BaseMessage)
| message_dict (role_ type_ content_ text_ : string).

(** [a or b] on strings *)
Definition or_else (a b : string) : string := if truthy a then a else b.

(** The body of the loop of [_load_session] over [raw_messages]. *)
Definition adapt (msg : RawMessage) : option BaseMessage :=
  match msg with
  | message_object msg => Some msg
  | message_dict role_ type_ content_ text_ =>
      let role_ := or_else role_ type_ in
      let content_ := or_else content_ text_ in
      if String.eqb role_ "user" then Some (HumanMessage content_)
      else if String.eqb role_ "assistant" || String.eqb role_ "ai"
      then Some (AIMessage content_)
      else None
  end.

(** What [_load_session] returns. *)
Definition Loaded : Type := option string * option Runnable * list BaseMessage.

(** [_load_session]: the cache and the threads started, then the tuple it
    returns; [(None, None, [])] is its answer to any exception. *)
Definition _load_session (clk : Clock) (db : Firestore) (llm : Gemini) (cache : Cache)
  (session_id : option string) (uid : string) : Cache * list Task * Loaded :=
  let cache := with_user cache uid in
  match (if truthy_opt session_id then session_id else None) with
  | None =>
      let session_id := uuid4 clk in
      let started := [Http.create_session_metadata uid session_id] in
      match _create_chain_for_user db llm uid with
      | Returns chain_ =>
          (store_entry cache uid session_id
             {| chain := chain_;
                entry_last_activity := utcnow clk;
                entry_message_count := 0 |},
           started, (Some session_id, Some chain_, []))
      | Raises => (cache, started, (None, None, []))
      end
  | Some session_id =>
      match ChatMemoryService.load_conversation_memory db uid session_id 25 with
      | Returns raw_messages =>
          let history_messages := omap adapt (message_object <$> raw_messages) in
          match sessions_of cache uid !! session_id with
          | Some entry => (cache, [], (Some session_id, Some (chain entry), history_messages))
          | None =>
              match _create_chain_for_user db llm uid with
              | Returns chain_ =>
                  (store_entry cache uid session_id
                     {| chain := chain_;
                        entry_last_activity := utcnow clk;
                        entry_message_count := Z.of_nat (length history_messages) / 2 |},
                   [], (Some session_id, Some chain_, history_messages))
              | Raises => (cache, [], (None, None, []))
              end
          end
      | Raises => (cache, [], (None, None, []))
      end
  end.

(** The JSON body of [POST /message]. *)
Record MessageRequest : Type := {
  m_message : option string;
  m_session_id : option string
}.

(** The success body of [POST /message]. *)
Record ChatReply : Type := {
  user_message_content : string;
  ai_response_content : string;
  reply_timestamp : Datetime;
  reply_session_id : option string;
  metadata_message_count : Z
}.

Inductive ChatBody : Type :=
| ChatRejected (f : Failure)
| ChatAnswered (r : ChatReply).

Definition chat_error (code : Z) (error_ message_ : string) : Response ChatBody :=
  {| body := ChatRejected {| error := error_; message := message_ |}; status := code |}.

(** [send_chat_message]: the cache, the threads started and the response. *)
Definition send_chat_message (clk : Clock) (db : Firestore) (llm : Gemini) (cache : Cache)
  (uid : string) (message_data : option MessageRequest)
  : Cache * list Task * Response ChatBody :=
  match message_data with
  | None => (cache, [], chat_error 400 "Invalid request" "JSON data is required")
  | Some message_data =>
      let user_message := strip (default "" (m_message message_data)) in
      let session_id := m_session_id message_data in
      if negb (truthy user_message) then
        (cache, [], chat_error 400 "Invalid message" "Message cannot be empty")
      else if (1000 <? String.length user_message)%nat then
        (cache, [], chat_error 400 "Message too long" "Message must be 1000 characters or less")
      else
        let '(cache, started, (session_id, chain_, history_messages)) :=
          _load_session clk db llm cache session_id uid in
        match chain_, session_id with
        | Some chain_, Some sid =>
            let ai_response := generate_chat_response llm chain_ user_message history_messages in
            let turn_number := Z.of_nat (length history_messages) / 2 in
            let started :=
              started
              ++ [Http.save_conversation_turn uid sid user_message ai_response turn_number;
                  Http.update_session_activity uid sid] in
            let cache :=
              match cached cache uid sid with
              | Some entry =>
                  store_entry cache uid sid
                    {| chain := chain entry;
                       entry_last_activity := utcnow clk;
                       entry_message_count := entry_message_count entry + 1 |}
              | None => cache
              end in
            (cache, started,
             {| body :=
                  ChatAnswered
                    {| user_message_content := user_message;
                       ai_response_content := ai_response;
                       reply_timestamp := utcnow clk;
                       reply_session_id := Some sid;
                       metadata_message_count :=
                         match cached cache uid sid with
                         | Some entry => entry_message_count entry
                         | None => 0
                         end |};
                status := 201 |})
        | _, _ =>
            (cache, started, chat_error 500 "Session error" "Could not initialize chat session")
        end
  end.

(** The JSON body of [POST /end-session]. *)
Record EndRequest : Type := { e_session_id : option string }.

Inductive EndBody : Type :=
| EndRejected (f : Failure)
| Ended (message_ : string) (cleanup_count : Z).

Definition end_error (code : Z) (error_ message_ : string) : Response EndBody :=
  {| body := EndRejected {| error := error_; message := message_ |}; status := code |}.

(** [end_chat_session]: the cache, the threads started and the response. *)
Definition end_chat_session (cache : Cache) (uid : string)
  (request_data : option EndRequest) : Cache * list Task * Response EndBody :=
  match request_data with
  | None => (cache, [], end_error 400 "Invalid request" "JSON data is required")
  | Some request_data =>
      let session_id := strip (default "" (e_session_id request_data)) in
      if negb (truthy session_id) then
        (cache, [], end_error 400 "Missing session_id" "session_id is required")
      else
        let cleanup_count := 0 in
        let '(cache, cleanup_count) :=
          match cached cache uid session_id with
          | Some _ =>
              (<[uid := delete session_id (sessions_of cache uid)]> cache, cleanup_count + 1)
          | None => (cache, cleanup_count)
          end in
        (cache, [Http.end_session uid session_id],
         {| body := Ended "Session ended successfully" cleanup_count; status := 200 |})
  end.

End ChatApi.

(** ** services/mood/mood_service.py, the lookups *)

Module MoodLookup.

Import MoodService.

(** [get_daily_mood_log_by_date]: the query
    [.where("user_id", "==", user_id).where("date", "==", date_str).limit(1)]
    yields the first matching document in the order of the store; it is
    returned with its id. *)
Definition get_daily_mood_log_by_date (db : Firestore) (uid date_str : string)
  : outcome (option (string * MoodLog)) :=
  _ ← get_firestore_client db;
  Returns
    (except
       (request db
          (head (filter (fun entry => date entry.2 = Some date_str) (logs_of_user db uid))))
       None).

(** The [questions] field of a document of the [questions] collection: a
    list, a map (its entries in the order of the dict), or a value of
    another type. *)
Inductive QuestionsField (Q : Type) : Type :=
| FieldList (questions : list Q)
| FieldMap (questions : list (string * Q))
| FieldOther.
Arguments FieldList {Q} questions.
Arguments FieldMap {Q} questions.
Arguments FieldOther {Q}.

(** [c.isdigit()] on code points below 256: the ten digits and the
    superscripts two, three and one. *)
Definition is_ascii_digit (c : ascii) : bool := ((48 <=? code c) && (code c <=? 57))%N.

Definition isdigit_char (c : ascii) : bool :=
  is_ascii_digit c || (code c =? 178)%N || (code c =? 179)%N || (code c =? 185)%N.

(** [x.isdigit()]: at least one character, and digits only. *)
Definition isdigit (x : string) : bool :=
  negb (String.eqb x "") && forallb isdigit_char (list_ascii_of_string x).

(** [int(x)] where [x.isdigit()] holds: the decimal value; [ValueError] on a
    superscript digit. A map key is a field name of the store, of at most
    1500 bytes, below the length at which [int] refuses a string. *)
Definition int_of_digits (x : string) : outcome Z :=
  fold_left
    (fun value c =>
       v ← value;
       if is_ascii_digit c then Returns (10 * v + (Z.of_N (code c) - 48)) else Raises)
    (list_ascii_of_string x) (Returns 0).

(** The value of [lambda x: int(x) if x.isdigit() else x]. *)
Inductive SortKey : Type :=
| IntKey (n : Z)
| StrKey (s : string).

Definition sort_key (x : string) : outcome SortKey :=
  if isdigit x then IntKey <$> int_of_digits x else Returns (StrKey x).

(** [a < b] on keys: [TypeError] between an [int] and a [str]. *)
Definition key_lt (a b : SortKey) : outcome bool :=
  match a, b with
  | IntKey m, IntKey n => Returns (m <? n)
  | StrKey s, StrKey t => Returns (String.ltb s t)
  | _, _ => Raises
  end.

(** [sorted(items, key=...)] on items paired with their keys: the stable
    sort, by insertion; an item goes after the items whose key is not above
    its own, as the order of equal keys is kept. It raises as soon as an
    [int] key meets a [str] key, which any two keys of the two kinds make
    happen. *)
Fixpoint insert_by_key {A : Type} (x : SortKey * A) (sorted_ : list (SortKey * A))
  : outcome (list (SortKey * A)) :=
  match sorted_ with
  | [] => Returns [x]
  | y :: rest =>
      match key_lt y.1 x.1 with
      | Returns true => placed ← insert_by_key x rest; Returns (y :: placed)
      | Returns false => Returns (x :: sorted_)
      | Raises => Raises
      end
  end.

Fixpoint sorted_by_key {A : Type} (items : list (SortKey * A))
  : outcome (list (SortKey * A)) :=
  match items with
  | [] => Returns []
  | x :: rest => sorted_rest ← sorted_by_key rest; insert_by_key x sorted_rest
  end.

(** The keys of the items; the first that raises stops the computation. *)
Fixpoint with_keys {A : Type} (items : list (string * A)) : outcome (list (SortKey * A)) :=
  match items with
  | [] => Returns []
  | (k, v) :: rest =>
      key ← sort_key k; keyed_rest ← with_keys rest; Returns ((key, v) :: keyed_rest)
  end.

(** [get_daily_questions]; [questions_doc] is the document [questions/day_key]
    if it exists, then its [questions] field if it has one. *)
Definition get_daily_questions {Q : Type} (db : Firestore)
  (questions_doc : option (option (QuestionsField Q))) : outcome (list Q) :=
  _ ← get_firestore_client db;
  Returns
    (except
       (request db
          match questions_doc with
          | None => []
          | Some None => []
          | Some (Some (FieldList questions)) => questions
          | Some (Some (FieldMap questions)) =>
              match (keyed_ ← with_keys questions; sorted_by_key keyed_) with
              | Returns sorted_ => snd <$> sorted_
              | Raises => snd <$> questions
              end
          | Some (Some FieldOther) => []
          end)
       []).

End MoodLookup.

(** * Properties *)

Lemma bind_Returns {A B : Type} (a : A) (k : A -> outcome B) : (Returns a ≫= k) = k a.
Proof. reflexivity. Qed.

Lemma bind_Raises {A B : Type} (k : A -> outcome B) : (Raises ≫= k) = Raises.
Proof. reflexivity. Qed.

(** ** Stress prediction *)

Module PredictionFacts.

Import PredictionService.

(** A float lies in the unit interval. *)
Definition in_unit (x : float) : Prop :=
  PrimFloat.leb 0%float x = true /\ PrimFloat.leb x 1%float = true.

(** The label the thresholds give to a probability: [>= 0.7] High,
    [>= 0.4] Medium, else Low. *)
Definition by_thresholds (prob : float) (l : string) : Prop :=
  (PrimFloat.leb 0.7%float prob = true -> l = "High") /\
  (PrimFloat.leb 0.7%float prob = false -> PrimFloat.leb 0.4%float prob = true ->
   l = "Medium") /\
  (PrimFloat.leb 0.7%float prob = false -> PrimFloat.leb 0.4%float prob = false ->
   l = "Low").

(** [r] is [x] clamped to the unit interval: 0 below 0, 1 above 1, [x]
    itself strictly between, and equal to [x] as a number on the whole
    interval (the zero returned is the positive one, the 1 the constant).
    A probability that is not a number comes back as 1. *)
Definition clamped (x r : float) : Prop :=
  (PrimFloat.ltb x 0%float = true -> r = 0%float) /\
  (PrimFloat.ltb 1%float x = true -> r = 1%float) /\
  (PrimFloat.ltb 0%float x = true -> PrimFloat.ltb x 1%float = true -> r = x) /\
  (PrimFloat.leb 0%float x = true -> PrimFloat.leb x 1%float = true ->
   PrimFloat.eqb r x = true) /\
  (PrimFloat.eqb x x = false -> r = 1%float).

(** The numbers 0 and 1 of the comparisons. *)
Definition SF0 : spec_float := S754_zero false.
Definition SF1 : spec_float := S754_finite false 4503599627370496 (-52).

Lemma float_ltb_leb (x y : float) : PrimFloat.ltb x y = true -> PrimFloat.leb x y = true.
Proof.
  rewrite FloatAxioms.ltb_spec, FloatAxioms.leb_spec. unfold SFltb, SFleb.
  destruct (SFcompare (Prim2SF x) (Prim2SF y)) as [[ | | ] | ]; congruence.
Qed.

Lemma clamp_in_unit (x : float) : in_unit (Py.max 0.0%float (Py.min 1.0%float x)).
Proof.
  unfold in_unit, Py.max, Py.min.
  destruct (PrimFloat.ltb x 1%float) eqn:Hhi.
  - destruct (PrimFloat.ltb 0%float x) eqn:Hlo.
    + split; now apply float_ltb_leb.
    + split; reflexivity.
  - split; reflexivity.
Qed.

Lemma SFcompare_antisym (x y : spec_float) :
  SFcompare y x = option_map CompOpp (SFcompare x y).
Proof.
  destruct x as [sx | sx | | sx mx ex], y as [sy | sy | | sy my ey];
    try destruct sx; try destruct sy; try reflexivity; simpl;
    rewrite (Z.compare_antisym ex ey); destruct (ex ?= ey); simpl; try reflexivity;
    change (Pos.compare_cont Eq my mx) with (my ?= mx)%positive;
    change (Pos.compare_cont Eq mx my) with (mx ?= my)%positive;
    rewrite (Pos.compare_antisym mx my); destruct (mx ?= my)%positive; reflexivity.
Qed.

Lemma SFcompare_refl (x : spec_float) :
  SFcompare x x = Some Eq \/ SFcompare x x = None.
Proof.
  destruct x as [s | s | | s m e]; try destruct s; simpl; auto;
    rewrite Z.compare_refl, Pos.compare_refl; auto.
Qed.

Lemma one_SF : Prim2SF 1%float = S754_finite false 4503599627370496 (-52).
Proof. vm_compute. reflexivity. Qed.

Lemma zero_SF : Prim2SF 0%float = S754_zero false.
Proof. vm_compute. reflexivity. Qed.



Lemma SF_below_zero (X : spec_float) :
  SFltb X SF0 = true -> SFltb X SF1 = true /\ SFltb SF0 X = false.
Proof. destruct X as [s | s | | s m e]; try destruct s; simpl; intros; auto; discriminate. Qed.

Lemma SF_above_one (X : spec_float) : SFltb SF1 X = true -> SFltb X SF1 = false.
Proof.
  unfold SFltb. rewrite (SFcompare_antisym SF1 X).
  destruct (SFcompare SF1 X) as [[ | | ] | ]; simpl; congruence.
Qed.

Lemma SF_zero (X : spec_float) :
  SFleb SF0 X = true -> SFltb SF0 X = false -> SFltb X SF1 = true /\ SFeqb SF0 X = true.
Proof. destruct X as [s | s | | s m e]; try destruct s; simpl; intros; auto; discriminate. Qed.

Lemma SF_number (X Y : spec_float) : SFltb Y X = true -> SFeqb X X = true.
Proof.
  unfold SFltb, SFeqb. destruct (SFcompare_refl X) as [-> | Hnan]; [ reflexivity | ].
  destruct X as [s | s | | s m e]; try destruct s; try discriminate;
    destruct Y as [t | t | | t n f]; try destruct t; try discriminate;
    simpl in Hnan; rewrite ?Z.compare_refl in Hnan; discriminate.
Qed.

Lemma SF_one (X : spec_float) :
  SFleb X SF1 = true -> SFltb X SF1 = false -> SFeqb SF1 X = true.
Proof.
  unfold SFleb, SFltb, SFeqb. rewrite (SFcompare_antisym X SF1).
  destruct (SFcompare X SF1) as [[ | | ] | ]; simpl; congruence.
Qed.

Lemma SF_nan (X : spec_float) : SFeqb X X = false -> SFltb X SF1 = false.
Proof.
  unfold SFeqb. destruct (SFcompare_refl X) as [-> | Hnan]; [ discriminate | ].
  intros _. destruct X as [s | s | | s m e]; try destruct s; try reflexivity;
    simpl in Hnan; rewrite ?Z.compare_refl in Hnan; discriminate.
Qed.

Lemma clamp_clamped (x : float) : clamped x (Py.max 0%float (Py.min 1%float x)).
Proof.
  assert (Hzero_one : PrimFloat.ltb 0%float 1%float = true) by (vm_compute; reflexivity).
  assert (Hone : PrimFloat.eqb 1%float 1%float = true) by (vm_compute; reflexivity).
  unfold clamped.
  rewrite (FloatAxioms.ltb_spec x 0%float), (FloatAxioms.ltb_spec 1%float x),
    (FloatAxioms.ltb_spec 0%float x), (FloatAxioms.ltb_spec x 1%float),
    (FloatAxioms.leb_spec 0%float x), (FloatAxioms.leb_spec x 1%float),
    (FloatAxioms.eqb_spec x x).
  assert (Hcases :
            (SFltb (Prim2SF x) SF1 = true /\ SFltb SF0 (Prim2SF x) = true
             /\ Py.max 0%float (Py.min 1%float x) = x) \/
            (SFltb (Prim2SF x) SF1 = true /\ SFltb SF0 (Prim2SF x) = false
             /\ Py.max 0%float (Py.min 1%float x) = 0%float) \/
            (SFltb (Prim2SF x) SF1 = false
             /\ Py.max 0%float (Py.min 1%float x) = 1%float)).
  { unfold Py.max, Py.min. rewrite (FloatAxioms.ltb_spec x 1%float), one_SF. fold SF1.
    destruct (SFltb (Prim2SF x) SF1).
    - rewrite (FloatAxioms.ltb_spec 0%float x), zero_SF. fold SF0.
      destruct (SFltb SF0 (Prim2SF x)); auto.
    - rewrite Hzero_one. auto. }
  rewrite one_SF, zero_SF. fold SF0 SF1.
  destruct Hcases as [(Hx1 & H0x & ->) | [(Hx1 & H0x & ->) | (Hx1 & ->)]].
  - split; [ intros H; apply SF_below_zero in H as [_ H]; congruence | ].
    split; [ intros H; apply SF_above_one in H; congruence | ].
    split; [ reflexivity | ].
    split; [ intros _ _; rewrite FloatAxioms.eqb_spec; exact (SF_number _ _ H0x) | ].
    intros H. rewrite (SF_number _ _ H0x) in H. discriminate.
  - split; [ reflexivity | ].
    split; [ intros H; apply SF_above_one in H; congruence | ].
    split; [ congruence | ].
    split; [ intros H _; rewrite FloatAxioms.eqb_spec, zero_SF;
             exact (proj2 (SF_zero _ H H0x)) | ].
    intros H. apply SF_nan in H. congruence.
  - split; [ intros H; apply SF_below_zero in H as [H _]; congruence | ].
    split; [ reflexivity | ].
    split; [ congruence | ].
    split; [ intros _ H; rewrite FloatAxioms.eqb_spec, one_SF; exact (SF_one _ H Hx1) | ].
    reflexivity.
Qed.

Lemma label_of_by_thresholds (prob : float) : by_thresholds prob (label_of prob).
Proof.
  unfold by_thresholds, label_of.
  destruct (PrimFloat.leb 0.7%float prob); destruct (PrimFloat.leb 0.4%float prob);
    repeat split; intros; congruence.
Qed.

(** Every failure of the model path leads to the fallback: the adapter is
    not initialised, or its call (parsing included) raises. *)
Lemma failure_uses_fallback (base_llm : bool) (invoke : outcome StressPrediction)
  (tomorrow : string) (avg_mood_score : float) (chat_count avg_quiz_score : Z) :
  base_llm = false \/ invoke = Raises ->
  let fb := _fallback_prediction avg_mood_score chat_count avg_quiz_score in
  predict_stress base_llm invoke tomorrow avg_mood_score chat_count avg_quiz_score
  = {| date := tomorrow;
       stressProbability := stress_probability fb;
       p_label := label fb;
       p_confidence := 0.65%float;
       basedOn := (avg_mood_score, chat_count, avg_quiz_score) |}.
Proof.
  intros [-> | ->]; unfold predict_stress, _predict_with_llm; simpl.
  - reflexivity.
  - destruct base_llm; reflexivity.
Qed.

(** The two predictions the specification lists for the fallback. *)
Example fallback_highest :
  _fallback_prediction 1.0%float 15 12
  = {| stress_probability := 1.0%float; label := "High"; confidence := 0.65%float |}.
Proof. vm_compute. reflexivity. Qed.

Example fallback_lowest :
  _fallback_prediction 5.0%float 0 60
  = {| stress_probability := 0.0%float; label := "Low"; confidence := 0.65%float |}.
Proof. vm_compute. reflexivity. Qed.

(** Just below a threshold the rounded probability reaches it and the label
    does not follow: 0.396875 is returned as 0.4 with the label Low. *)
Example fallback_low_at_threshold :
  _fallback_prediction 1.03125%float 0 60
  = {| stress_probability := 0.4%float; label := "Low"; confidence := 0.65%float |}.
Proof. vm_compute. reflexivity. Qed.

(** C3, at the input where it fails: with an uninitialised adapter, a mood
    average of 4.03125, 15 chats and a quiz average of 12, the formula gives
    0.696875; the label is taken from that value and the probability is
    rounded afterwards, so the answer pairs the probability 0.7 with the
    label Medium, whereas the thresholds give High to 0.7. *)
Theorem fallback_label_precedes_rounding :
  let p := predict_stress false Raises "2026-01-01" 4.03125%float 15 12 in
  stressProbability p = 0.7%float /\
  p_label p = "Medium" /\
  p_confidence p = 0.65%float /\
  label_of (stressProbability p) = "High".
Proof. vm_compute. repeat split; reflexivity. Qed.

(** What the model path answers when the model suggests 1.7, Low and -0.3. *)
Example llm_prediction_out_of_range :
  predict_stress true
    (Returns {| stress_probability := 1.7%float; label := "Low";
                confidence := (-0.3)%float |})
    "2026-01-01" 3.0%float 4 30
  = {| date := "2026-01-01";
       stressProbability := 1.0%float;
       p_label := "High";
       p_confidence := 0.0%float;
       basedOn := (3.0%float, 4, 30) |}.
Proof. vm_compute. reflexivity. Qed.

(** C6: on the model path the returned probability and confidence are the
    model's, each clamped to [0,1] (0 for a value below 0, 1 for a value
    above 1, the value itself in between), so both lie in [0,1]; the
    returned label is the one the thresholds give to the returned
    probability, and the label the model suggested has no influence on the
    answer. *)
Theorem llm_prediction_clamped_and_relabelled
  (tomorrow : string) (avg_mood_score : float) (chat_count avg_quiz_score : Z)
  (model_output : StressPrediction) :
  let p := predict_stress true (Returns model_output) tomorrow
             avg_mood_score chat_count avg_quiz_score in
  clamped (stress_probability model_output) (stressProbability p) /\
  clamped (confidence model_output) (p_confidence p) /\
  in_unit (stressProbability p) /\
  in_unit (p_confidence p) /\
  by_thresholds (stressProbability p) (p_label p) /\
  forall suggested : string,
    predict_stress true
      (Returns {| stress_probability := stress_probability model_output;
                  label := suggested;
                  confidence := confidence model_output |})
      tomorrow avg_mood_score chat_count avg_quiz_score = p.
Proof.
  cbn.
  split; [ apply clamp_clamped | ]. split; [ apply clamp_clamped | ].
  split; [ apply clamp_in_unit | ]. split; [ apply clamp_in_unit | ].
  split; [ apply label_of_by_thresholds | ]. reflexivity.
Qed.

End PredictionFacts.

(** ** The order of strings *)

Module StrOrder.

Lemma compare_refl (s : string) : String.compare s s = Eq.
Proof.
  induction s as [ | c s IH]; simpl; [ reflexivity | ].
  unfold Ascii.compare. now rewrite N.compare_refl.
Qed.

Lemma compare_lt_trans (a b c : string) :
  String.compare a b = Lt -> String.compare b c = Lt -> String.compare a c = Lt.
Proof.
  revert b c. induction a as [ | x a IH]; intros [ | y b] [ | z c]; simpl;
    try congruence.
  unfold Ascii.compare.
  destruct (N.compare_spec (N_of_ascii x) (N_of_ascii y)) as [Hxy | Hxy | Hxy];
    destruct (N.compare_spec (N_of_ascii y) (N_of_ascii z)) as [Hyz | Hyz | Hyz];
    destruct (N.compare_spec (N_of_ascii x) (N_of_ascii z)) as [Hxz | Hxz | Hxz];
    try congruence; try lia.
  apply IH.
Qed.

Lemma str_ltb_leb (a b : string) : String.ltb a b = true -> String.leb a b = true.
Proof. unfold String.ltb, String.leb. destruct (String.compare a b); congruence. Qed.

Lemma not_ltb_leb (a b : string) : String.ltb a b = false -> String.leb b a = true.
Proof.
  unfold String.ltb, String.leb. rewrite (String.compare_antisym b a).
  destruct (String.compare a b); simpl; congruence.
Qed.

Lemma leb_refl (a : string) : String.leb a a = true.
Proof. unfold String.leb. now rewrite compare_refl. Qed.

Lemma leb_trans (a b c : string) :
  String.leb a b = true -> String.leb b c = true -> String.leb a c = true.
Proof.
  unfold String.leb.
  destruct (String.compare a b) eqn:Hab; [ | | discriminate ];
    destruct (String.compare b c) eqn:Hbc; try discriminate; intros _ _.
  - apply String.compare_eq_iff in Hab, Hbc. subst. now rewrite compare_refl.
  - apply String.compare_eq_iff in Hab. subst. now rewrite Hbc.
  - apply String.compare_eq_iff in Hbc. subst. now rewrite Hab.
  - now rewrite (compare_lt_trans _ _ _ Hab Hbc).
Qed.

End StrOrder.

(** ** Daily quiz *)

Module MoodFacts.

Import MoodService MoodApi.

(** [p] is the first of the greatest scores of [l], named after [qs]. *)
Definition first_highest (l : list Z) (qs : list string) (p : Point) : Prop :=
  exists i : nat,
    qs !! i = Some (question_id p) /\ l !! i = Some (score p) /\
    (forall (j : nat) (s : Z), l !! j = Some s -> s <= score p) /\
    (forall (j : nat) (s : Z), (j < i)%nat -> l !! j = Some s -> s < score p).

(** [p] is the first of the least scores of [l], named after [qs]. *)
Definition first_lowest (l : list Z) (qs : list string) (p : Point) : Prop :=
  exists i : nat,
    qs !! i = Some (question_id p) /\ l !! i = Some (score p) /\
    (forall (j : nat) (s : Z), l !! j = Some s -> score p <= s) /\
    (forall (j : nat) (s : Z), (j < i)%nat -> l !! j = Some s -> score p < s).

Lemma fold_max_spec (l : list Z) (x : Z) :
  let m := fold_left (fun m y => if m <? y then y else m) l x in
  m ∈ x :: l /\ forall y, y ∈ x :: l -> y <= m.
Proof.
  revert x. induction l as [ | a l IH]; intros x; simpl.
  - split; [ apply list_elem_of_here | ].
    intros y Hy. apply list_elem_of_singleton in Hy. lia.
  - destruct (IH (if x <? a then a else x)) as [Hin Hle]. split.
    + apply elem_of_cons in Hin as [Heq | Hin].
      * rewrite Heq. destruct (x <? a);
          [ apply list_elem_of_further, list_elem_of_here | apply list_elem_of_here ].
      * do 2 apply list_elem_of_further. exact Hin.
    + intros y Hy.
      assert (Hstep : x <= (if x <? a then a else x) /\ a <= (if x <? a then a else x))
        by (destruct (Z.ltb_spec x a); lia).
      assert (Hm := Hle _ (list_elem_of_here _ _)).
      apply elem_of_cons in Hy as [-> | Hy]; [ lia | ].
      apply elem_of_cons in Hy as [-> | Hy]; [ lia | ].
      apply Hle. now apply list_elem_of_further.
Qed.

Lemma fold_min_spec (l : list Z) (x : Z) :
  let m := fold_left (fun m y => if y <? m then y else m) l x in
  m ∈ x :: l /\ forall y, y ∈ x :: l -> m <= y.
Proof.
  revert x. induction l as [ | a l IH]; intros x; simpl.
  - split; [ apply list_elem_of_here | ].
    intros y Hy. apply list_elem_of_singleton in Hy. lia.
  - destruct (IH (if a <? x then a else x)) as [Hin Hle]. split.
    + apply elem_of_cons in Hin as [Heq | Hin].
      * rewrite Heq. destruct (a <? x);
          [ apply list_elem_of_further, list_elem_of_here | apply list_elem_of_here ].
      * do 2 apply list_elem_of_further. exact Hin.
    + intros y Hy.
      assert (Hstep : (if a <? x then a else x) <= x /\ (if a <? x then a else x) <= a)
        by (destruct (Z.ltb_spec a x); lia).
      assert (Hm := Hle _ (list_elem_of_here _ _)).
      apply elem_of_cons in Hy as [-> | Hy]; [ lia | ].
      apply elem_of_cons in Hy as [-> | Hy]; [ lia | ].
      apply Hle. now apply list_elem_of_further.
Qed.

(** [l.index(x)] finds the first position of an element of [l]. *)
Lemma index_spec (l : list Z) (x : Z) :
  x ∈ l ->
  exists i : nat,
    index l x = Returns i /\ l !! i = Some x /\
    forall j : nat, (j < i)%nat -> l !! j <> Some x.
Proof.
  induction l as [ | y l IH]; intros Hin; [ now apply elem_of_nil in Hin | ].
  simpl. destruct (Z.eqb_spec y x) as [-> | Hne].
  - exists 0%nat. split; [ reflexivity | split; [ reflexivity | intros j Hj; lia ] ].
  - apply elem_of_cons in Hin as [Heq | Hin]; [ congruence | ].
    destruct (IH Hin) as (i & Hi & Hl & Hfirst). exists (S i). rewrite Hi. simpl.
    repeat split; [ exact Hl | ].
    intros [ | j] Hj; simpl; [ congruence | ]. apply Hfirst. lia.
Qed.

Lemma high_low_points_spec (all_scores : list Z) :
  length all_scores = 12%nat ->
  exists high low : Point,
    high_low_points all_scores = Returns (high, low) /\
    first_highest all_scores all_questions high /\
    first_lowest all_scores all_questions low.
Proof.
  intros Hlen. unfold high_low_points.
  destruct all_scores as [ | x l]; [ discriminate | ]. simpl max_of. simpl min_of.
  destruct (fold_max_spec l x) as [Hmax_in Hmax_le].
  destruct (fold_min_spec l x) as [Hmin_in Hmin_le].
  set (hi := fold_left (fun m y => if m <? y then y else m) l x) in *.
  set (lo := fold_left (fun m y => if y <? m then y else m) l x) in *.
  destruct (index_spec _ _ Hmax_in) as (i & Hi & Hli & Hfi).
  destruct (index_spec _ _ Hmin_in) as (k & Hk & Hlk & Hfk).
  assert (Hqi : exists q, all_questions !! i = Some q).
  { apply lookup_lt_is_Some. apply lookup_lt_Some in Hli. simpl in *. lia. }
  assert (Hqk : exists q, all_questions !! k = Some q).
  { apply lookup_lt_is_Some. apply lookup_lt_Some in Hlk. simpl in *. lia. }
  destruct Hqi as [qi Hqi]. destruct Hqk as [qk Hqk].
  exists {| question_id := qi; score := hi |}, {| question_id := qk; score := lo |}.
  split; [ | split ].
  - rewrite bind_Returns, Hi, !bind_Returns, Hk, bind_Returns. unfold item.
    rewrite Hqi, Hli, Hqk, Hlk. reflexivity.
  - exists i. simpl. repeat split; try assumption.
    + intros j s Hj. apply Hmax_le. eapply list_elem_of_lookup_2. exact Hj.
    + intros j s Hlt Hj.
      assert (s <= hi) by (apply Hmax_le; eapply list_elem_of_lookup_2; exact Hj).
      assert (s <> hi) by (intros ->; exact (Hfi j Hlt Hj)). lia.
  - exists k. simpl. repeat split; try assumption.
    + intros j s Hj. apply Hmin_le. eapply list_elem_of_lookup_2. exact Hj.
    + intros j s Hlt Hj.
      assert (lo <= s) by (apply Hmin_le; eapply list_elem_of_lookup_2; exact Hj).
      assert (s <> lo) by (intros ->; exact (Hfk j Hlt Hj)). lia.
Qed.

(** A refused body is answered 400. *)
Lemma validate_refusal (payload : option QuizPayload) (refusal : Response QuizBody) :
  validate payload = inl refusal -> status refusal = 400.
Proof.
  unfold validate. intros H.
  repeat case_match; simplify_eq; reflexivity.
Qed.

(** An accepted body carries every key, five rotating scores, and scores
    between 1 and 5; the validated sections are the ones it carries. *)
Lemma validate_accepts (payload : option QuizPayload) (accepted : QuizPayload)
  (core : CoreScores) (rotating : RotatingScores) (dass : DassToday) :
  validate payload = inr (accepted, core, rotating, dass) ->
  payload = Some accepted /\
  p_core_scores accepted
  = Some {| p_mood := Some (mood core); p_energy := Some (energy core);
            p_sleep := Some (sleep core); p_stress := Some (stress core) |} /\
  p_rotating_scores accepted
  = Some {| p_domain_name := Some (domain_name rotating);
            p_scores := Some (scores rotating) |} /\
  p_dass_today accepted
  = Some {| p_depression := Some (depression dass); p_anxiety := Some (anxiety dass);
            p_dass_stress := Some (dass_stress dass) |} /\
  length (scores rotating) = 5%nat /\
  forallb in_1_5 (all_scores_of core rotating dass) = true.
Proof.
  unfold validate. intros H.
  repeat case_match; simplify_eq.
  repeat match goal with
         | c : CorePayload |- _ => destruct c
         | c : RotatingPayload |- _ => destruct c
         | c : DassPayload |- _ => destruct c
         end.
  simpl in *. simplify_eq.
  repeat match goal with
         | H : negb _ = false |- _ => apply negb_false_iff in H
         end.
  split; [ reflexivity | ]. do 3 (split; [ assumption | ]).
  split; [ now apply Nat.eqb_eq | ].
  unfold all_scores_of. rewrite !forallb_app.
  repeat match goal with
         | H : _ && _ = true |- _ => apply andb_true_iff in H as [? ?]
         end.
  simpl.
  repeat match goal with
         | H : _ = true |- _ => rewrite H; clear H
         end.
  reflexivity.
Qed.

Lemma all_scores_length (core : CoreScores) (rotating : RotatingScores) (dass : DassToday) :
  length (scores rotating) = 5%nat ->
  length (all_scores_of core rotating dass) = 12%nat.
Proof. intros H. unfold all_scores_of. rewrite !length_app, H. reflexivity. Qed.

(** On an accepted body the averages and the two points are computed
    without raising. *)
Lemma daily_doc_of_accepted (accepted : QuizPayload)
  (core : CoreScores) (rotating : RotatingScores) (dass : DassToday) :
  length (scores rotating) = 5%nat ->
  exists (high low : Point) (core_avg_ rotating_avg_ : float),
    high_low_points (all_scores_of core rotating dass) = Returns (high, low) /\
    daily_doc_of accepted core rotating dass
    = Returns
        {| date := p_date accepted;
           core_scores := core;
           rotating_scores := rotating;
           dass_today := dass;
           high_point := high;
           low_point := low;
           core_avg := core_avg_;
           rotating_avg := rotating_avg_;
           additional_notes :=
             if truthy_opt (p_additional_notes accepted)
             then p_additional_notes accepted else None;
           user_id := None;
           submitted_at := None |}.
Proof.
  intros Hlen.
  destruct (high_low_points_spec _ (all_scores_length core rotating dass Hlen))
    as (high & low & Hpoints & _).
  unfold daily_doc_of, average. rewrite Hpoints, Hlen. simpl.
  eexists high, low, _, _. split; reflexivity.
Qed.

(** Closes a branch whose response cannot carry the status assumed. *)
Ltac wrong_status :=
  cbn beta iota in *; rewrite ?bind_Raises in *; cbn beta iota in *;
  simplify_eq; simpl in *; first [ discriminate | lia ].

(** Case analysis on the first call of a sequence known to return. *)
Ltac step_bind H :=
  match type of H with
  | (?m ≫= _) = _ =>
      let E := fresh "E" in
      destruct m eqn:E;
      [ rewrite bind_Returns in H | rewrite bind_Raises in H; discriminate ]
  end.

(** What a saved submission went through: the body was accepted, the store
    was initialised and reachable, the stamped document was written under the
    composite id, and the weekly aggregation ran on the store so updated. *)
Lemma submit_saved (clk : Clock) (out : Outage) (db : Firestore) (uid : string)
  (payload : option QuizPayload) (db' : Firestore) (resp : Response QuizBody) :
  submit_daily_quiz clk out db uid payload = (db', resp) ->
  status resp = 201 ->
  exists accepted core rotating dass daily_doc weekly_result,
    validate payload = inr (accepted, core, rotating, dass) /\
    daily_doc_of accepted core rotating dass = Returns daily_doc /\
    initialized db = true /\ reachable db = true /\
    let doc_id_ := composite_id uid (date_or_today clk (p_date accepted)) in
    let db1 := set_user_mood_logs (insert doc_id_ (stamped clk uid daily_doc)) db in
    weekly_aggregation clk out db1 uid = Returns (db', weekly_result) /\
    resp = {| body := Saved doc_id_ (high_point daily_doc) (low_point daily_doc)
                        weekly_result;
              status := 201 |}.
Proof.
  unfold submit_daily_quiz. intros H Hstatus.
  destruct (validate payload) as [refusal | [[[accepted core] rotating] dass]] eqn:Hv.
  { simplify_eq. apply validate_refusal in Hv. simpl in *. lia. }
  destruct (daily_doc_of accepted core rotating dass) as [daily_doc | ] eqn:Hdoc;
    [ | wrong_status ].
  assert (Hdate : date daily_doc = p_date accepted).
  { unfold daily_doc_of in Hdoc.
    destruct (average _); [ | discriminate ].
    destruct (average _); [ | discriminate ].
    destruct (high_low_points _); [ | discriminate ].
    rewrite !bind_Returns in Hdoc. now simplify_eq. }
  unfold upsert_daily_mood_log, get_firestore_client, request in H.
  destruct (initialized db) eqn:Hinit; [ | wrong_status ].
  rewrite bind_Returns in H.
  destruct (reachable db) eqn:Hreach; [ | wrong_status ].
  cbn iota beta in H. rewrite Hdate in H.
  destruct (weekly_aggregation clk out _ uid) as [[db2 weekly_result] | ] eqn:Hweekly;
    [ | wrong_status ].
  simplify_eq.
  exists accepted, core, rotating, dass, daily_doc, weekly_result.
  repeat split; try assumption; reflexivity.
Qed.


(** The body of the specification's example: scores 3,5,1,4 (core),
    2,3,3,3,3 (rotating) and 2,2,2 (clinical). *)
Definition example_payload : QuizPayload :=
  {| p_core_scores :=
       Some {| p_mood := Some 3; p_energy := Some 5; p_sleep := Some 1; p_stress := Some 4 |};
     p_rotating_scores :=
       Some {| p_domain_name := Some "social"; p_scores := Some [2; 3; 3; 3; 3] |};
     p_dass_today :=
       Some {| p_depression := Some 2; p_anxiety := Some 2; p_dass_stress := Some 2 |};
     p_date := Some "2025-01-07";
     p_additional_notes := None |}.


(** The weekly aggregation on a store that is initialised and reachable:
    a count that fails reads as 0, a query of the last logs that fails as no
    log, an existence check that fails as no aggregate, and a save that
    fails writes nothing. *)
Lemma weekly_aggregation_run (clk : Clock) (out : Outage) (db : Firestore) (uid : string) :
  initialized db = true -> reachable db = true ->
  weekly_aggregation clk out db uid
  = let n := if count_fails out then 0 else Z.of_nat (length (logs_of_user db uid)) in
    let last_7 :=
      if recent_fails out then []
      else take 7 (merge_sort newer_first (filter has_submitted_at (logs_of_user db uid))) in
    if (7 <=? n) && (n mod 7 =? 0) && (length last_7 =? 7)%nat then
      depression_total_ ←
        dass_total ((fun entry => depression (dass_today entry.2)) <$> last_7);
      anxiety_total_ ← dass_total ((fun entry => anxiety (dass_today entry.2)) <$> last_7);
      stress_total_ ←
        dass_total ((fun entry => dass_stress (dass_today entry.2)) <$> last_7);
      let week_start_ := (week_range clk last_7).1 in
      let week_end_ := (week_range clk last_7).2 in
      if negb (exists_fails out)
         && existsb (same_week uid week_start_ week_end_) (user_weekly_dass db)
      then Returns (db, None)
      else if save_fails out then Returns (db, None)
      else
        Returns
          (set_user_weekly_dass
             (fun docs =>
                docs ++ [{| w_user_id := uid;
                            week_start := week_start_;
                            week_end := week_end_;
                            depression_total := depression_total_;
                            anxiety_total := anxiety_total_;
                            stress_total := stress_total_;
                            calculated_at := utcnow clk |}]) db,
           if truthy (auto_id clk) then
             Some {| weekly_id := auto_id clk;
                     r_week_start := week_start_;
                     r_week_end := week_end_;
                     r_depression_total := depression_total_;
                     r_anxiety_total := anxiety_total_;
                     r_stress_total := stress_total_ |}
           else None)
    else Returns (db, None).
Proof.
  intros Hinit Hreach.
  unfold weekly_aggregation, get_daily_mood_logs_count, get_last_daily_mood_logs,
    weekly_dass_exists, save_weekly_dass_totals, get_firestore_client, request, found.
  destruct out as [c r e s]. cbn [count_fails recent_fails exists_fails save_fails].
  destruct r; [ | destruct c ].
  - destruct c; cbn [out_of_reach initialized reachable]; rewrite ?Hinit, ?Hreach;
      cbn beta iota zeta; rewrite ?bind_Returns; cbn beta iota zeta;
      unfold except; rewrite ?bind_Returns; cbn [length Nat.eqb];
      rewrite ?andb_false_r; reflexivity.
  - cbn [out_of_reach initialized reachable]; rewrite ?Hinit, ?Hreach;
      cbn beta iota zeta; rewrite ?bind_Returns; cbn beta iota zeta;
      unfold except; rewrite ?bind_Returns. reflexivity.
  - destruct e, s; cbn [out_of_reach initialized reachable]; rewrite ?Hinit, ?Hreach;
      cbn beta iota zeta; rewrite ?bind_Returns; cbn beta iota zeta;
      unfold except; rewrite ?bind_Returns;
      (destruct (_ && _); [ | reflexivity ]);
      (destruct (dass_total _); [ | reflexivity ]); rewrite ?bind_Returns;
      (destruct (dass_total _); [ | reflexivity ]); rewrite ?bind_Returns;
      (destruct (dass_total _); [ | reflexivity ]); rewrite ?bind_Returns;
      cbn [negb andb fst snd]; cbn beta iota;
      first [ reflexivity | destruct (existsb _ _); reflexivity ].
Qed.

(** The weekly aggregation leaves the daily logs and the state of the store
    connection as they are. *)
Lemma weekly_aggregation_logs (clk : Clock) (out : Outage) (db : Firestore) (uid : string)
  (db' : Firestore) (weekly_result : option WeeklyResult) :
  initialized db = true -> reachable db = true ->
  weekly_aggregation clk out db uid = Returns (db', weekly_result) ->
  user_mood_logs db' = user_mood_logs db /\
  initialized db' = true /\ reachable db' = true.
Proof.
  intros Hinit Hreach. rewrite weekly_aggregation_run by assumption. cbv zeta.
  destruct (_ && _); [ | intros; simplify_eq; auto ].
  intros H. do 3 step_bind H.
  destruct (_ && _); [ simplify_eq; auto | ].
  destruct (save_fails out); simplify_eq; auto.
Qed.

(** The date a submission is filed under. *)
Definition quiz_date (clk : Clock) (payload : option QuizPayload) : string :=
  date_or_today clk (payload ≫= p_date).

(** The stored document carries the scores of the body. *)
Definition reflects (log : MoodLog) (payload : QuizPayload) : Prop :=
  p_core_scores payload
  = Some {| p_mood := Some (mood (core_scores log));
            p_energy := Some (energy (core_scores log));
            p_sleep := Some (sleep (core_scores log));
            p_stress := Some (stress (core_scores log)) |} /\
  p_rotating_scores payload
  = Some {| p_domain_name := Some (domain_name (rotating_scores log));
            p_scores := Some (scores (rotating_scores log)) |} /\
  p_dass_today payload
  = Some {| p_depression := Some (depression (dass_today log));
            p_anxiety := Some (anxiety (dass_today log));
            p_dass_stress := Some (dass_stress (dass_today log)) |}.

(** The document of a user and a date. *)
Definition of_user_and_date (uid date_str : string) (entry : string * MoodLog) : Prop :=
  user_id entry.2 = Some uid /\ date entry.2 = Some date_str.

#[global] Instance of_user_and_date_dec uid date_str entry :
  Decision (of_user_and_date uid date_str entry).
Proof. unfold of_user_and_date. apply _. Defined.

(** Every daily log is stored under the composite id of its user and date. *)
Definition keyed (db : Firestore) : Prop :=
  forall (id : string) (log : MoodLog),
    user_mood_logs db !! id = Some log ->
    exists uid date_str,
      user_id log = Some uid /\ date log = Some date_str /\
      id = composite_id uid date_str.

(** *** The stored document, as the specification describes it *)

(** The twelve scores of a document, in the order of the questions: core,
    rotating, clinical. *)
Definition twelve_scores (log : MoodLog) : list Z :=
  [mood (core_scores log); energy (core_scores log);
   sleep (core_scores log); stress (core_scores log)]
  ++ scores (rotating_scores log)
  ++ [depression (dass_today log); anxiety (dass_today log); dass_stress (dass_today log)].

(** The arithmetic mean of integer scores. *)
Definition mean (l : list Z) : float :=
  PrimFloat.div (float_of_int (foldr Z.add 0 l)) (float_of_int (Z.of_nat (length l))).

(** The date a body is filed under: the date it carries, or the day of the
    request when it carries none, or an empty one. *)
Definition filed_under (clk : Clock) (body_ : QuizPayload) (date_str : string) : Prop :=
  (p_date body_ = Some date_str /\ date_str <> "") \/
  ((p_date body_ = None \/ p_date body_ = Some "") /\ date_str = today clk).

(** [log] is the document of [body_], filed for [uid] under [date_str] at
    the time [now]: each of its eleven fields is the one the body gives it,
    so that nothing of another document is left in it. *)
Definition document_of (body_ : QuizPayload) (uid date_str : string) (now : Datetime)
  (log : MoodLog) : Prop :=
  reflects log body_ /\
  date log = Some date_str /\
  user_id log = Some uid /\
  submitted_at log = Some now /\
  first_highest (twelve_scores log) all_questions (high_point log) /\
  first_lowest (twelve_scores log) all_questions (low_point log) /\
  core_avg log
  = mean [mood (core_scores log); energy (core_scores log);
          sleep (core_scores log); stress (core_scores log)] /\
  rotating_avg log = mean (scores (rotating_scores log)) /\
  additional_notes log
  = match p_additional_notes body_ with
    | Some notes => if String.eqb notes "" then None else Some notes
    | None => None
    end.

Lemma fold_left_add (l : list Z) (a : Z) : fold_left Z.add l a = a + foldr Z.add 0 l.
Proof.
  revert a. induction l as [ | x l IH]; intros a; simpl; [ lia | ].
  rewrite IH. lia.
Qed.

Lemma average_mean (l : list Z) : l <> [] -> average l = Returns (mean l).
Proof.
  intros Hsome. unfold average, mean.
  destruct l as [ | x l]; [ congruence | ].
  cbn [length Nat.eqb]. now rewrite fold_left_add, Z.add_0_l.
Qed.

Lemma filed_under_date (clk : Clock) (body_ : QuizPayload) (date_str : string) :
  filed_under clk body_ date_str -> date_or_today clk (p_date body_) = date_str.
Proof.
  unfold date_or_today. intros [[-> Hsome] | [[-> | ->] ->]]; try reflexivity.
  apply String.eqb_neq in Hsome. unfold truthy. now rewrite Hsome.
Qed.

(** What a saved submission leaves in [user_mood_logs]. *)
Lemma submit_stored (clk : Clock) (out : Outage) (db : Firestore) (uid : string)
  (payload : option QuizPayload) (db' : Firestore) (resp : Response QuizBody) :
  submit_daily_quiz clk out db uid payload = (db', resp) ->
  status resp = 201 ->
  exists (accepted : QuizPayload) (log : MoodLog),
    payload = Some accepted /\
    user_mood_logs db'
    = <[composite_id uid (quiz_date clk payload) := log]> (user_mood_logs db) /\
    reflects log accepted /\
    user_id log = Some uid /\
    date log = Some (quiz_date clk payload) /\
    submitted_at log = Some (utcnow clk) /\
    (exists high low weekly,
       body resp = Saved (composite_id uid (quiz_date clk payload)) high low weekly) /\
    initialized db' = true /\ reachable db' = true.
Proof.
  intros Hsubmit Hstatus.
  destruct (submit_saved _ _ _ _ _ _ _ Hsubmit Hstatus)
    as (accepted & core & rotating & dass & daily_doc & weekly
        & Hv & Hdoc & Hinit & Hreach & Hweekly & ->).
  destruct (validate_accepts _ _ _ _ _ Hv) as (-> & Hcore & Hrot & Hdass & Hlen & _).
  destruct (daily_doc_of_accepted accepted core rotating dass Hlen)
    as (high & low & ca & ra & _ & Hdoc').
  rewrite Hdoc in Hdoc'. simplify_eq.
  apply weekly_aggregation_logs in Hweekly as (Hlogs & Hinit' & Hreach'); [ | assumption.. ].
  eexists accepted, _. split; [ reflexivity | ].
  split; [ rewrite Hlogs; reflexivity | ].
  unfold reflects. simpl. repeat split; try assumption. eauto.
Qed.

(** The document a saved submission writes is the document of its body. *)
Lemma submit_document (clk : Clock) (out : Outage) (db : Firestore) (uid : string)
  (body_ : QuizPayload) (db' : Firestore) (resp : Response QuizBody) (date_str : string) :
  submit_daily_quiz clk out db uid (Some body_) = (db', resp) ->
  status resp = 201 ->
  filed_under clk body_ date_str ->
  exists log : MoodLog,
    user_mood_logs db' = <[uid +:+ "_" +:+ date_str := log]> (user_mood_logs db) /\
    document_of body_ uid date_str (utcnow clk) log /\
    exists high low weekly, body resp = Saved (uid +:+ "_" +:+ date_str) high low weekly.
Proof.
  intros Hsubmit Hstatus Hfiled.
  destruct (submit_saved _ _ _ _ _ _ _ Hsubmit Hstatus)
    as (accepted & core & rotating & dass & daily_doc & weekly
        & Hv & Hdoc & Hinit & Hreach & Hweekly & ->).
  destruct (validate_accepts _ _ _ _ _ Hv) as (Hbody & Hcore & Hrot & Hdass & Hlen & _).
  injection Hbody as <-.
  destruct (high_low_points_spec _ (all_scores_length core rotating dass Hlen))
    as (high & low & Hpoints & Hhigh & Hlow).
  unfold daily_doc_of in Hdoc.
  rewrite (average_mean [mood core; energy core; sleep core; stress core]) in Hdoc
    by discriminate.
  rewrite (average_mean (scores rotating)) in Hdoc by (intros Hnil; now rewrite Hnil in Hlen).
  rewrite Hpoints, !bind_Returns in Hdoc. injection Hdoc as <-.
  cbv zeta in Hweekly. cbn [date] in Hweekly.
  rewrite (filed_under_date clk body_ date_str Hfiled) in Hweekly.
  apply weekly_aggregation_logs in Hweekly as (Hlogs & _ & _); [ | assumption.. ].
  eexists. split; [ rewrite Hlogs; reflexivity | ]. split.
  - unfold document_of, reflects, stamped. cbn.
    rewrite (filed_under_date clk body_ date_str Hfiled).
    split; [ split; [ | split ]; assumption | ].
    do 3 (split; [ reflexivity | ]).
    split; [ exact Hhigh | ]. split; [ exact Hlow | ].
    do 2 (split; [ reflexivity | ]).
    destruct (p_additional_notes body_) as [notes | ]; [ | reflexivity ].
    unfold truthy_opt, truthy. now destruct (String.eqb notes "").
  - cbn [date]. rewrite (filed_under_date clk body_ date_str Hfiled). eauto.
Qed.

Lemma submit_keyed (clk : Clock) (out : Outage) (db : Firestore) (uid : string)
  (payload : option QuizPayload) (db' : Firestore) (resp : Response QuizBody) :
  submit_daily_quiz clk out db uid payload = (db', resp) ->
  status resp = 201 ->
  keyed db -> keyed db'.
Proof.
  intros Hsubmit Hstatus Hkeyed.
  destruct (submit_stored _ _ _ _ _ _ _ Hsubmit Hstatus)
    as (accepted & log & _ & Hlogs & _ & Huser & Hdate & _).
  intros id log' Hlookup. rewrite Hlogs in Hlookup.
  destruct (decide (composite_id uid (quiz_date clk payload) = id)) as [<- | Hne].
  - rewrite lookup_insert_eq in Hlookup. simplify_eq. eauto.
  - rewrite lookup_insert_ne in Hlookup by assumption. eauto.
Qed.

(** C7: two saved submissions of one user filed under one date (the date
    the bodies carry, or the day of the request for a body that carries
    none) are stored under the one id made of the user, an underscore and
    the date. After the second, the document under that id is the document
    of the second body, field by field, stamped by the second request:
    nothing of the first is left in it; no document was added, every other
    document is as it was, and on a store keyed by composite ids it is the
    only document of that user and date. *)
Theorem resubmission_overwrites (clk1 clk2 : Clock) (out1 out2 : Outage)
  (db db1 db2 : Firestore) (uid date_str : string) (first second : QuizPayload)
  (resp1 resp2 : Response QuizBody) :
  keyed db ->
  submit_daily_quiz clk1 out1 db uid (Some first) = (db1, resp1) -> status resp1 = 201 ->
  submit_daily_quiz clk2 out2 db1 uid (Some second) = (db2, resp2) -> status resp2 = 201 ->
  filed_under clk1 first date_str -> filed_under clk2 second date_str ->
  let id := uid +:+ "_" +:+ date_str in
  exists log1 log : MoodLog,
    user_mood_logs db1 !! id = Some log1 /\
    document_of first uid date_str (utcnow clk1) log1 /\
    user_mood_logs db2 !! id = Some log /\
    document_of second uid date_str (utcnow clk2) log /\
    user_mood_logs db2 = <[id := log]> (user_mood_logs db1) /\
    size (user_mood_logs db2) = size (user_mood_logs db1) /\
    filter (of_user_and_date uid date_str) (user_mood_logs db2) = {[id := log]} /\
    exists high1 low1 weekly1 high2 low2 weekly2,
      body resp1 = Saved id high1 low1 weekly1 /\
      body resp2 = Saved id high2 low2 weekly2.
Proof.
  intros Hkeyed Hsubmit1 Hstatus1 Hsubmit2 Hstatus2 Hfiled1 Hfiled2. cbv zeta.
  assert (Hkeyed1 := submit_keyed _ _ _ _ _ _ _ Hsubmit1 Hstatus1 Hkeyed).
  destruct (submit_document _ _ _ _ _ _ _ _ Hsubmit1 Hstatus1 Hfiled1)
    as (log1 & Hlogs1 & Hdoc1 & (h1 & l1 & w1 & Hbody1)).
  destruct (submit_document _ _ _ _ _ _ _ _ Hsubmit2 Hstatus2 Hfiled2)
    as (log & Hlogs2 & Hdoc2 & (h2 & l2 & w2 & Hbody2)).
  set (id := uid +:+ "_" +:+ date_str) in *.
  assert (Hold : user_mood_logs db1 !! id = Some log1).
  { rewrite Hlogs1. apply lookup_insert_eq. }
  exists log1, log.
  split; [ exact Hold | ]. split; [ exact Hdoc1 | ].
  split; [ rewrite Hlogs2; apply lookup_insert_eq | ].
  split; [ exact Hdoc2 | ]. split; [ exact Hlogs2 | ].
  split; [ | split ].
  - rewrite Hlogs2.
    rewrite <- (insert_delete_id (user_mood_logs db1) id log1) at 2 by assumption.
    rewrite <- (insert_delete_eq (user_mood_logs db1)).
    rewrite !map_size_insert_None by apply lookup_delete_eq. reflexivity.
  - destruct Hdoc2 as (_ & Hdate & Huser & _).
    apply map_eq. intros k. destruct (decide (id = k)) as [<- | Hne].
    + rewrite lookup_singleton_eq. apply map_lookup_filter_Some. split.
      * rewrite Hlogs2. apply lookup_insert_eq.
      * split; assumption.
    + rewrite lookup_singleton_ne by assumption. apply map_lookup_filter_None.
      right. intros log' Hlookup [Huser' Hdate']. simpl in *.
      rewrite Hlogs2, lookup_insert_ne in Hlookup by assumption.
      destruct (Hkeyed1 _ _ Hlookup) as (u & d & Hu & Hd & Hid).
      apply Hne. unfold id. rewrite Hid. unfold composite_id. congruence.
  - eauto 10.
Qed.

(** A store with no document, initialised and reachable. *)
Definition empty_store : Firestore :=
  {| initialized := true; reachable := true;
     user_mood_logs := ∅; user_weekly_dass := [];
     messages := ∅; metadata_info := ∅; profile_data := ∅; users := ∅ |}.

(** Every request of the aggregation is answered. *)
Definition no_outage : Outage :=
  {| count_fails := false; recent_fails := false;
     exists_fails := false; save_fails := false |}.

(** The surroundings of a request made on [day] at instant [t]. *)
Definition clock_at (day : string) (t : Z) : Clock :=
  {| today := day;
     utcnow := {| on_date := day; instant := t |};
     auto_id := "weekly-" +:+ day;
     uuid4 := "session-" +:+ day |}.

(** A second body for the date of [example_payload], with other scores. *)
Definition revised_payload : QuizPayload :=
  {| p_core_scores :=
       Some {| p_mood := Some 4; p_energy := Some 4; p_sleep := Some 2; p_stress := Some 3 |};
     p_rotating_scores :=
       Some {| p_domain_name := Some "social"; p_scores := Some [5; 4; 3; 2; 1] |};
     p_dass_today :=
       Some {| p_depression := Some 1; p_anxiety := Some 3; p_dass_stress := Some 5 |};
     p_date := Some "2025-01-07";
     p_additional_notes := Some "slept late" |}.

Lemma keyed_empty : keyed empty_store.
Proof. intros id log H. simpl in H. now rewrite lookup_empty in H. Qed.

(** The quiz of 7 January is filed on the 9th with a note, and filed again
    on the 10th without one: one document is stored, under the 7th, and it
    carries no note. *)
Lemma resubmission_overwrites_witness :
  let first :=
    submit_daily_quiz (clock_at "2025-01-09" 1) no_outage empty_store "alice"
      (Some revised_payload) in
  let second :=
    submit_daily_quiz (clock_at "2025-01-10" 2) no_outage first.1 "alice"
      (Some example_payload) in
  exists log : MoodLog,
    user_mood_logs second.1 !! "alice_2025-01-07" = Some log /\
    document_of example_payload "alice" "2025-01-07" (utcnow (clock_at "2025-01-10" 2)) log /\
    additional_notes log = None /\
    size (user_mood_logs second.1) = 1%nat.
Proof.
  cbv zeta.
  set (first := submit_daily_quiz (clock_at "2025-01-09" 1) no_outage empty_store "alice"
                  (Some revised_payload)).
  set (second := submit_daily_quiz (clock_at "2025-01-10" 2) no_outage first.1 "alice"
                   (Some example_payload)).
  assert (Hstatus1 : status first.2 = 201) by reflexivity.
  assert (Hstatus2 : status second.2 = 201) by reflexivity.
  assert (Hfiled1 : filed_under (clock_at "2025-01-09" 1) revised_payload "2025-01-07")
    by (left; split; [ reflexivity | discriminate ]).
  assert (Hfiled2 : filed_under (clock_at "2025-01-10" 2) example_payload "2025-01-07")
    by (left; split; [ reflexivity | discriminate ]).
  destruct (resubmission_overwrites
              (clock_at "2025-01-09" 1) (clock_at "2025-01-10" 2) no_outage no_outage
              empty_store first.1 second.1 "alice" "2025-01-07"
              revised_payload example_payload first.2 second.2
              keyed_empty (surjective_pairing first) Hstatus1
              (surjective_pairing second) Hstatus2 Hfiled1 Hfiled2)
    as (log1 & log & _ & _ & Hlookup & Hdoc & _ & Hsize & _).
  exists log. split; [ exact Hlookup | ]. split; [ exact Hdoc | ].
  split; [ | rewrite Hsize; vm_compute; reflexivity ].
  destruct Hdoc as (_ & _ & _ & _ & _ & _ & _ & _ & Hnotes). exact Hnotes.
Defined.

(** *** Weekly aggregation *)




(** [first] and [last] are the least and the greatest of [dates]. *)
Definition spans (dates : list string) (first last : string) : Prop :=
  (forall d, d ∈ dates -> String.leb first d = true /\ String.leb d last = true) /\
  (dates <> [] -> first ∈ dates /\ last ∈ dates).

(** Every daily log carries its submission time. *)
Definition every_log_stamped (db : Firestore) : Prop :=
  forall (id : string) (log : MoodLog),
    user_mood_logs db !! id = Some log -> is_Some (submitted_at log).




Lemma min_str_spec (d : string) (dates : list string) :
  min_str d dates ∈ d :: dates /\
  forall x, x ∈ d :: dates -> String.leb (min_str d dates) x = true.
Proof.
  unfold min_str. revert d. induction dates as [ | a dates IH]; intros d; simpl.
  - split; [ apply list_elem_of_here | ].
    intros x Hx. apply list_elem_of_singleton in Hx as ->. apply StrOrder.leb_refl.
  - destruct (IH (if String.ltb a d then a else d)) as [Hin Hle]. split.
    + apply elem_of_cons in Hin as [Heq | Hin].
      * rewrite Heq. destruct (String.ltb a d);
          [ apply list_elem_of_further, list_elem_of_here | apply list_elem_of_here ].
      * do 2 apply list_elem_of_further. exact Hin.
    + assert (Hm := Hle _ (list_elem_of_here _ _)).
      assert (Hstep : String.leb (if String.ltb a d then a else d) d = true /\
                      String.leb (if String.ltb a d then a else d) a = true).
      { destruct (String.ltb a d) eqn:Hlt.
        - split; [ now apply StrOrder.str_ltb_leb | apply StrOrder.leb_refl ].
        - split; [ apply StrOrder.leb_refl | now apply StrOrder.not_ltb_leb ]. }
      intros x Hx.
      apply elem_of_cons in Hx as [-> | Hx];
        [ eapply StrOrder.leb_trans; [ exact Hm | apply Hstep ] | ].
      apply elem_of_cons in Hx as [-> | Hx];
        [ eapply StrOrder.leb_trans; [ exact Hm | apply Hstep ] | ].
      apply Hle. now apply list_elem_of_further.
Qed.

Lemma max_str_spec (d : string) (dates : list string) :
  max_str d dates ∈ d :: dates /\
  forall x, x ∈ d :: dates -> String.leb x (max_str d dates) = true.
Proof.
  unfold max_str. revert d. induction dates as [ | a dates IH]; intros d; simpl.
  - split; [ apply list_elem_of_here | ].
    intros x Hx. apply list_elem_of_singleton in Hx as ->. apply StrOrder.leb_refl.
  - destruct (IH (if String.ltb d a then a else d)) as [Hin Hle]. split.
    + apply elem_of_cons in Hin as [Heq | Hin].
      * rewrite Heq. destruct (String.ltb d a);
          [ apply list_elem_of_further, list_elem_of_here | apply list_elem_of_here ].
      * do 2 apply list_elem_of_further. exact Hin.
    + assert (Hm := Hle _ (list_elem_of_here _ _)).
      assert (Hstep : String.leb d (if String.ltb d a then a else d) = true /\
                      String.leb a (if String.ltb d a then a else d) = true).
      { destruct (String.ltb d a) eqn:Hlt.
        - split; [ now apply StrOrder.str_ltb_leb | apply StrOrder.leb_refl ].
        - split; [ apply StrOrder.leb_refl | now apply StrOrder.not_ltb_leb ]. }
      intros x Hx.
      apply elem_of_cons in Hx as [-> | Hx];
        [ eapply StrOrder.leb_trans; [ apply Hstep | exact Hm ] | ].
      apply elem_of_cons in Hx as [-> | Hx];
        [ eapply StrOrder.leb_trans; [ apply Hstep | exact Hm ] | ].
      apply Hle. now apply list_elem_of_further.
Qed.

Lemma week_range_spans (clk : Clock) (last_7 : list (string * MoodLog)) :
  spans (dates_of last_7) (week_range clk last_7).1 (week_range clk last_7).2.
Proof.
  unfold spans, week_range. destruct (dates_of last_7) as [ | d dates]; simpl.
  - split; [ intros d Hd; now apply elem_of_nil in Hd | congruence ].
  - destruct (min_str_spec d dates) as [Hmin_in Hmin_le].
    destruct (max_str_spec d dates) as [Hmax_in Hmax_le].
    split; [ intros x Hx | intros _ ]; split; auto.
Qed.



#[global] Instance newer_first_transitive : Transitive newer_first.
Proof. unfold newer_first. intros a b c Hab Hbc. lia. Qed.

#[global] Instance newer_first_total : Total newer_first.
Proof. unfold newer_first. intros a b. lia. Qed.



(** Whatever its answer, a submission leaves the daily logs as they were or
    writes one stamped document under its composite id. *)
Lemma submit_logs (clk : Clock) (out : Outage) (db : Firestore) (uid : string)
  (payload : option QuizPayload) :
  let db' := (submit_daily_quiz clk out db uid payload).1 in
  user_mood_logs db' = user_mood_logs db \/
  exists daily_doc : MoodLog,
    user_mood_logs db'
    = <[composite_id uid (date_or_today clk (date daily_doc)) := stamped clk uid daily_doc]>
        (user_mood_logs db).
Proof.
  cbv zeta. unfold submit_daily_quiz.
  destruct (validate payload) as [refusal | [[[accepted core] rotating] dass]];
    [ now left | ].
  destruct (daily_doc_of accepted core rotating dass) as [daily_doc | ]; [ | now left ].
  unfold upsert_daily_mood_log, get_firestore_client, request.
  destruct (initialized db) eqn:Hinit; [ | now left ].
  rewrite bind_Returns.
  destruct (reachable db) eqn:Hreach; [ | now left ].
  cbn iota beta.
  destruct (weekly_aggregation clk out _ uid) as [[db2 weekly_result] | ] eqn:Hweekly.
  - apply weekly_aggregation_logs in Hweekly as (Hlogs & _ & _); [ | assumption.. ].
    right. exists daily_doc. simpl. now rewrite Hlogs.
  - right. exists daily_doc. reflexivity.
Qed.

(** Every daily log carries a date that is not empty. *)
Definition every_log_dated (db : Firestore) : Prop :=
  forall (id : string) (log : MoodLog),
    user_mood_logs db !! id = Some log ->
    match date log with
    | Some date_str => date_str <> ""
    | None => False
    end.

(** The three properties of the daily logs assumed below hold of the empty
    store and are kept by every submission (for the dates: by every
    submission made on a day whose name is not empty). *)
Lemma submit_keeps_stamped (clk : Clock) (out : Outage) (db : Firestore) (uid : string)
  (payload : option QuizPayload) :
  every_log_stamped db -> every_log_stamped (submit_daily_quiz clk out db uid payload).1.
Proof.
  intros Hstamped id log.
  destruct (submit_logs clk out db uid payload) as [-> | [daily_doc ->]];
    [ apply Hstamped | ].
  intros Hlookup.
  apply lookup_insert_Some in Hlookup as [[_ <-] | [_ Hlookup]]; [ simpl; eauto | ].
  exact (Hstamped _ _ Hlookup).
Qed.

Lemma submit_keeps_keyed (clk : Clock) (out : Outage) (db : Firestore) (uid : string)
  (payload : option QuizPayload) :
  keyed db -> keyed (submit_daily_quiz clk out db uid payload).1.
Proof.
  intros Hkeyed id log.
  destruct (submit_logs clk out db uid payload) as [-> | [daily_doc ->]];
    [ apply Hkeyed | ].
  intros Hlookup.
  apply lookup_insert_Some in Hlookup as [[<- <-] | [_ Hlookup]]; [ simpl; eauto | ].
  exact (Hkeyed _ _ Hlookup).
Qed.

Lemma date_or_today_nonempty (clk : Clock) (d : option string) :
  today clk <> "" -> date_or_today clk d <> "".
Proof.
  intros Htoday. unfold date_or_today. destruct d as [d | ]; [ | assumption ].
  unfold truthy. destruct (String.eqb_spec d ""); simpl; assumption.
Qed.

Lemma submit_keeps_dated (clk : Clock) (out : Outage) (db : Firestore) (uid : string)
  (payload : option QuizPayload) :
  today clk <> "" ->
  every_log_dated db -> every_log_dated (submit_daily_quiz clk out db uid payload).1.
Proof.
  intros Htoday Hdated id log.
  destruct (submit_logs clk out db uid payload) as [-> | [daily_doc ->]];
    [ apply Hdated | ].
  intros Hlookup.
  apply lookup_insert_Some in Hlookup as [[_ <-] | [_ Hlookup]];
    [ simpl; now apply date_or_today_nonempty | ].
  exact (Hdated _ _ Hlookup).
Qed.

Lemma stamped_empty : every_log_stamped empty_store.
Proof. intros id log H. simpl in H. now rewrite lookup_empty in H. Qed.

Lemma dated_empty : every_log_dated empty_store.
Proof. intros id log H. simpl in H. now rewrite lookup_empty in H. Qed.



(** The entries of a query on the daily logs of a user are stored ones. *)
Lemma last_logs_stored (db : Firestore) (uid : string) (n : nat) (entry : string * MoodLog) :
  entry ∈ take n (merge_sort newer_first (filter has_submitted_at (logs_of_user db uid))) ->
  user_mood_logs db !! entry.1 = Some entry.2.
Proof.
  intros Hin. apply (subseteq_take n) in Hin.
  rewrite merge_sort_Permutation in Hin.
  apply list_elem_of_filter in Hin as [_ Hin].
  unfold logs_of_user in Hin. apply list_elem_of_filter in Hin as [_ Hin].
  destruct entry as [id log]. now apply elem_of_map_to_list in Hin.
Qed.


(** A body for [day] with the clinical scores given. *)
Definition day_payload (day : string) (clinical : Z * Z * Z) : QuizPayload :=
  {| p_core_scores :=
       Some {| p_mood := Some 3; p_energy := Some 4; p_sleep := Some 2; p_stress := Some 3 |};
     p_rotating_scores :=
       Some {| p_domain_name := Some "work"; p_scores := Some [3; 3; 4; 2; 5] |};
     p_dass_today :=
       Some {| p_depression := Some clinical.1.1; p_anxiety := Some clinical.1.2;
               p_dass_stress := Some clinical.2 |};
     p_date := Some day;
     p_additional_notes := None |}.

(** The store after the user has filed the first six days of a week, every
    request answered. *)
Definition six_days : Firestore :=
  fold_left
    (fun db filed =>
       (submit_daily_quiz (clock_at filed.1.1 filed.1.2) no_outage db "alice"
          (Some (day_payload filed.1.1 filed.2))).1)
    [("2025-01-01", 1, (1, 2, 3)); ("2025-01-02", 2, (2, 2, 3));
     ("2025-01-03", 3, (3, 1, 4)); ("2025-01-04", 4, (4, 1, 4));
     ("2025-01-05", 5, (5, 3, 5)); ("2025-01-06", 6, (1, 3, 5))]
    empty_store.

#[global] Instance every_log_stamped_dec db : Decision (every_log_stamped db).
Proof.
  unfold every_log_stamped.
  apply (map_Forall_dec (fun _ log => is_Some (submitted_at log))).
Defined.

#[global] Instance every_log_dated_dec db : Decision (every_log_dated db).
Proof.
  unfold every_log_dated.
  assert (Hlog : forall (id : string) (log : MoodLog),
             Decision (match date log with
                       | Some date_str => date_str <> ""
                       | None => False
                       end))
    by (intros id log; destruct (date log); apply _).
  apply (map_Forall_dec (fun _ log => match date log with
                                      | Some date_str => date_str <> ""
                                      | None => False
                                      end)).
Defined.




End MoodFacts.

(** ** Text *)

Module StrFacts.

(** Every character of the text is white space (so is the empty text). *)
Fixpoint whitespace_only (s : string) : Prop :=
  match s with
  | EmptyString => True
  | String c s' => isspace c = true /\ whitespace_only s'
  end.

(** [sub] occurs in [s]. *)
Definition occurs_in (sub s : string) : Prop :=
  exists before after : string, s = before +:+ sub +:+ after.

Lemma append_nil (s : string) : "" +:+ s = s.
Proof. reflexivity. Qed.

Lemma append_cons (c : ascii) (s t : string) : String c s +:+ t = String c (s +:+ t).
Proof. reflexivity. Qed.

Lemma lstrip_empty (s : string) : lstrip s = "" <-> whitespace_only s.
Proof.
  induction s as [ | c s IH]; simpl; [ tauto | ].
  destruct (isspace c); [ | split; [ discriminate | intros [? _]; discriminate ] ].
  rewrite IH. tauto.
Qed.

Lemma rstrip_empty (s : string) : rstrip s = "" <-> whitespace_only s.
Proof.
  induction s as [ | c s IH]; simpl; [ tauto | ].
  destruct (rstrip s) eqn:Hrest.
  - destruct (isspace c); [ tauto | ].
    split; [ discriminate | intros [? _]; discriminate ].
  - split; [ discriminate | ]. intros [_ Hs]. apply IH in Hs. discriminate.
Qed.

Lemma lstrip_whitespace (s : string) : whitespace_only (lstrip s) <-> whitespace_only s.
Proof.
  induction s as [ | c s IH]; simpl; [ tauto | ].
  destruct (isspace c) eqn:Hc; [ rewrite IH; tauto | ].
  simpl. rewrite Hc. tauto.
Qed.

Lemma strip_empty (s : string) : strip s = "" <-> whitespace_only s.
Proof. unfold strip. now rewrite rstrip_empty, lstrip_whitespace. Qed.

Lemma length_zero (s : string) : (String.length s =? 0)%nat = true <-> s = "".
Proof. destruct s; simpl; split; congruence. Qed.

Lemma truthy_nonempty (s : string) : truthy s = true <-> s <> "".
Proof.
  unfold truthy. destruct (String.eqb_spec s ""); simpl; split; congruence.
Qed.

Lemma whitespace_app (a b : string) :
  whitespace_only (a +:+ b) <-> whitespace_only a /\ whitespace_only b.
Proof. induction a as [ | c a IH]; simpl; [ tauto | ]. rewrite IH. tauto. Qed.

Lemma lower_char_space (c : ascii) : isspace c = true -> lower_char c = c.
Proof.
  unfold isspace, lower_char, isupper. intros H.
  destruct (_ || _)%bool eqn:Hupper in |- *; [ | reflexivity ].
  exfalso.
  repeat match goal with
         | H : (_ || _)%bool = true |- _ => apply orb_true_iff in H as [H | H]
         | H : (_ && _)%bool = true |- _ => apply andb_true_iff in H as [? ?]
         | H : (_ <=? _)%N = true |- _ => apply N.leb_le in H
         | H : (_ =? _)%N = true |- _ => apply N.eqb_eq in H
         | H : negb _ = true |- _ => apply negb_true_iff in H
         | H : (_ =? _)%N = false |- _ => apply N.eqb_neq in H
         end; lia.
Qed.

Lemma lower_whitespace (s : string) : whitespace_only s -> whitespace_only (lower s).
Proof.
  induction s as [ | c s IH]; simpl; [ tauto | ].
  intros [Hc Hs]. rewrite (lower_char_space c Hc). auto.
Qed.

Lemma prefix_occurs (p s : string) :
  String.prefix p s = true <-> exists after : string, s = p +:+ after.
Proof.
  revert s. induction p as [ | c p IH]; intros s.
  - destruct s; simpl; split; eauto.
  - destruct s as [ | d s]; simpl.
    + split; [ discriminate | intros [after H]; discriminate ].
    + destruct (ascii_dec c d) as [<- | Hne].
      * rewrite IH. split; intros [after H]; exists after;
          rewrite append_cons in *; congruence.
      * split; [ discriminate | intros [after H]; rewrite append_cons in H; congruence ].
Qed.

Lemma contains_cons (sub : string) (c : ascii) (s : string) :
  contains sub (String c s) = String.prefix sub (String c s) || contains sub s.
Proof. reflexivity. Qed.

Lemma contains_occurs (sub s : string) : contains sub s = true <-> occurs_in sub s.
Proof.
  unfold occurs_in. split.
  - induction s as [ | c s IH].
    + change (contains sub "") with (String.prefix sub "" || false).
      rewrite orb_false_r. intros H.
      apply prefix_occurs in H as [after ->]. now exists "", after.
    + rewrite contains_cons. intros H. apply orb_true_iff in H as [H | H].
      * apply prefix_occurs in H as [after H]. now exists "", after.
      * destruct (IH H) as (before & after & ->). now exists (String c before), after.
  - intros (before & after & ->).
    induction before as [ | c before IH].
    + rewrite append_nil.
      assert (Hprefix : String.prefix sub (sub +:+ after) = true)
        by (apply prefix_occurs; eauto).
      destruct (sub +:+ after) as [ | c rest].
      * change (contains sub "") with (String.prefix sub "" || false).
        now rewrite Hprefix.
      * rewrite contains_cons, Hprefix. reflexivity.
    + rewrite append_cons, contains_cons. apply orb_true_iff. right. exact IH.
Qed.

End StrFacts.

(** ** Response validation *)

Module LlmFacts.

Import LlmService StrFacts.

(** The response, read without regard to case, contains one of the patterns. *)
Definition mentions (patterns : list string) (response : string) : Prop :=
  exists pattern : string, pattern ∈ patterns /\ occurs_in pattern (lower response).

Lemma any_in_mentions (patterns : list string) (response : string) :
  any_in patterns (lower response) = true <-> mentions patterns response.
Proof.
  unfold mentions. induction patterns as [ | p patterns IH]; simpl.
  - split; [ discriminate | ]. intros (pattern & Hin & _). now apply elem_of_nil in Hin.
  - destruct (contains p (lower response)) eqn:Hp.
    + split; [ intros _ | reflexivity ].
      exists p. split; [ apply list_elem_of_here | now apply contains_occurs ].
    + rewrite IH. split; intros (pattern & Hin & Hocc).
      * exists pattern. split; [ now apply list_elem_of_further | assumption ].
      * apply elem_of_cons in Hin as [-> | Hin]; [ | eauto ].
        apply contains_occurs in Hocc. congruence.
Qed.

(** None of the crisis keywords is made of white space. *)
Lemma crisis_keyword_visible (keyword : string) :
  keyword ∈ crisis_keywords -> ~ whitespace_only keyword.
Proof.
  unfold crisis_keywords. intros Hin Hspace.
  repeat (apply elem_of_cons in Hin as [-> | Hin];
          [ destruct Hspace as [Hfirst _]; vm_compute in Hfirst; discriminate | ]).
  now apply elem_of_nil in Hin.
Qed.

Lemma mention_visible (response : string) :
  mentions crisis_keywords response -> ~ whitespace_only response.
Proof.
  intros (keyword & Hin & before & after & Hocc) Hspace.
  apply lower_whitespace in Hspace. rewrite Hocc in Hspace.
  apply whitespace_app in Hspace as [_ Hspace].
  apply whitespace_app in Hspace as [Hspace _].
  exact (crisis_keyword_visible keyword Hin Hspace).
Qed.

Lemma validate_none (response : string) :
  validate_gemini_response response = None <-> whitespace_only response.
Proof.
  unfold validate_gemini_response.
  destruct (negb (truthy response) || (String.length (strip response) =? 0)%nat) eqn:Hblank.
  - split; [ intros _ | reflexivity ].
    apply orb_true_iff in Hblank as [Hempty | Hstripped].
    + apply negb_true_iff in Hempty. unfold truthy in Hempty.
      apply negb_false_iff, String.eqb_eq in Hempty. now subst.
    + now apply strip_empty, length_zero.
  - split.
    + repeat case_match; discriminate.
    + intros Hspace. apply strip_empty, length_zero in Hspace.
      apply orb_false_iff in Hblank as [_ Hblank]. congruence.
Qed.

(** C10: the validator is total; it answers None exactly on empty and
    white-space-only responses; a non-empty response that mentions a crisis
    keyword gets the SOS redirect; otherwise one that mentions a diagnosis
    pattern gets the no-diagnosis message; otherwise one that mentions a
    medication pattern gets the no-treatment message; every other response
    is returned as it is. *)
Theorem validate_gemini_response_spec (response : string) :
  (validate_gemini_response response = None <-> whitespace_only response) /\
  (response <> "" -> mentions crisis_keywords response ->
   validate_gemini_response response = Some sos_redirect) /\
  (~ whitespace_only response -> ~ mentions crisis_keywords response ->
   mentions diagnosis_patterns response ->
   validate_gemini_response response = Some no_diagnosis) /\
  (~ whitespace_only response -> ~ mentions crisis_keywords response ->
   ~ mentions diagnosis_patterns response -> mentions medication_patterns response ->
   validate_gemini_response response = Some no_treatment) /\
  (~ whitespace_only response -> ~ mentions crisis_keywords response ->
   ~ mentions diagnosis_patterns response -> ~ mentions medication_patterns response ->
   validate_gemini_response response = Some response).
Proof.
  split; [ apply validate_none | ].
  assert (Hvisible : ~ whitespace_only response ->
            validate_gemini_response response
            = if any_in crisis_keywords (lower response) then Some sos_redirect
              else if any_in diagnosis_patterns (lower response) then Some no_diagnosis
              else if any_in medication_patterns (lower response) then Some no_treatment
              else Some response).
  { intros Hvisible. pose proof (validate_none response) as Hnone.
    unfold validate_gemini_response in *.
    destruct (negb (truthy response) || (String.length (strip response) =? 0)%nat);
      [ | reflexivity ].
    exfalso. apply Hvisible, Hnone. reflexivity. }
  repeat split.
  - intros _ Hcrisis. rewrite (Hvisible (mention_visible _ Hcrisis)).
    apply any_in_mentions in Hcrisis. now rewrite Hcrisis.
  - intros Hv Hcrisis Hdiagnosis. rewrite (Hvisible Hv).
    apply any_in_mentions in Hdiagnosis. rewrite Hdiagnosis.
    destruct (any_in crisis_keywords _) eqn:H; [ | reflexivity ].
    apply any_in_mentions in H. contradiction.
  - intros Hv Hcrisis Hdiagnosis Hmedication. rewrite (Hvisible Hv).
    apply any_in_mentions in Hmedication. rewrite Hmedication.
    destruct (any_in crisis_keywords _) eqn:H1;
      [ apply any_in_mentions in H1; contradiction | ].
    destruct (any_in diagnosis_patterns _) eqn:H2;
      [ apply any_in_mentions in H2; contradiction | reflexivity ].
  - intros Hv Hcrisis Hdiagnosis Hmedication. rewrite (Hvisible Hv).
    destruct (any_in crisis_keywords _) eqn:H1;
      [ apply any_in_mentions in H1; contradiction | ].
    destruct (any_in diagnosis_patterns _) eqn:H2;
      [ apply any_in_mentions in H2; contradiction | ].
    destruct (any_in medication_patterns _) eqn:H3;
      [ apply any_in_mentions in H3; contradiction | reflexivity ].
Qed.

(** A reply that speaks of dying is replaced by the SOS redirect whatever
    its case. *)
Lemma validate_gemini_response_spec_witness :
  validate_gemini_response "Nobody should DIE alone." = Some sos_redirect.
Proof.
  apply (validate_gemini_response_spec "Nobody should DIE alone.").
  - discriminate.
  - exists "die". split; [ unfold crisis_keywords; set_solver | ].
    exists "nobody should ", " alone.". reflexivity.
Defined.

End LlmFacts.

(** ** Chat sessions *)

Module ChatFacts.

Import LlmService ChatMemoryService ChatApi StrFacts.

(** A message body that passes the checks of the handler. *)
Definition validated (request : MessageRequest) : Prop :=
  let user_message := strip (default "" (m_message request)) in
  truthy user_message = true /\ (String.length user_message <= 1000)%nat.

Lemma cached_with_user (cache : Cache) (uid u s : string) :
  cached (with_user cache uid) u s = cached cache u s.
Proof.
  unfold with_user, cached. destruct (decide (is_Some (cache !! uid))) as [ | Hnone];
    [ reflexivity | ].
  destruct (decide (uid = u)) as [<- | Hne].
  - rewrite lookup_insert_eq. apply eq_None_not_Some in Hnone. rewrite Hnone. reflexivity.
  - now rewrite lookup_insert_ne.
Qed.

Lemma sessions_of_lookup (cache : Cache) (uid sid : string) :
  sessions_of cache uid !! sid = cached cache uid sid.
Proof.
  unfold sessions_of, cached. destruct (cache !! uid); [ reflexivity | apply lookup_empty ].
Qed.

Lemma cached_store_entry (cache : Cache) (uid sid u s : string) (entry : SessionEntry) :
  cached (store_entry cache uid sid entry) u s
  = if decide (u = uid /\ s = sid) then Some entry else cached cache u s.
Proof.
  unfold store_entry, cached at 1. destruct (decide (uid = u)) as [<- | Hne].
  - rewrite lookup_insert_eq. simpl. destruct (decide (sid = s)) as [<- | Hne].
    + rewrite lookup_insert_eq. now rewrite decide_True.
    + rewrite lookup_insert_ne by assumption. rewrite sessions_of_lookup.
      rewrite decide_False by (intros [_ ?]; congruence). reflexivity.
  - rewrite lookup_insert_ne by assumption.
    rewrite decide_False by (intros [? _]; congruence). reflexivity.
Qed.

Lemma recent_logs_empty (entries : list (string * MoodLog)) :
  (length (take 7 (merge_sort MoodService.newer_first entries)) =? 0)%nat = true
  <-> entries = [].
Proof.
  rewrite Nat.eqb_eq, length_take.
  rewrite (Permutation_length (merge_sort_Permutation MoodService.newer_first entries)).
  destruct entries; simpl; split; intros; try congruence; lia.
Qed.

(** An exception leaves [_create_chain_for_user]: the store client is not
    initialised, or the chat model is not, or there are mood logs to
    summarise and the summarising model is not. *)
Definition chain_raises (db : Firestore) (llm : Gemini) (uid : string) : Prop :=
  initialized db = false \/
  advance_llm llm = false \/
  (base_llm llm = false /\ reachable db = true /\
   filter MoodService.has_submitted_at (MoodService.logs_of_user db uid) <> []).

Lemma create_chain_raises (db : Firestore) (llm : Gemini) (uid : string) :
  _create_chain_for_user db llm uid = Raises <-> chain_raises db llm uid.
Proof.
  unfold chain_raises, _create_chain_for_user, get_user_profile,
    MoodService.get_last_daily_mood_logs, get_firestore_client, request,
    summarize_mood_logs, create_conversation_chain.
  destruct (initialized db); [ | rewrite ?bind_Raises; tauto ].
  rewrite ?bind_Returns.
  destruct (reachable db); simpl except.
  - destruct (length _ =? 0)%nat eqn:Hlogs.
    + apply recent_logs_empty in Hlogs. rewrite ?bind_Returns.
      destruct (advance_llm llm); simpl; split; try tauto; try discriminate.
      intros [? | [? | (_ & _ & ?)]]; congruence.
    + assert (Hsome : filter MoodService.has_submitted_at
                        (MoodService.logs_of_user db uid) <> []).
      { intros Hnil. apply recent_logs_empty in Hnil. congruence. }
      destruct (base_llm llm); simpl.
      * rewrite ?bind_Returns.
        destruct (advance_llm llm); simpl; split; try tauto; try discriminate.
        intros [? | [? | (? & _)]]; congruence.
      * rewrite ?bind_Raises. tauto.
  - simpl. rewrite ?bind_Returns.
    destruct (advance_llm llm); simpl; split; try tauto; try discriminate.
    intros [? | [? | (_ & ? & _)]]; congruence.
Qed.

Lemma load_memory_raises (db : Firestore) (uid sid : string) (n : nat) :
  load_conversation_memory db uid sid n = Raises <-> initialized db = false.
Proof.
  unfold load_conversation_memory, get_firestore_client.
  destruct (initialized db); simpl; split; congruence.
Qed.

(** An exception leaves the calls [_load_session] makes: for a new session
    out of the construction of the chain; for a session token out of the
    history load, or out of the construction of the chain when the token is
    not cached. *)
Definition escapes (db : Firestore) (llm : Gemini) (cache : Cache)
  (session_id : option string) (uid : string) : Prop :=
  match (if truthy_opt session_id then session_id else None) with
  | None => chain_raises db llm uid
  | Some sid =>
      initialized db = false \/ (cached cache uid sid = None /\ chain_raises db llm uid)
  end.

Lemma load_session_failure (clk : Clock) (db : Firestore) (llm : Gemini) (cache : Cache)
  (session_id : option string) (uid : string) :
  escapes db llm cache session_id uid ->
  exists started,
    _load_session clk db llm cache session_id uid
    = (with_user cache uid, started, (None, None, [])).
Proof.
  unfold escapes, _load_session.
  destruct (if truthy_opt session_id then session_id else None) as [sid | ].
  - intros [Hinit | [Hmiss Hchain]].
    + apply (load_memory_raises db uid sid 25) in Hinit. rewrite Hinit. eauto.
    + destruct (load_conversation_memory db uid sid 25); [ | eauto ].
      rewrite sessions_of_lookup, cached_with_user, Hmiss.
      apply create_chain_raises in Hchain. rewrite Hchain. eauto.
  - intros Hchain. apply create_chain_raises in Hchain. rewrite Hchain. eauto.
Qed.

Lemma load_session_success (clk : Clock) (db : Firestore) (llm : Gemini) (cache : Cache)
  (session_id : option string) (uid : string) :
  ~ escapes db llm cache session_id uid ->
  exists cache' started sid chain_ history,
    _load_session clk db llm cache session_id uid
    = (cache', started, (Some sid, Some chain_, history)).
Proof.
  unfold escapes, _load_session.
  destruct (if truthy_opt session_id then session_id else None) as [sid | ].
  - intros Hfine.
    destruct (load_conversation_memory db uid sid 25) eqn:Hload;
      [ | apply load_memory_raises in Hload; tauto ].
    rewrite sessions_of_lookup, cached_with_user.
    destruct (cached cache uid sid) eqn:Hcached; [ eauto 10 | ].
    destruct (_create_chain_for_user db llm uid) eqn:Hchain; [ eauto 10 | ].
    apply create_chain_raises in Hchain. tauto.
  - intros Hfine.
    destruct (_create_chain_for_user db llm uid) eqn:Hchain; [ eauto 10 | ].
    apply create_chain_raises in Hchain. tauto.
Qed.

(** The handler past its checks of the body. *)
Lemma send_validated (clk : Clock) (db : Firestore) (llm : Gemini) (cache : Cache)
  (uid : string) (request : MessageRequest) :
  validated request ->
  send_chat_message clk db llm cache uid (Some request)
  = let user_message := strip (default "" (m_message request)) in
    let '(cache, started, (session_id, chain_, history_messages)) :=
      _load_session clk db llm cache (m_session_id request) uid in
    match chain_, session_id with
    | Some chain_, Some sid =>
        let ai_response := generate_chat_response llm chain_ user_message history_messages in
        let turn_number := Z.of_nat (length history_messages) / 2 in
        let started :=
          started
          ++ [Http.save_conversation_turn uid sid user_message ai_response turn_number;
              Http.update_session_activity uid sid] in
        let cache :=
          match cached cache uid sid with
          | Some entry =>
              store_entry cache uid sid
                {| chain := chain entry;
                   entry_last_activity := utcnow clk;
                   entry_message_count := entry_message_count entry + 1 |}
          | None => cache
          end in
        (cache, started,
         {| body :=
              ChatAnswered
                {| user_message_content := user_message;
                   ai_response_content := ai_response;
                   reply_timestamp := utcnow clk;
                   reply_session_id := Some sid;
                   metadata_message_count :=
                     match cached cache uid sid with
                     | Some entry => entry_message_count entry
                     | None => 0
                     end |};
            status := 201 |})
    | _, _ =>
        (cache, started, chat_error 500 "Session error" "Could not initialize chat session")
    end.
Proof.
  intros [Hmessage Hlength]. unfold send_chat_message.
  cbv zeta in Hmessage, Hlength. cbv zeta. rewrite Hmessage. simpl negb. cbv iota.
  destruct (Nat.ltb_spec 1000 (String.length (strip (default "" (m_message request)))))
    as [Hlong | _]; [ lia | reflexivity ].
Qed.

(** *** Concrete surroundings *)

Definition noon : Clock := MoodFacts.clock_at "2025-01-07" 12.

(** Both models initialised and answering. *)
Definition working_llm : Gemini :=
  {| base_llm := true;
     advance_llm := true;
     summary_model := fun _ => Returns "Mood has been steady this week.";
     chat_model := fun _ _ _ => Returns "That sounds hard. What helped you before?" |}.

(** The chat model raises on every call. *)
Definition failing_llm : Gemini :=
  {| base_llm := true;
     advance_llm := true;
     summary_model := fun _ => Returns "Mood has been steady this week.";
     chat_model := fun _ _ _ => Raises |}.

(** An initialised store whose every request raises. *)
Definition unreachable_store : Firestore :=
  {| initialized := true; reachable := false;
     user_mood_logs := ∅; user_weekly_dass := [];
     messages := ∅; metadata_info := ∅; profile_data := ∅; users := ∅ |}.

(** The store client was never initialised. *)
Definition uninitialised_store : Firestore :=
  {| initialized := false; reachable := true;
     user_mood_logs := ∅; user_weekly_dass := [];
     messages := ∅; metadata_info := ∅; profile_data := ∅; users := ∅ |}.

Definition hello : MessageRequest :=
  {| m_message := Some " I feel anxious today "; m_session_id := None |}.

Lemma hello_validated : validated hello.
Proof. split; [ reflexivity | vm_compute; lia ]. Qed.

(** *** Failure of the resolve *)

(** C2 as stated fails: with a store whose every request raises, the profile
    fetch, the mood fetch and any history query raise inside the services,
    which answer None and the empty list; the resolve goes on, the request is
    answered 201 and the new session is left in the cache. *)
Lemma fetch_errors_do_not_fail_resolve :
  let result := send_chat_message noon unreachable_store working_llm ∅ "alice" (Some hello) in
  Store.request unreachable_store tt = Raises /\
  get_user_profile unreachable_store "alice" = Returns None /\
  MoodService.get_last_daily_mood_logs unreachable_store "alice" 7 = Returns [] /\
  status result.2 = 201 /\
  is_Some (cached result.1.1 "alice" (uuid4 noon)).
Proof. vm_compute. repeat split; eauto. Qed.

(** C2, amended: when an exception leaves the calls of the resolve (the store
    client is not initialised, or a model the resolve needs is not), the
    resolve returns [(None, None, [])], a validated message is answered 500
    "Could not initialize chat session", and the cache holds for every user
    and token what it held before. *)
Theorem failed_resolve_keeps_cache (clk : Clock) (db : Firestore) (llm : Gemini)
  (cache : Cache) (uid : string) (request : MessageRequest) :
  validated request ->
  escapes db llm cache (m_session_id request) uid ->
  let result := send_chat_message clk db llm cache uid (Some request) in
  (_load_session clk db llm cache (m_session_id request) uid).2 = (None, None, []) /\
  result.2 = chat_error 500 "Session error" "Could not initialize chat session" /\
  forall u s : string, cached result.1.1 u s = cached cache u s.
Proof.
  intros Hvalid Hescapes. cbv zeta.
  rewrite (send_validated _ _ _ _ _ _ Hvalid). cbv zeta.
  destruct (load_session_failure clk db llm cache _ uid Hescapes) as [started ->].
  simpl. repeat split. intros u s. apply cached_with_user.
Qed.

Lemma failed_resolve_keeps_cache_witness :
  (send_chat_message noon uninitialised_store working_llm ∅ "alice" (Some hello)).2
  = chat_error 500 "Session error" "Could not initialize chat session".
Proof.
  apply (failed_resolve_keeps_cache noon uninitialised_store working_llm ∅ "alice" hello
           hello_validated).
  left. reflexivity.
Defined.

(** Without such an exception the resolve succeeds, whatever is raised
    inside the services. *)
Lemma resolve_succeeds_otherwise (clk : Clock) (db : Firestore) (llm : Gemini)
  (cache : Cache) (uid : string) (request : MessageRequest) :
  validated request ->
  ~ escapes db llm cache (m_session_id request) uid ->
  status (send_chat_message clk db llm cache uid (Some request)).2 = 201.
Proof.
  intros Hvalid Hfine. rewrite (send_validated _ _ _ _ _ _ Hvalid). cbv zeta.
  destruct (load_session_success clk db llm cache _ uid Hfine)
    as (cache' & started & sid & chain_ & history & ->).
  reflexivity.
Qed.

(** *** Failure of the generation *)

(** C9: once the session of a validated message is resolved, a generation
    call that raises is answered with the fixed trouble-connecting reply and
    a model that returns empty or white-space-only content with the fixed
    no-helpful-response reply; either way the request is answered 201 with
    that reply, the user message and the session id. *)
Theorem generation_failure_answers_fallback (clk : Clock) (db : Firestore)
  (llm : Gemini) (cache cache1 : Cache) (uid sid : string) (request : MessageRequest)
  (started : list Task) (chain_ : Runnable) (history : list BaseMessage) :
  validated request ->
  _load_session clk db llm cache (m_session_id request) uid
  = (cache1, started, (Some sid, Some chain_, history)) ->
  let user_message := strip (default "" (m_message request)) in
  let generated := chat_model llm chain_ user_message history in
  generated = Raises \/
  (exists content_ : string, generated = Returns content_ /\ whitespace_only content_) ->
  let resp := (send_chat_message clk db llm cache uid (Some request)).2 in
  status resp = 201 /\
  exists reply : ChatReply,
    body resp = ChatAnswered reply /\
    user_message_content reply = user_message /\
    reply_session_id reply = Some sid /\
    ai_response_content reply
    = match generated with
      | Raises => trouble_connecting
      | Returns _ => no_helpful_response
      end.
Proof.
  intros Hvalid Hloaded user_message generated Hfailed. cbv zeta.
  rewrite (send_validated _ _ _ _ _ _ Hvalid). cbv zeta. rewrite Hloaded.
  split; [ reflexivity | ]. eexists. split; [ reflexivity | ]. simpl.
  repeat split. unfold generate_chat_response. fold user_message. fold generated.
  destruct Hfailed as [-> | (content_ & -> & Hspace)]; [ reflexivity | ].
  apply LlmFacts.validate_none in Hspace. now rewrite Hspace.
Qed.

Lemma generation_failure_answers_fallback_witness :
  let resp := (send_chat_message noon MoodFacts.empty_store failing_llm ∅ "alice"
                 (Some hello)).2 in
  status resp = 201 /\
  exists reply : ChatReply,
    body resp = ChatAnswered reply /\ ai_response_content reply = trouble_connecting.
Proof.
  cbv zeta.
  destruct (generation_failure_answers_fallback noon MoodFacts.empty_store failing_llm
              ∅ _ "alice" _ hello _ _ _ hello_validated eq_refl (or_introl eq_refl))
    as (Hstatus & reply & Hbody & _ & _ & Hreply).
  split; [ exact Hstatus | ]. exists reply. split; assumption.
Defined.

(** *** Ending a session *)



(** *** The history handed to the generation *)

(** The [n] most recent documents, oldest first. *)
Definition most_recent (n : nat) (docs : list MessageDoc) : list MessageDoc :=
  let sorted := merge_sort older_first docs in
  drop (length sorted - n) sorted.

(** The role-tagged message of a document: [user], [assistant] or [ai];
    a document of another role has none. *)
Definition role_tagged (doc : MessageDoc) : option BaseMessage :=
  let role_ := default "" (role doc) in
  let content_ := default "" (content doc) in
  if String.eqb role_ "user" then Some (HumanMessage content_)
  else if String.eqb role_ "assistant" || String.eqb role_ "ai"
  then Some (AIMessage content_)
  else None.

(** The history the specification describes for a session. *)
Definition specified_history (db : Firestore) (uid sid : string) : list BaseMessage :=
  omap role_tagged (most_recent 25 (session_messages db uid sid)).

Lemma adapt_objects (raw_messages : list BaseMessage) :
  omap adapt (message_object <$> raw_messages) = raw_messages.
Proof.
  induction raw_messages as [ | msg raw_messages IH]; [ reflexivity | ].
  change (omap adapt (message_object <$> msg :: raw_messages))
    with (msg :: omap adapt (message_object <$> raw_messages)).
  now rewrite IH.
Qed.

(** What the code hands over when the resolve succeeds on a reachable store:
    the role-tagged messages of the first 25 documents in ascending order of
    time, that is, the 25 oldest. *)
Lemma resumed_history (clk : Clock) (db : Firestore) (llm : Gemini) (cache : Cache)
  (uid sid : string) :
  truthy sid = true -> reachable db = true ->
  ~ escapes db llm cache (Some sid) uid ->
  (_load_session clk db llm cache (Some sid) uid).2.2
  = omap to_message (take 25 (merge_sort older_first (session_messages db uid sid))).
Proof.
  intros Htruthy Hreach Hfine. unfold escapes in Hfine. unfold _load_session.
  simpl truthy_opt in *. rewrite Htruthy in *.
  destruct (initialized db) eqn:Hinit; [ | tauto ].
  unfold load_conversation_memory, get_firestore_client, Store.request, messages_query.
  rewrite Hinit, Hreach, bind_Returns. simpl except. rewrite adapt_objects.
  rewrite sessions_of_lookup, cached_with_user.
  destruct (cached cache uid sid); [ reflexivity | ].
  destruct (_create_chain_for_user db llm uid) eqn:Hchain; [ reflexivity | ].
  apply create_chain_raises in Hchain. tauto.
Qed.

#[global] Instance older_first_transitive : Transitive older_first.
Proof. unfold older_first. intros a b c Hab Hbc. lia. Qed.

#[global] Instance older_first_total : Total older_first.
Proof. unfold older_first. intros a b. lia. Qed.

(** The documents the query returns are the oldest of the session: no
    document left out is older than one of them. *)
Lemma messages_query_oldest (db : Firestore) (uid sid : string) (n : nat) :
  exists newer : list MessageDoc,
    Permutation (messages_query db uid sid n ++ newer) (session_messages db uid sid) /\
    forall a b,
      a ∈ messages_query db uid sid n -> b ∈ newer ->
      instant (timestamp a) <= instant (timestamp b).
Proof.
  unfold messages_query.
  exists (drop n (merge_sort older_first (session_messages db uid sid))). split.
  - rewrite take_drop. apply merge_sort_Permutation.
  - intros a b Ha Hb.
    apply (StronglySorted_app_1_elem_of older_first
             (take n (merge_sort older_first (session_messages db uid sid)))
             (drop n (merge_sort older_first (session_messages db uid sid))));
      [ | assumption.. ].
    rewrite take_drop. apply StronglySorted_merge_sort; apply _.
Qed.

(** On a session of at most 25 documents the oldest 25 are the most recent 25. *)
Lemma short_session_window (docs : list MessageDoc) :
  (length docs <= 25)%nat ->
  take 25 (merge_sort older_first docs) = most_recent 25 docs.
Proof.
  intros Hshort. unfold most_recent.
  assert (Hlen : length (merge_sort older_first docs) = length docs)
    by apply Permutation_length, merge_sort_Permutation.
  rewrite take_ge by lia.
  replace (length (merge_sort older_first docs) - 25)%nat with 0%nat by lia.
  reflexivity.
Qed.

(** The [i]-th message of a long conversation, as [save_conversation_turn]
    stores it: the letter of rank [i], said by the user when [i] is odd and
    by the assistant otherwise; the two messages of a turn share its number
    and its time. *)
Definition nth_doc (i : nat) : MessageDoc :=
  {| role := Some (if Nat.odd i then "user" else "assistant");
     content := Some (String (ascii_of_nat (64 + i)) EmptyString);
     timestamp := {| on_date := "2025-01-07"; instant := Z.of_nat ((i + 1) / 2) |};
     turn := Z.of_nat ((i - 1) / 2) |}.

(** A store holding a session of 13 turns, that is 26 messages, A to Z. *)
Definition store_with_history : Firestore :=
  {| initialized := true; reachable := true;
     user_mood_logs := ∅; user_weekly_dass := [];
     messages := {[ ("alice", "s-1") := nth_doc <$> seq 1 26 ]};
     metadata_info := ∅; profile_data := ∅; users := ∅ |}.

(** C1, at the input where it fails: on a session of 26 stored messages, A
    (the oldest) to Z (the most recent), the history handed to the generation
    is A to Y, the 25 oldest; the 25 most recent, B to Z, are what the
    specification describes, and the last message Z is left out. *)
Theorem resumed_history_is_oldest_window :
  let history :=
    (_load_session noon store_with_history working_llm ∅ (Some "s-1") "alice").2.2 in
  let specified := specified_history store_with_history "alice" "s-1" in
  history = omap to_message (nth_doc <$> seq 1 25) /\
  specified = omap role_tagged (nth_doc <$> seq 2 25) /\
  head history = Some (HumanMessage "A") /\
  last history = Some (HumanMessage "Y") /\
  head specified = Some (AIMessage "B") /\
  last specified = Some (AIMessage "Z") /\
  history <> specified.
Proof.
  vm_compute. repeat split. discriminate.
Qed.

(** A stored message of role [ai] is dropped by the history load, which
    knows the roles [user] and [assistant] only; the branch of
    [_load_session] that reads [ai] never sees a stored document. *)
Example ai_role_is_dropped :
  let doc := {| role := Some "ai"; content := Some "hello";
                timestamp := utcnow noon; turn := 0 |} in
  to_message doc = None /\ role_tagged doc = Some (AIMessage "hello") /\
  adapt (message_dict "ai" "" "hello" "") = Some (AIMessage "hello").
Proof. vm_compute. repeat split. Qed.

End ChatFacts.

(** ** The message handler, case by case *)

Module ChatFlow.

Import LlmService ChatMemoryService ChatApi StrFacts LlmFacts ChatFacts.

(** The entries [_load_session] leaves in the cache: every entry is what it
    was, but for the one of the session it resolved. *)
Lemma load_session_cache (clk : Clock) (db : Firestore) (llm : Gemini) (cache : Cache)
  (session_id : option string) (uid u s : string) :
  let loaded := _load_session clk db llm cache session_id uid in
  cached loaded.1.1 u s = cached cache u s \/
  (u = uid /\ loaded.2.1.1 = Some s /\ is_Some loaded.2.1.2).
Proof.
  cbv zeta. unfold _load_session.
  destruct (if truthy_opt session_id then session_id else None) as [sid | ].
  - destruct (load_conversation_memory db uid sid 25);
      [ | left; apply cached_with_user ].
    destruct (sessions_of (with_user cache uid) uid !! sid);
      [ left; apply cached_with_user | ].
    destruct (_create_chain_for_user db llm uid); [ | left; apply cached_with_user ].
    simpl. rewrite cached_store_entry.
    destruct (decide (u = uid /\ s = sid)) as [[-> ->] | _];
      [ right; eauto | left; apply cached_with_user ].
  - destruct (_create_chain_for_user db llm uid); [ | left; apply cached_with_user ].
    simpl. rewrite cached_store_entry.
    destruct (decide (u = uid /\ s = uuid4 clk)) as [[-> ->] | _];
      [ right; eauto | left; apply cached_with_user ].
Qed.

Lemma omap_length_le {A B : Type} (f : A -> option B) (l : list A) :
  (length (omap f l) <= length l)%nat.
Proof.
  induction l as [ | a l IH]; [ reflexivity | ].
  change (omap f (a :: l)) with (match f a with Some b => b :: omap f l | None => omap f l end).
  destruct (f a); simpl; lia.
Qed.

(** The history [_load_session] returns holds at most 25 messages. *)
Lemma load_session_history_bound (clk : Clock) (db : Firestore) (llm : Gemini)
  (cache : Cache) (session_id : option string) (uid : string) :
  (length (_load_session clk db llm cache session_id uid).2.2 <= 25)%nat.
Proof.
  unfold _load_session.
  destruct (if truthy_opt session_id then session_id else None) as [sid | ].
  - unfold load_conversation_memory, get_firestore_client.
    destruct (initialized db); [ | simpl; lia ].
    rewrite bind_Returns, adapt_objects.
    assert (Hbound : (length (except (Store.request db
                         (omap to_message (messages_query db uid sid 25))) []) <= 25)%nat).
    { unfold Store.request. destruct (reachable db); simpl; [ | lia ].
      etransitivity; [ apply omap_length_le | ].
      unfold messages_query. rewrite length_take. lia. }
    destruct (sessions_of (with_user cache uid) uid !! sid); [ exact Hbound | ].
    destruct (_create_chain_for_user db llm uid); simpl; [ exact Hbound | lia ].
  - destruct (_create_chain_for_user db llm uid); simpl; lia.
Qed.

(** X1: a message is refused with status 400 exactly when, stripped of
    surrounding white space, it is empty or longer than 1000 characters; a
    refused message changes nothing in the session cache and starts no
    background thread. *)
Theorem invalid_message_is_refused (clk : Clock) (db : Firestore) (llm : Gemini)
  (cache : Cache) (uid : string) (request : MessageRequest) :
  let result := send_chat_message clk db llm cache uid (Some request) in
  (status result.2 = 400 <-> ~ validated request) /\
  (status result.2 = 400 -> result.1.1 = cache /\ result.1.2 = []).
Proof.
  cbv zeta.
  destruct (truthy (strip (default "" (m_message request)))) eqn:Htruthy.
  - destruct (Nat.ltb_spec 1000 (String.length (strip (default "" (m_message request)))))
      as [Hlong | Hshort].
    + unfold send_chat_message. cbv zeta. rewrite Htruthy. simpl negb. cbv iota.
      apply Nat.ltb_lt in Hlong. rewrite Hlong. apply Nat.ltb_lt in Hlong. simpl.
      split; [ | auto ]. split; [ | reflexivity ].
      intros _ [_ Hlength]. cbv zeta in Hlength. lia.
    + assert (Hvalid : validated request) by (split; assumption).
      rewrite (send_validated _ _ _ _ _ _ Hvalid). cbv zeta.
      destruct (_load_session clk db llm cache (m_session_id request) uid)
        as [[cache' started] [[[sid | ] [chain_ | ]] history]]; simpl;
        (split; [ split; [ discriminate | tauto ] | discriminate ]).
  - unfold send_chat_message. cbv zeta. rewrite Htruthy. simpl.
    split; [ | auto ]. split; [ | reflexivity ].
    intros _ [Hmessage _]. cbv zeta in Hmessage. congruence.
Qed.

(** X2: the first message of a new session (no token, or an empty one, and
    setup not failing): the chain is the one built for the user, the answer
    is 201 and names the generated token, the reply is generated on an empty
    history, the count is 1, three threads are started in this order (create
    the stored session, store turn 0, count the activity) and the session is
    cached with count 1. *)
Theorem first_message_opens_session (clk : Clock) (db : Firestore) (llm : Gemini)
  (cache : Cache) (uid : string) (request : MessageRequest) :
  validated request ->
  truthy_opt (m_session_id request) = false ->
  ~ chain_raises db llm uid ->
  let user_message := strip (default "" (m_message request)) in
  let result := send_chat_message clk db llm cache uid (Some request) in
  exists (chain_ : Runnable) (reply : ChatReply),
    _create_chain_for_user db llm uid = Returns chain_ /\
    result.2 = {| body := ChatAnswered reply; status := 201 |} /\
    reply_session_id reply = Some (uuid4 clk) /\
    user_message_content reply = user_message /\
    ai_response_content reply = generate_chat_response llm chain_ user_message [] /\
    metadata_message_count reply = 1 /\
    result.1.2
    = [Http.create_session_metadata uid (uuid4 clk);
       Http.save_conversation_turn uid (uuid4 clk) user_message
         (ai_response_content reply) 0;
       Http.update_session_activity uid (uuid4 clk)] /\
    cached result.1.1 uid (uuid4 clk)
    = Some {| chain := chain_;
              entry_last_activity := utcnow clk;
              entry_message_count := 1 |}.
Proof.
  intros Hvalid Htoken Hfine. cbv zeta.
  rewrite (send_validated _ _ _ _ _ _ Hvalid). cbv zeta.
  unfold _load_session. rewrite Htoken.
  destruct (_create_chain_for_user db llm uid) as [chain_ | ] eqn:Hchain;
    [ | apply create_chain_raises in Hchain; contradiction ].
  cbv beta iota. rewrite !cached_store_entry.
  rewrite !decide_True by (split; reflexivity).
  rewrite cached_store_entry. rewrite decide_True by (split; reflexivity).
  eexists chain_, _. split; [ reflexivity | ]. split; [ reflexivity | ].
  simpl. repeat split.
  rewrite cached_store_entry. now rewrite decide_True by (split; reflexivity).
Qed.

Lemma first_message_opens_session_witness :
  exists reply : ChatReply,
    (send_chat_message noon MoodFacts.empty_store working_llm ∅ "alice" (Some hello)).2
    = {| body := ChatAnswered reply; status := 201 |} /\
    reply_session_id reply = Some (uuid4 noon) /\
    metadata_message_count reply = 1.
Proof.
  destruct (first_message_opens_session noon MoodFacts.empty_store working_llm ∅ "alice"
              hello hello_validated eq_refl)
    as (chain_ & reply & _ & Hanswer & Hsid & _ & _ & Hcount & _).
  - intros [Hinit | [Hmodel | (Hmodel & _)]]; discriminate.
  - exists reply. split; [ exact Hanswer | ]. split; assumption.
Defined.

(** X3: a message for a session that is cached for the user, on an
    initialised store client: whatever the state of the models and of the
    store, no chain is built and no profile is read; the cached chain
    generates the reply from the stored history, the answer is 201, the
    cached count goes up by one, and the two threads that store the turn and
    count the activity are started (none creates a session). *)
Theorem cached_session_is_reused (clk : Clock) (db : Firestore) (llm : Gemini)
  (cache : Cache) (uid sid : string) (entry : SessionEntry) (request : MessageRequest) :
  validated request ->
  m_session_id request = Some sid -> truthy sid = true ->
  cached cache uid sid = Some entry ->
  initialized db = true ->
  let user_message := strip (default "" (m_message request)) in
  let result := send_chat_message clk db llm cache uid (Some request) in
  exists (history : list BaseMessage) (reply : ChatReply),
    load_conversation_memory db uid sid 25 = Returns history /\
    result.2 = {| body := ChatAnswered reply; status := 201 |} /\
    reply_session_id reply = Some sid /\
    ai_response_content reply
    = generate_chat_response llm (chain entry) user_message history /\
    metadata_message_count reply = entry_message_count entry + 1 /\
    result.1.2
    = [Http.save_conversation_turn uid sid user_message (ai_response_content reply)
         (Z.of_nat (length history) / 2);
       Http.update_session_activity uid sid] /\
    cached result.1.1 uid sid
    = Some {| chain := chain entry;
              entry_last_activity := utcnow clk;
              entry_message_count := entry_message_count entry + 1 |}.
Proof.
  intros Hvalid Htoken Htruthy Hcached Hinit. cbv zeta.
  rewrite (send_validated _ _ _ _ _ _ Hvalid). cbv zeta.
  unfold _load_session. rewrite Htoken. simpl truthy_opt. rewrite Htruthy.
  destruct (load_conversation_memory db uid sid 25) as [history | ] eqn:Hload;
    [ | apply load_memory_raises in Hload; congruence ].
  rewrite adapt_objects, sessions_of_lookup, cached_with_user, Hcached.
  cbv beta iota. rewrite cached_with_user, Hcached.
  rewrite cached_store_entry. rewrite decide_True by (split; reflexivity).
  eexists history, _. split; [ reflexivity | ]. split; [ reflexivity | ].
  simpl. repeat split.
  rewrite cached_store_entry. now rewrite decide_True by (split; reflexivity).
Qed.

(** A session of alice that is in the cache. *)
Definition alice_cache : Cache :=
  {[ "alice" := {[ "s-1" := {| chain := {| user_context := "" |};
                               entry_last_activity := utcnow noon;
                               entry_message_count := 4 |} ]} ]}.

Definition follow_up : MessageRequest :=
  {| m_message := Some "It got better."; m_session_id := Some "s-1" |}.

Lemma follow_up_validated : validated follow_up.
Proof. split; [ reflexivity | vm_compute; lia ]. Qed.

(** The models are not initialised. *)
Definition absent_llm : Gemini :=
  {| base_llm := false;
     advance_llm := false;
     summary_model := fun _ => Raises;
     chat_model := fun _ _ _ => Returns "I am glad to hear that." |}.

Lemma cached_session_is_reused_witness :
  exists reply : ChatReply,
    (send_chat_message noon unreachable_store absent_llm alice_cache "alice"
       (Some follow_up)).2
    = {| body := ChatAnswered reply; status := 201 |} /\
    metadata_message_count reply = 5.
Proof.
  destruct (cached_session_is_reused noon unreachable_store absent_llm alice_cache
              "alice" "s-1" _ follow_up follow_up_validated eq_refl eq_refl eq_refl eq_refl)
    as (history & reply & _ & Hanswer & _ & _ & Hcount & _).
  exists reply. split; [ exact Hanswer | exact Hcount ].
Defined.

(** The handler on a validated message for a token that is not cached, when
    setup does not fail. *)
Lemma send_uncached (clk : Clock) (db : Firestore) (llm : Gemini)
  (cache : Cache) (uid sid : string) (request : MessageRequest) :
  validated request ->
  m_session_id request = Some sid -> truthy sid = true ->
  cached cache uid sid = None ->
  initialized db = true -> ~ chain_raises db llm uid ->
  exists (history : list BaseMessage) (chain_ : Runnable) (cache' : Cache),
    load_conversation_memory db uid sid 25 = Returns history /\
    _create_chain_for_user db llm uid = Returns chain_ /\
    cached cache' uid sid
    = Some {| chain := chain_;
              entry_last_activity := utcnow clk;
              entry_message_count := Z.of_nat (length history) / 2 + 1 |} /\
    let user_message := strip (default "" (m_message request)) in
    let ai_response := generate_chat_response llm chain_ user_message history in
    send_chat_message clk db llm cache uid (Some request)
    = (cache',
       [Http.save_conversation_turn uid sid user_message ai_response
          (Z.of_nat (length history) / 2);
        Http.update_session_activity uid sid],
       {| body :=
            ChatAnswered
              {| user_message_content := user_message;
                 ai_response_content := ai_response;
                 reply_timestamp := utcnow clk;
                 reply_session_id := Some sid;
                 metadata_message_count := Z.of_nat (length history) / 2 + 1 |};
          status := 201 |}).
Proof.
  intros Hvalid Htoken Htruthy Hcached Hinit Hfine.
  rewrite (send_validated _ _ _ _ _ _ Hvalid). cbv zeta.
  unfold _load_session. rewrite Htoken. simpl truthy_opt. rewrite Htruthy.
  destruct (load_conversation_memory db uid sid 25) as [history | ] eqn:Hload;
    [ | apply load_memory_raises in Hload; congruence ].
  rewrite adapt_objects, sessions_of_lookup, cached_with_user, Hcached.
  destruct (_create_chain_for_user db llm uid) as [chain_ | ] eqn:Hchain;
    [ | apply create_chain_raises in Hchain; contradiction ].
  cbv beta iota. rewrite !cached_store_entry.
  rewrite !decide_True by (split; reflexivity).
  rewrite cached_store_entry. rewrite decide_True by (split; reflexivity).
  eexists history, chain_, _. split; [ reflexivity | ]. split; [ reflexivity | ].
  split; [ | reflexivity ].
  rewrite cached_store_entry. now rewrite decide_True by (split; reflexivity).
Qed.

(** X4: a message for a session token that is not cached for the user (the
    cache is per process and is lost on restart), when setup does not fail:
    the chain is built anew, the count is seeded with the number of stored
    turns read (half the messages, rounded down) and the answer reports one
    more; the turn is stored under that number; no thread creates a
    session. *)
Theorem uncached_session_is_restored (clk : Clock) (db : Firestore) (llm : Gemini)
  (cache : Cache) (uid sid : string) (request : MessageRequest) :
  validated request ->
  m_session_id request = Some sid -> truthy sid = true ->
  cached cache uid sid = None ->
  initialized db = true -> ~ chain_raises db llm uid ->
  let user_message := strip (default "" (m_message request)) in
  let result := send_chat_message clk db llm cache uid (Some request) in
  exists (history : list BaseMessage) (chain_ : Runnable) (reply : ChatReply),
    load_conversation_memory db uid sid 25 = Returns history /\
    _create_chain_for_user db llm uid = Returns chain_ /\
    result.2 = {| body := ChatAnswered reply; status := 201 |} /\
    reply_session_id reply = Some sid /\
    ai_response_content reply = generate_chat_response llm chain_ user_message history /\
    metadata_message_count reply = Z.of_nat (length history) / 2 + 1 /\
    result.1.2
    = [Http.save_conversation_turn uid sid user_message (ai_response_content reply)
         (Z.of_nat (length history) / 2);
       Http.update_session_activity uid sid] /\
    cached result.1.1 uid sid
    = Some {| chain := chain_;
              entry_last_activity := utcnow clk;
              entry_message_count := Z.of_nat (length history) / 2 + 1 |}.
Proof.
  intros Hvalid Htoken Htruthy Hcached Hinit Hfine. cbv zeta.
  destruct (send_uncached clk db llm cache uid sid request Hvalid Htoken Htruthy
              Hcached Hinit Hfine)
    as (history & chain_ & cache' & Hload & Hchain & Hentry & Hsend).
  cbv zeta in Hsend. rewrite Hsend.
  eexists history, chain_, _. split; [ exact Hload | ]. split; [ exact Hchain | ].
  split; [ reflexivity | ]. simpl. repeat split. exact Hentry.
Qed.

Lemma cached_empty (u s : string) : cached ∅ u s = None.
Proof. unfold cached. now rewrite lookup_empty. Qed.

Lemma uncached_session_is_restored_witness :
  exists reply : ChatReply,
    (send_chat_message noon store_with_history working_llm ∅ "alice" (Some follow_up)).2
    = {| body := ChatAnswered reply; status := 201 |} /\
    metadata_message_count reply = 13.
Proof.
  destruct (uncached_session_is_restored noon store_with_history working_llm ∅
              "alice" "s-1" follow_up follow_up_validated eq_refl eq_refl
              (cached_empty _ _) eq_refl)
    as (history & chain_ & reply & Hload & _ & Hanswer & _ & _ & Hcount & _).
  - intros [Hinit | [Hmodel | (Hmodel & _)]]; discriminate.
  - exists reply. split; [ exact Hanswer | ].
    rewrite Hcount. vm_compute in Hload. injection Hload as <-. reflexivity.
Defined.

(** X5: whatever the request and however it is answered, the handler leaves
    every cache entry as it was, with one exception: the entry of the sender
    under the session token that a 201 answer names. No message touches the
    sessions of another user or another session of the sender. *)
Theorem message_touches_own_session_only (clk : Clock) (db : Firestore) (llm : Gemini)
  (cache : Cache) (uid : string) (message_data : option MessageRequest) (u s : string) :
  let result := send_chat_message clk db llm cache uid message_data in
  cached result.1.1 u s = cached cache u s \/
  (u = uid /\ status result.2 = 201 /\
   exists reply : ChatReply,
     body result.2 = ChatAnswered reply /\ reply_session_id reply = Some s).
Proof.
  cbv zeta. destruct message_data as [request | ]; [ | left; reflexivity ].
  destruct (truthy (strip (default "" (m_message request)))) eqn:Htruthy;
    [ | unfold send_chat_message; cbv zeta; rewrite Htruthy; left; reflexivity ].
  destruct (Nat.ltb_spec 1000 (String.length (strip (default "" (m_message request)))))
    as [Hlong | Hshort].
  { unfold send_chat_message. cbv zeta. rewrite Htruthy. simpl negb. cbv iota.
    apply Nat.ltb_lt in Hlong. rewrite Hlong. left. reflexivity. }
  assert (Hvalid : validated request) by (split; assumption).
  rewrite (send_validated _ _ _ _ _ _ Hvalid). cbv zeta.
  pose proof (load_session_cache clk db llm cache (m_session_id request) uid u s) as Hloaded.
  cbv zeta in Hloaded.
  destruct (_load_session clk db llm cache (m_session_id request) uid)
    as [[cache' started] [[[sid | ] [chain_ | ]] history]]; simpl in Hloaded |- *;
    try (destruct Hloaded as [Hsame | (_ & Hsid & Hchain)];
         [ left; exact Hsame | first [ discriminate | destruct Hchain; discriminate ] ]).
  destruct (decide (u = uid /\ s = sid)) as [[-> ->] | Hother].
  - right. split; [ reflexivity | ]. split; [ reflexivity | ]. eauto.
  - left. destruct Hloaded as [Hsame | (-> & Hsid & _)]; [ | simplify_eq; tauto ].
    destruct (cached cache' uid sid); [ | exact Hsame ].
    rewrite cached_store_entry, decide_False by exact Hother. exact Hsame.
Qed.

(** X6: what a 201 answer shows is what is stored. The user message of the
    answer is the stripped message of the request, not empty and of at most
    1000 characters; the threads started end with the one that stores the
    turn, with exactly the user message and the reply of the answer, under
    the session the answer names and a turn number between 0 and 12,
    followed by the one that counts the activity. *)
Theorem answered_turn_is_stored (clk : Clock) (db : Firestore) (llm : Gemini)
  (cache : Cache) (uid : string) (request : MessageRequest) (reply : ChatReply) :
  let result := send_chat_message clk db llm cache uid (Some request) in
  body result.2 = ChatAnswered reply ->
  user_message_content reply = strip (default "" (m_message request)) /\
  user_message_content reply <> "" /\
  (String.length (user_message_content reply) <= 1000)%nat /\
  exists (sid : string) (turn_number : Z) (before : list Task),
    reply_session_id reply = Some sid /\
    0 <= turn_number <= 12 /\
    result.1.2
    = before
      ++ [Http.save_conversation_turn uid sid (user_message_content reply)
            (ai_response_content reply) turn_number;
          Http.update_session_activity uid sid].
Proof.
  cbv zeta.
  destruct (truthy (strip (default "" (m_message request)))) eqn:Htruthy;
    [ | unfold send_chat_message; cbv zeta; rewrite Htruthy; discriminate ].
  destruct (Nat.ltb_spec 1000 (String.length (strip (default "" (m_message request)))))
    as [Hlong | Hshort].
  { unfold send_chat_message. cbv zeta. rewrite Htruthy. simpl negb. cbv iota.
    apply Nat.ltb_lt in Hlong. rewrite Hlong. discriminate. }
  assert (Hvalid : validated request) by (split; assumption).
  rewrite (send_validated _ _ _ _ _ _ Hvalid). cbv zeta.
  pose proof (load_session_history_bound clk db llm cache (m_session_id request) uid)
    as Hbound.
  destruct (_load_session clk db llm cache (m_session_id request) uid)
    as [[cache' started] [[[sid | ] [chain_ | ]] history]]; simpl in Hbound |- *;
    try discriminate.
  intros Hbody. injection Hbody as <-. simpl.
  split; [ reflexivity | ]. split; [ now apply truthy_nonempty | ].
  split; [ exact Hshort | ].
  exists sid, (Z.of_nat (length history) / 2), started.
  split; [ reflexivity | ]. split; [ | reflexivity ].
  split; [ apply Z.div_pos; lia | ].
  assert (Z.of_nat (length history) / 2 < 13) by (apply Z.div_lt_upper_bound; lia).
  lia.
Qed.

Lemma answered_turn_is_stored_witness :
  exists reply : ChatReply,
    body (send_chat_message noon MoodFacts.empty_store working_llm ∅ "alice"
            (Some hello)).2 = ChatAnswered reply /\
    user_message_content reply = "I feel anxious today".
Proof.
  eexists. split; [ reflexivity | ].
  exact (proj1 (answered_turn_is_stored noon MoodFacts.empty_store working_llm ∅ "alice"
                  hello _ eq_refl)).
Defined.

End ChatFlow.

(** ** What the generation may answer *)

Module ReplyFacts.

Import LlmService StrFacts LlmFacts.

(** The five fixed messages of the service. *)
Definition stock_replies : list string :=
  [sos_redirect; no_diagnosis; no_treatment; no_helpful_response; trouble_connecting].

Lemma stock_replies_no_crisis (reply : string) :
  reply ∈ stock_replies -> any_in crisis_keywords (lower reply) = false.
Proof.
  unfold stock_replies. intros Hin.
  repeat (apply elem_of_cons in Hin as [-> | Hin]; [ vm_compute; reflexivity | ]).
  now apply elem_of_nil in Hin.
Qed.

Lemma stock_replies_validated (reply : string) :
  reply ∈ stock_replies -> validate_gemini_response reply = Some reply.
Proof.
  unfold stock_replies. intros Hin.
  repeat (apply elem_of_cons in Hin as [-> | Hin]; [ vm_compute; reflexivity | ]).
  now apply elem_of_nil in Hin.
Qed.

Ltac stock_reply :=
  unfold stock_replies;
  repeat first [ apply list_elem_of_here | apply list_elem_of_further ].

(** X7: whatever the model does, the reply [generate_chat_response] hands to
    the user never mentions a crisis keyword, in any case of letters; it is
    one of the five fixed messages of the service, or it is what the model
    returned, which then mentions no diagnosis pattern and no medication
    pattern either. *)
Theorem generated_reply_is_safe (llm : Gemini) (chain_ : Runnable)
  (user_message : string) (history : list BaseMessage) :
  let reply := generate_chat_response llm chain_ user_message history in
  ~ mentions crisis_keywords reply /\
  (reply ∈ stock_replies \/
   chat_model llm chain_ user_message history = Returns reply /\
   ~ mentions diagnosis_patterns reply /\ ~ mentions medication_patterns reply).
Proof.
  cbv zeta.
  assert (Hstock : forall reply, reply ∈ stock_replies ->
            ~ mentions crisis_keywords reply /\
            (reply ∈ stock_replies \/
             chat_model llm chain_ user_message history = Returns reply /\
             ~ mentions diagnosis_patterns reply /\ ~ mentions medication_patterns reply)).
  { intros reply Hin. split; [ | left; exact Hin ].
    rewrite <- any_in_mentions, (stock_replies_no_crisis reply Hin). discriminate. }
  unfold generate_chat_response.
  destruct (chat_model llm chain_ user_message history) as [response | ];
    [ | apply Hstock; stock_reply ].
  unfold validate_gemini_response.
  destruct (negb (truthy response) || (String.length (strip response) =? 0)%nat);
    [ apply Hstock; stock_reply | ].
  destruct (any_in crisis_keywords (lower response)) eqn:Hcrisis;
    [ apply Hstock; stock_reply | ].
  destruct (any_in diagnosis_patterns (lower response)) eqn:Hdiagnosis;
    [ apply Hstock; stock_reply | ].
  destruct (any_in medication_patterns (lower response)) eqn:Hmedication;
    [ apply Hstock; stock_reply | ].
  rewrite <- !any_in_mentions, Hcrisis, Hdiagnosis, Hmedication.
  split; [ discriminate | ]. right. split; [ reflexivity | ]. split; discriminate.
Qed.

(** X8: the validator is idempotent: a response it has let through or put in
    place of another one passes validation unchanged. In particular its three
    fixed messages pass, although the no-diagnosis message speaks of
    diagnoses and the no-treatment message of medications. *)
Theorem validated_reply_is_stable (response validated_response : string) :
  validate_gemini_response response = Some validated_response ->
  validate_gemini_response validated_response = Some validated_response.
Proof.
  intros Hvalidated. pose proof Hvalidated as Hunfolded.
  unfold validate_gemini_response in Hunfolded.
  destruct (negb (truthy response) || (String.length (strip response) =? 0)%nat);
    [ discriminate | ].
  destruct (any_in crisis_keywords (lower response));
    [ injection Hunfolded as <-; apply stock_replies_validated; stock_reply | ].
  destruct (any_in diagnosis_patterns (lower response));
    [ injection Hunfolded as <-; apply stock_replies_validated; stock_reply | ].
  destruct (any_in medication_patterns (lower response));
    [ injection Hunfolded as <-; apply stock_replies_validated; stock_reply | ].
  injection Hunfolded as <-. exact Hvalidated.
Qed.

Lemma validated_reply_is_stable_witness :
  validate_gemini_response no_diagnosis = Some no_diagnosis /\
  mentions diagnosis_patterns no_diagnosis.
Proof.
  split.
  - apply (validated_reply_is_stable "It sounds like you have a disorder." no_diagnosis).
    vm_compute. reflexivity.
  - apply any_in_mentions. vm_compute. reflexivity.
Defined.

End ReplyFacts.

(** ** The background threads of a conversation *)

Module ThreadFacts.

Import LlmService ChatMemoryService ChatApi ChatFacts.

(** The threads in [tasks] run to completion one after the other, each at
    its own time. *)
Definition run_tasks (clock_of : Task -> Clock) (db : Firestore) (tasks : list Task)
  : Firestore :=
  fold_left (fun db task => run_task (clock_of task) db task) tasks db.

(** The store answers: its client is initialised and its requests succeed. *)
Definition answering (db : Firestore) : Prop :=
  initialized db = true /\ reachable db = true.

Lemma run_create (clk : Clock) (db : Firestore) (uid sid : string) :
  answering db ->
  run_task clk db (Http.create_session_metadata uid sid)
  = set_metadata_info
      (insert (uid, sid)
         {| created_at := utcnow clk; last_activity := utcnow clk;
            session_status := "active"; message_count := 0; ended_at := None |}) db.
Proof.
  intros [Hinit Hreach].
  unfold run_task, create_session_metadata, get_firestore_client, Store.request.
  now rewrite Hinit, Hreach.
Qed.

Lemma run_update (clk : Clock) (db : Firestore) (uid sid : string) :
  answering db ->
  run_task clk db (Http.update_session_activity uid sid)
  = match metadata_info db !! (uid, sid) with
    | Some info =>
        set_metadata_info
          (insert (uid, sid)
             {| created_at := created_at info; last_activity := utcnow clk;
                session_status := session_status info;
                message_count := message_count info + 1;
                ended_at := ended_at info |}) db
    | None => db
    end.
Proof.
  intros [Hinit Hreach].
  unfold run_task, update_session_activity, get_firestore_client, Store.request.
  rewrite Hinit, Hreach, bind_Returns. now destruct (metadata_info db !! (uid, sid)).
Qed.

Lemma run_end (clk : Clock) (db : Firestore) (uid sid : string) :
  answering db ->
  run_task clk db (Http.end_session uid sid)
  = match metadata_info db !! (uid, sid) with
    | Some info =>
        set_metadata_info
          (insert (uid, sid)
             {| created_at := created_at info; last_activity := last_activity info;
                session_status := "ended"; message_count := message_count info;
                ended_at := Some (utcnow clk) |}) db
    | None => db
    end.
Proof.
  intros [Hinit Hreach].
  unfold run_task, end_session, get_firestore_client, Store.request.
  rewrite Hinit, Hreach, bind_Returns. now destruct (metadata_info db !! (uid, sid)).
Qed.

(** The two documents [save_conversation_turn] adds. *)
Definition turn_docs (clk : Clock) (user_msg ai_msg : string) (turn_number : Z)
  : list MessageDoc :=
  [ {| role := Some "user"; content := Some user_msg;
       timestamp := utcnow clk; turn := turn_number |};
    {| role := Some "assistant"; content := Some ai_msg;
       timestamp := utcnow clk; turn := turn_number |} ].

Lemma run_save (clk : Clock) (db : Firestore) (uid sid user_msg ai_msg : string)
  (turn_number : Z) :
  answering db ->
  run_task clk db (Http.save_conversation_turn uid sid user_msg ai_msg turn_number)
  = set_messages
      (insert (uid, sid)
         (session_messages db uid sid ++ turn_docs clk user_msg ai_msg turn_number)) db.
Proof.
  intros [Hinit Hreach].
  unfold run_task, save_conversation_turn, get_firestore_client, Store.request.
  now rewrite Hinit, Hreach.
Qed.

(** No thread changes whether the store answers. *)
Lemma run_task_answering (clk : Clock) (db : Firestore) (task : Task) :
  answering db -> answering (run_task clk db task).
Proof.
  intros Hdb. pose proof Hdb as [Hinit Hreach].
  destruct task; [ rewrite run_create | rewrite run_save | rewrite run_update | rewrite run_end ];
    try assumption; try (destruct (metadata_info db !! (uid, sid))); split; assumption.
Qed.

(** A store that does not answer is left as it is by every thread. *)
Lemma run_task_silent (clk : Clock) (db : Firestore) (task : Task) :
  ~ answering db -> run_task clk db task = db.
Proof.
  unfold answering. intros Hdown.
  unfold run_task, create_session_metadata, save_conversation_turn,
    update_session_activity, end_session, get_firestore_client, Store.request.
  destruct (initialized db), (reachable db), task; try reflexivity; tauto.
Qed.

Lemma session_messages_set_metadata (f : gmap (string * string) SessionInfo
                                         -> gmap (string * string) SessionInfo)
  (db : Firestore) (u s : string) :
  session_messages (set_metadata_info f db) u s = session_messages db u s.
Proof. reflexivity. Qed.

Lemma session_messages_saved (db : Firestore) (uid sid : string) (docs : list MessageDoc) :
  session_messages (set_messages (insert (uid, sid) docs) db) uid sid = docs.
Proof. unfold session_messages. simpl. now rewrite lookup_insert_eq. Qed.

(** X9: only the thread that creates a session adds a metadata document.
    After any thread has run, a session has stored metadata exactly when it
    had before, or when the thread was its creation on a store that answers:
    counting the activity of a session, ending it and storing a turn never
    bring a stored session into being. *)
Theorem only_creation_adds_metadata (clk : Clock) (db : Firestore) (task : Task)
  (u s : string) :
  is_Some (metadata_info (run_task clk db task) !! (u, s)) <->
  is_Some (metadata_info db !! (u, s)) \/
  (task = Http.create_session_metadata u s /\ answering db).
Proof.
  destruct (initialized db) eqn:Hinit, (reachable db) eqn:Hreach;
    try (rewrite run_task_silent by (unfold answering; intros [? ?]; congruence);
         unfold answering; split; [ tauto | intros [? | (_ & ? & ?)]; congruence ]).
  assert (Hdb : answering db) by (split; assumption).
  destruct task as [uid sid | uid sid user_msg ai_msg turn_number | uid sid | uid sid].
  - rewrite run_create by assumption. simpl.
    destruct (decide ((uid, sid) = (u, s))) as [Heq | Hne].
    + rewrite Heq, lookup_insert_eq. injection Heq as -> ->. split; eauto.
    + rewrite lookup_insert_ne by assumption.
      split; [ tauto | intros [? | [Heq _]]; [ assumption | congruence ] ].
  - rewrite run_save by assumption. simpl.
    split; [ tauto | intros [? | [? _]]; [ assumption | discriminate ] ].
  - rewrite run_update by assumption.
    destruct (metadata_info db !! (uid, sid)) as [info | ] eqn:Hinfo; simpl.
    + destruct (decide ((uid, sid) = (u, s))) as [Heq | Hne].
      * rewrite Heq, lookup_insert_eq. rewrite <- Heq, Hinfo. split; eauto.
      * rewrite lookup_insert_ne by assumption.
        split; [ tauto | intros [? | [? _]]; [ assumption | discriminate ] ].
    + split; [ tauto | intros [? | [? _]]; [ assumption | discriminate ] ].
  - rewrite run_end by assumption.
    destruct (metadata_info db !! (uid, sid)) as [info | ] eqn:Hinfo; simpl.
    + destruct (decide ((uid, sid) = (u, s))) as [Heq | Hne].
      * rewrite Heq, lookup_insert_eq. rewrite <- Heq, Hinfo. split; eauto.
      * rewrite lookup_insert_ne by assumption.
        split; [ tauto | intros [? | [? _]]; [ assumption | discriminate ] ].
    + split; [ tauto | intros [? | [? _]]; [ assumption | discriminate ] ].
Qed.

(** X10: storing a turn and reading the history back. On a store that
    answers, after the thread that stores a turn of a session holding at
    most 23 messages has run, the history loaded for the session is, up to
    the order of messages of equal time, the history loaded before followed
    by the user message and the reply of the turn. *)
Theorem stored_turn_is_loaded (clk : Clock) (db : Firestore)
  (uid sid user_msg ai_msg : string) (turn_number : Z) :
  answering db ->
  (length (session_messages db uid sid) <= 23)%nat ->
  let db' :=
    run_task clk db (Http.save_conversation_turn uid sid user_msg ai_msg turn_number) in
  exists before after : list BaseMessage,
    load_conversation_memory db uid sid 25 = Returns before /\
    load_conversation_memory db' uid sid 25 = Returns after /\
    Permutation after (before ++ [HumanMessage user_msg; AIMessage ai_msg]).
Proof.
  intros Hdb Hshort. cbv zeta. rewrite run_save by assumption.
  destruct Hdb as [Hinit Hreach].
  unfold load_conversation_memory, get_firestore_client, Store.request. simpl.
  rewrite Hinit, Hreach, !bind_Returns. simpl except.
  eexists _, _. split; [ reflexivity | ]. split; [ reflexivity | ].
  unfold messages_query. rewrite session_messages_saved.
  rewrite !take_ge.
  - rewrite !merge_sort_Permutation, omap_app. reflexivity.
  - rewrite (Permutation_length (merge_sort_Permutation older_first _)). lia.
  - rewrite (Permutation_length (merge_sort_Permutation older_first _)).
    rewrite length_app. simpl. lia.
Qed.

Lemma stored_turn_is_loaded_witness :
  exists after : list BaseMessage,
    load_conversation_memory
      (run_task noon MoodFacts.empty_store
         (Http.save_conversation_turn "alice" "s-1" "hello" "hi there" 0))
      "alice" "s-1" 25 = Returns after /\
    Permutation after [HumanMessage "hello"; AIMessage "hi there"].
Proof.
  destruct (stored_turn_is_loaded noon MoodFacts.empty_store "alice" "s-1" "hello"
              "hi there" 0 (conj eq_refl eq_refl))
    as (before & after & Hbefore & Hafter & Hperm).
  - vm_compute. lia.
  - exists after. split; [ exact Hafter | ].
    vm_compute in Hbefore. injection Hbefore as <-. exact Hperm.
Defined.

Lemma Permutation_length_3_inv {A : Type} (a b c : A) (l : list A) :
  Permutation [a; b; c] l ->
  l = [a; b; c] \/ l = [a; c; b] \/ l = [b; a; c] \/
  l = [b; c; a] \/ l = [c; a; b] \/ l = [c; b; a].
Proof.
  intros H. apply Permutation_cons_inv_l in H as (k1 & k2 & -> & H).
  apply Permutation_length_2_inv in H.
  destruct H as [H | H]; destruct k1 as [ | x [ | y [ | z k1]]];
    simpl in H; simplify_eq; simpl; auto 10.
Qed.

Lemma answering_set_metadata (f : gmap (string * string) SessionInfo
                                  -> gmap (string * string) SessionInfo) (db : Firestore) :
  answering db -> answering (set_metadata_info f db).
Proof. intros [? ?]. split; assumption. Qed.

Lemma answering_set_messages
  (f : gmap (string * string) (list MessageDoc) -> gmap (string * string) (list MessageDoc))
  (db : Firestore) :
  answering db -> answering (set_messages f db).
Proof. intros [? ?]. split; assumption. Qed.

(** One thread after the other, on stores that answer. *)
Ltac run_threads :=
  unfold run_tasks; simpl fold_left;
  repeat first
    [ rewrite run_create by (repeat first [ apply answering_set_metadata
                                          | apply answering_set_messages ]; assumption)
    | rewrite run_save by (repeat first [ apply answering_set_metadata
                                        | apply answering_set_messages ]; assumption)
    | rewrite run_update by (repeat first [ apply answering_set_metadata
                                          | apply answering_set_messages ]; assumption)
    | progress (simpl metadata_info; rewrite ?lookup_insert_eq) ].

(** X11: the three threads of the first message of a session, in whatever
    order they run on a store that answers: the two messages of the turn are
    added to the session, and the session's metadata is there and active,
    created at the time of the creation thread. Its message count is 1 when
    the creation ran before the count of the activity; when the count ran
    first it was lost (no document to update, or a document the creation
    then replaced) and the message count is 0. *)
Theorem first_turn_threads_in_any_order (clock_of : Task -> Clock) (db : Firestore)
  (uid sid user_msg ai_msg : string) (order : list Task) :
  let creation := Http.create_session_metadata uid sid in
  let storing := Http.save_conversation_turn uid sid user_msg ai_msg 0 in
  let counting := Http.update_session_activity uid sid in
  answering db ->
  Permutation [creation; storing; counting] order ->
  let db' := run_tasks clock_of db order in
  session_messages db' uid sid
  = session_messages db uid sid ++ turn_docs (clock_of storing) user_msg ai_msg 0 /\
  exists info : SessionInfo,
    metadata_info db' !! (uid, sid) = Some info /\
    session_status info = "active" /\
    created_at info = utcnow (clock_of creation) /\
    ((message_count info = 1 /\
      exists a b c : list Task, order = a ++ creation :: b ++ counting :: c) \/
     (message_count info = 0 /\
      exists a b c : list Task, order = a ++ counting :: b ++ creation :: c)).
Proof.
  intros creation storing counting Hdb Horder db'. subst db'.
  apply Permutation_length_3_inv in Horder.
  destruct Horder as [-> | [-> | [-> | [-> | [-> | ->]]]]]; subst creation storing counting.
  - run_threads. split; [ apply session_messages_saved | ].
    eexists. split; [ reflexivity | ]. simpl. repeat split.
    left. split; [ reflexivity | ]. eexists [], [_], []; reflexivity.
  - run_threads. split; [ apply session_messages_saved | ].
    eexists. split; [ reflexivity | ]. simpl. repeat split.
    left. split; [ reflexivity | ]. eexists [], [], [_]; reflexivity.
  - run_threads. split; [ apply session_messages_saved | ].
    eexists. split; [ reflexivity | ]. simpl. repeat split.
    left. split; [ reflexivity | ]. eexists [_], [], []; reflexivity.
  - unfold run_tasks. simpl fold_left. rewrite run_save by assumption.
    rewrite (run_update _ (set_messages _ db)) by (now apply answering_set_messages).
    simpl metadata_info.
    destruct (metadata_info db !! (uid, sid)); run_threads;
      (split; [ apply session_messages_saved | ]);
      (eexists; split; [ reflexivity | ]); simpl; repeat split;
      right; (split; [ reflexivity | ]); eexists [_], [], []; reflexivity.
  - unfold run_tasks. simpl fold_left. rewrite run_update by assumption.
    destruct (metadata_info db !! (uid, sid)); run_threads;
      (split; [ apply session_messages_saved | ]);
      (eexists; split; [ reflexivity | ]); simpl; repeat split;
      right; (split; [ reflexivity | ]); eexists [], [], [_]; reflexivity.
  - unfold run_tasks. simpl fold_left. rewrite run_update by assumption.
    destruct (metadata_info db !! (uid, sid)); run_threads;
      (split; [ apply session_messages_saved | ]);
      (eexists; split; [ reflexivity | ]); simpl; repeat split;
      right; (split; [ reflexivity | ]); eexists [], [_], []; reflexivity.
Qed.

Lemma first_turn_threads_in_any_order_witness :
  exists info : SessionInfo,
    metadata_info
      (run_tasks (fun _ => noon) MoodFacts.empty_store
         [Http.update_session_activity "alice" "s-1";
          Http.create_session_metadata "alice" "s-1";
          Http.save_conversation_turn "alice" "s-1" "hello" "hi there" 0])
    !! ("alice", "s-1") = Some info /\
    session_status info = "active".
Proof.
  destruct (first_turn_threads_in_any_order (fun _ => noon) MoodFacts.empty_store
              "alice" "s-1" "hello" "hi there"
              [Http.update_session_activity "alice" "s-1";
               Http.create_session_metadata "alice" "s-1";
               Http.save_conversation_turn "alice" "s-1" "hello" "hi there" 0]
              (conj eq_refl eq_refl))
    as (_ & info & Hinfo & Hstatus & _).
  - symmetry.
    apply (Permutation_cons_append
             [Http.create_session_metadata "alice" "s-1";
              Http.save_conversation_turn "alice" "s-1" "hello" "hi there" 0]
             (Http.update_session_activity "alice" "s-1")).
  - exists info. split; assumption.
Defined.

Lemma chain_raises_same_logs (db db' : Firestore) (llm : Gemini) (uid : string) :
  initialized db' = initialized db -> reachable db' = reachable db ->
  user_mood_logs db' = user_mood_logs db ->
  chain_raises db' llm uid <-> chain_raises db llm uid.
Proof.
  intros Hinit Hreach Hlogs.
  unfold chain_raises, MoodService.logs_of_user. now rewrite Hinit, Hreach, Hlogs.
Qed.

(** The handler that ends a session, on a token that needs no stripping. *)
Lemma end_chat_session_run (cache : Cache) (uid sid : string) :
  truthy sid = true -> strip sid = sid ->
  exists (cache' : Cache) (cleanup_count : Z),
    cached cache' uid sid = None /\
    end_chat_session cache uid (Some {| e_session_id := Some sid |})
    = (cache', [Http.end_session uid sid],
       {| body := Ended "Session ended successfully" cleanup_count; status := 200 |}).
Proof.
  intros Htruthy Hstrip. unfold end_chat_session. simpl default.
  rewrite Hstrip, Htruthy. simpl negb. cbv iota.
  destruct (cached cache uid sid) eqn:Hcached.
  - eexists _, _. split; [ | reflexivity ].
    unfold cached. rewrite lookup_insert_eq. simpl. apply lookup_delete_eq.
  - eexists _, _. split; [ | reflexivity ]. exact Hcached.
Qed.

(** X12: nothing in the handlers reads the status of a stored session. After
    a session was ended (handler and thread, on a store that answers and
    holds its metadata), a message that carries its token is answered 201
    like any other, provided the user's chain can be built; and once the
    threads of that answer have run, in the order they were started, the
    turn is stored in the session and counted, while the session still
    reads 'ended'. *)
Theorem ended_session_still_answers (clk clk' : Clock) (clock_of : Task -> Clock)
  (db : Firestore) (llm : Gemini) (cache : Cache) (uid sid : string) (info : SessionInfo)
  (request : MessageRequest) :
  answering db ->
  metadata_info db !! (uid, sid) = Some info ->
  truthy sid = true -> strip sid = sid ->
  validated request -> m_session_id request = Some sid ->
  ~ chain_raises db llm uid ->
  let ended := end_chat_session cache uid (Some {| e_session_id := Some sid |}) in
  let db1 := run_tasks (fun _ => clk) db ended.1.2 in
  let answer := send_chat_message clk' db1 llm ended.1.1 uid (Some request) in
  let db2 := run_tasks clock_of db1 answer.1.2 in
  status ended.2 = 200 /\
  status answer.2 = 201 /\
  (exists reply : ChatReply,
     body answer.2 = ChatAnswered reply /\
     exists (turn_number : Z) (stored_at : Datetime),
       session_messages db2 uid sid
       = session_messages db uid sid
         ++ [ {| role := Some "user"; content := Some (user_message_content reply);
                 timestamp := stored_at; turn := turn_number |};
              {| role := Some "assistant"; content := Some (ai_response_content reply);
                 timestamp := stored_at; turn := turn_number |} ]) /\
  exists info2 : SessionInfo,
    metadata_info db2 !! (uid, sid) = Some info2 /\
    session_status info2 = "ended" /\
    ended_at info2 = Some (utcnow clk) /\
    message_count info2 = message_count info + 1.
Proof.
  intros Hdb Hinfo Htruthy Hstrip Hvalid Htoken Hfine. cbv zeta.
  destruct (end_chat_session_run cache uid sid Htruthy Hstrip)
    as (cache1 & cleanup_count & Hcache1 & ->).
  cbn [fst snd].
  unfold run_tasks. cbn [fold_left].
  rewrite !run_end by assumption. rewrite Hinfo.
  set (db1 := set_metadata_info _ db).
  assert (Hdb1 : answering db1) by (now apply answering_set_metadata).
  assert (Hfine1 : ~ chain_raises db1 llm uid)
    by (now rewrite (chain_raises_same_logs db db1 llm uid)).
  destruct (ChatFlow.send_uncached clk' db1 llm cache1 uid sid request Hvalid Htoken
              Htruthy Hcache1 (proj1 Hdb1) Hfine1)
    as (history & chain_ & cache' & _ & _ & _ & Hsend).
  cbv zeta in Hsend. rewrite Hsend. cbn [fst snd].
  split; [ reflexivity | ]. split; [ reflexivity | ].
  cbn [fold_left]. rewrite run_save by assumption.
  rewrite run_update by (now apply answering_set_messages).
  simpl metadata_info. subst db1. simpl metadata_info. rewrite lookup_insert_eq.
  split.
  - eexists. split; [ reflexivity | ]. eexists _, _.
    rewrite session_messages_set_metadata. apply session_messages_saved.
  - eexists. simpl. rewrite lookup_insert_eq. split; [ reflexivity | ].
    simpl. repeat split.
Qed.

(** A store that holds the metadata of a session of alice. *)
Definition store_with_session : Firestore :=
  {| initialized := true; reachable := true;
     user_mood_logs := ∅; user_weekly_dass := [];
     messages := ∅;
     metadata_info :=
       {[ ("alice", "s-1") :=
            {| created_at := utcnow noon; last_activity := utcnow noon;
               session_status := "active"; message_count := 4; ended_at := None |} ]};
     profile_data := ∅; users := ∅ |}.

Lemma ended_session_still_answers_witness :
  let ended :=
    end_chat_session ChatFlow.alice_cache "alice" (Some {| e_session_id := Some "s-1" |}) in
  let db1 := run_tasks (fun _ => noon) store_with_session ended.1.2 in
  status (send_chat_message noon db1 working_llm ended.1.1 "alice"
            (Some ChatFlow.follow_up)).2 = 201.
Proof.
  cbv zeta.
  refine (proj1 (proj2 (ended_session_still_answers noon noon (fun _ => noon)
                          store_with_session working_llm ChatFlow.alice_cache
                          "alice" "s-1" _ ChatFlow.follow_up (conj eq_refl eq_refl)
                          (lookup_singleton_eq _ _) eq_refl eq_refl
                          ChatFlow.follow_up_validated eq_refl _))).
  intros [H | [H | (H & _)]]; discriminate.
Defined.

End ThreadFacts.

(** ** The quiz handler, answer by answer *)

Module QuizFlow.

Import MoodService MoodApi MoodFacts.

(** A body that carries every section and every key, five rotating scores,
    and twelve scores between 1 and 5. *)
Definition complete (payload : option QuizPayload) : Prop :=
  exists (body_ : QuizPayload) (core : CoreScores) (rotating : RotatingScores)
         (dass : DassToday),
    payload = Some body_ /\
    p_core_scores body_
    = Some {| p_mood := Some (mood core); p_energy := Some (energy core);
              p_sleep := Some (sleep core); p_stress := Some (stress core) |} /\
    p_rotating_scores body_
    = Some {| p_domain_name := Some (domain_name rotating);
              p_scores := Some (scores rotating) |} /\
    p_dass_today body_
    = Some {| p_depression := Some (depression dass); p_anxiety := Some (anxiety dass);
              p_dass_stress := Some (dass_stress dass) |} /\
    length (scores rotating) = 5%nat /\
    Forall (fun s => 1 <= s <= 5) (all_scores_of core rotating dass).

Lemma in_1_5_spec (s : Z) : in_1_5 s = true <-> 1 <= s <= 5.
Proof. unfold in_1_5. rewrite andb_true_iff, !Z.leb_le. tauto. Qed.

Lemma forallb_in_1_5 (l : list Z) :
  forallb in_1_5 l = true <-> Forall (fun s => 1 <= s <= 5) l.
Proof.
  rewrite forallb_forall, Forall_forall. split; intros H s Hs.
  - apply in_1_5_spec, H. now apply list_elem_of_In.
  - apply in_1_5_spec, H. now apply list_elem_of_In.
Qed.

(** The checks of the handler accept exactly the complete bodies. *)
Lemma validate_complete (payload : option QuizPayload) :
  complete payload <->
  exists accepted core rotating dass,
    validate payload = inr (accepted, core, rotating, dass).
Proof.
  split.
  - intros (body_ & core & rotating & dass & -> & Hcore & Hrotating & Hdass & Hlen & Hall).
    exists body_, core, rotating, dass.
    apply forallb_in_1_5 in Hall. unfold all_scores_of in Hall.
    rewrite !forallb_app in Hall.
    apply andb_true_iff in Hall as [Hcores Hall].
    apply andb_true_iff in Hall as [Hrotatings Hdasses].
    unfold validate. rewrite Hcore, Hrotating, Hdass. simpl.
    simpl in Hcores, Hdasses. rewrite Hcores, Hrotatings, Hdasses.
    apply Nat.eqb_eq in Hlen. rewrite Hlen. simpl.
    destruct core, rotating, dass. reflexivity.
  - intros (accepted & core & rotating & dass & Hvalid).
    apply validate_accepts in Hvalid as (-> & Hcore & Hrotating & Hdass & Hlen & Hall).
    exists accepted, core, rotating, dass.
    repeat (split; [ assumption || reflexivity | ]). now apply forallb_in_1_5.
Qed.

(** X13: a submission is refused with status 400 exactly when its body is
    not complete (a section or a key is missing, the rotating scores are not
    five, or a score is not between 1 and 5); a refused submission leaves the
    store as it is. *)
Theorem incomplete_quiz_is_refused (clk : Clock) (out : Outage) (db : Firestore) (uid : string)
  (payload : option QuizPayload) :
  let result := submit_daily_quiz clk out db uid payload in
  (status result.2 = 400 <-> ~ complete payload) /\
  (status result.2 = 400 -> result.1 = db).
Proof.
  cbv zeta. rewrite validate_complete. unfold submit_daily_quiz.
  destruct (validate payload) as [refusal | [[[accepted core] rotating] dass]] eqn:Hvalid.
  - apply validate_refusal in Hvalid. simpl. split; [ | reflexivity ].
    split; [ intros _ (? & ? & ? & ? & ?); discriminate | intros _; assumption ].
  - assert (Hother : forall result : Firestore * Response QuizBody,
              status result.2 = 500 \/ status result.2 = 201 ->
              (status result.2 = 400 <->
               ~ exists accepted0 core0 rotating0 dass0,
                   @inr (Response QuizBody) _ (accepted, core, rotating, dass)
                   = inr (accepted0, core0, rotating0, dass0)) /\
              (status result.2 = 400 -> result.1 = db)).
    { intros result Hstatus. split; [ split | ].
      - intros H400. destruct Hstatus; congruence.
      - intros Hnone. exfalso. apply Hnone. eauto.
      - intros H400. destruct Hstatus; congruence. }
    apply Hother.
    destruct (daily_doc_of accepted core rotating dass); [ | left; reflexivity ].
    destruct (upsert_daily_mood_log clk db uid a) as [[db1 [result | ]] | ];
      try (left; reflexivity).
    destruct (weekly_aggregation clk out db1 uid) as [[db2 weekly] | ];
      [ right | left ]; reflexivity.
Qed.

(** Every stored daily log carries clinical scores between 1 and 5. *)
Definition clinical_in_range (db : Firestore) : Prop :=
  forall (id : string) (log : MoodLog),
    user_mood_logs db !! id = Some log ->
    1 <= depression (dass_today log) <= 5 /\
    1 <= anxiety (dass_today log) <= 5 /\
    1 <= dass_stress (dass_today log) <= 5.

Lemma _to_dass_scale_returns (s : Z) :
  1 <= s <= 5 -> exists v : Z, _to_dass_scale s = Returns v.
Proof.
  intros Hs. assert (Hcases : s = 1 \/ s = 2 \/ s = 3 \/ s = 4 \/ s = 5) by lia.
  destruct Hcases as [-> | [-> | [-> | [-> | ->]]]]; eexists; reflexivity.
Qed.

Lemma dass_total_returns (vals : list Z) :
  Forall (fun s => 1 <= s <= 5) vals -> exists total : Z, dass_total vals = Returns total.
Proof.
  intros Hvals. unfold dass_total.
  assert (Hsum : exists total : Z, dass_sum vals = Returns total).
  { induction Hvals as [ | s vals Hs _ [rest IH]]; [ eexists; reflexivity | ].
    destruct (_to_dass_scale_returns s Hs) as [v Hv].
    simpl. rewrite Hv, bind_Returns, IH, bind_Returns. eauto. }
  destruct Hsum as [total ->]. rewrite bind_Returns. eauto.
Qed.

(** On such a store, which answers, the weekly aggregation does not raise,
    whichever of its own requests fail. *)
Lemma weekly_aggregation_returns (clk : Clock) (out : Outage) (db : Firestore) (uid : string) :
  initialized db = true -> reachable db = true -> clinical_in_range db ->
  exists (db' : Firestore) (weekly : option WeeklyResult),
    weekly_aggregation clk out db uid = Returns (db', weekly).
Proof.
  intros Hinit Hreach Hrange. rewrite weekly_aggregation_run by assumption. cbv zeta.
  destruct (_ && _); [ | eauto ].
  set (last_7 := if recent_fails out then [] else _).
  assert (Hlast : forall entry, entry ∈ last_7 ->
            1 <= depression (dass_today entry.2) <= 5 /\
            1 <= anxiety (dass_today entry.2) <= 5 /\
            1 <= dass_stress (dass_today entry.2) <= 5).
  { intros entry Hin. unfold last_7 in Hin.
    destruct (recent_fails out); [ now apply elem_of_nil in Hin | ].
    apply last_logs_stored in Hin. exact (Hrange _ _ Hin). }
  assert (Htotal : forall f : string * MoodLog -> Z,
            (forall entry, entry ∈ last_7 -> 1 <= f entry <= 5) ->
            exists total : Z, dass_total (f <$> last_7) = Returns total).
  { intros f Hf. apply dass_total_returns, Forall_fmap, Forall_forall. exact Hf. }
  destruct (Htotal (fun entry => depression (dass_today entry.2))) as [dep ->];
    [ intros entry Hin; apply (Hlast entry Hin) | ].
  destruct (Htotal (fun entry => anxiety (dass_today entry.2))) as [anx ->];
    [ intros entry Hin; apply (Hlast entry Hin) | ].
  destruct (Htotal (fun entry => dass_stress (dass_today entry.2))) as [str ->];
    [ intros entry Hin; apply (Hlast entry Hin) | ].
  rewrite !bind_Returns. destruct (_ && _); [ eauto | ].
  destruct (save_fails out); eauto.
Qed.

(** X14: a complete body sent to a store that answers, all of whose daily
    logs carry clinical scores between 1 and 5, is always saved, whichever
    requests of the weekly aggregation fail: the answer is 201 and names the
    composite id of the user and the date; the store still answers
    afterwards and its logs still carry such scores, so that the same holds
    of the next submission. *)
Theorem complete_quiz_is_saved (clk : Clock) (out : Outage) (db : Firestore) (uid : string)
  (payload : option QuizPayload) :
  initialized db = true -> reachable db = true ->
  clinical_in_range db -> complete payload ->
  let result := submit_daily_quiz clk out db uid payload in
  status result.2 = 201 /\
  (exists (high low : Point) (weekly : option WeeklyResult),
     body result.2 = Saved (composite_id uid (quiz_date clk payload)) high low weekly) /\
  initialized result.1 = true /\ reachable result.1 = true /\
  clinical_in_range result.1.
Proof.
  intros Hinit Hreach Hrange Hcomplete. cbv zeta.
  pose proof Hcomplete as (body_ & core0 & rotating0 & dass0 & Hbody & _).
  apply validate_complete in Hcomplete as (accepted & core & rotating & dass & Hvalid).
  pose proof (validate_accepts _ _ _ _ _ Hvalid) as (Hpayload & _ & _ & _ & Hlen & Hall).
  destruct (daily_doc_of_accepted accepted core rotating dass Hlen)
    as (high & low & core_avg_ & rotating_avg_ & _ & Hdoc).
  unfold submit_daily_quiz. rewrite Hvalid, Hdoc.
  unfold upsert_daily_mood_log, get_firestore_client, request.
  rewrite Hinit, Hreach, bind_Returns. cbn beta iota.
  set (db1 := set_user_mood_logs _ db).
  assert (Hrange1 : clinical_in_range db1).
  { intros id log. unfold db1. simpl. intros Hlookup.
    apply lookup_insert_Some in Hlookup as [[_ <-] | [_ Hlookup]];
      [ | exact (Hrange _ _ Hlookup) ].
    simpl. apply forallb_in_1_5 in Hall. unfold all_scores_of in Hall.
    rewrite !Forall_app in Hall. destruct Hall as (_ & _ & Hdass).
    inversion_clear Hdass as [ | ? ? Hd Hrest]. inversion_clear Hrest as [ | ? ? Ha Hrest'].
    inversion_clear Hrest' as [ | ? ? Hs _]. auto. }
  destruct (weekly_aggregation_returns clk out db1 uid Hinit Hreach Hrange1)
    as (db2 & weekly & Hweekly).
  rewrite Hweekly. simpl.
  destruct (weekly_aggregation_logs clk out db1 uid db2 weekly Hinit Hreach Hweekly)
    as (Hlogs & Hinit2 & Hreach2).
  split; [ reflexivity | ]. split.
  - exists high, low, weekly. unfold quiz_date. rewrite Hpayload. reflexivity.
  - split; [ assumption | ]. split; [ assumption | ].
    intros id log. rewrite Hlogs. apply Hrange1.
Qed.

Lemma clinical_in_range_empty : clinical_in_range empty_store.
Proof. intros id log H. simpl in H. now rewrite lookup_empty in H. Qed.

Lemma example_payload_complete : complete (Some example_payload).
Proof.
  exists example_payload,
    {| mood := 3; energy := 5; sleep := 1; stress := 4 |},
    {| domain_name := "social"; scores := [2; 3; 3; 3; 3] |},
    {| depression := 2; anxiety := 2; dass_stress := 2 |}.
  repeat (split; [ reflexivity | ]).
  apply forallb_in_1_5. reflexivity.
Qed.

Lemma complete_quiz_is_saved_witness :
  status (submit_daily_quiz (clock_at "2025-01-07" 1) no_outage empty_store "alice"
            (Some example_payload)).2 = 201.
Proof.
  exact (proj1 (complete_quiz_is_saved (clock_at "2025-01-07" 1) no_outage empty_store "alice"
                  (Some example_payload) eq_refl eq_refl clinical_in_range_empty
                  example_payload_complete)).
Defined.

(** What the weekly aggregation does when it returns. *)
Lemma weekly_aggregation_outcome (clk : Clock) (out : Outage) (db : Firestore) (uid : string)
  (db' : Firestore) (weekly : option WeeklyResult) :
  initialized db = true -> reachable db = true ->
  weekly_aggregation clk out db uid = Returns (db', weekly) ->
  (db' = db /\ weekly = None) \/
  exists (last_7 : list (string * MoodLog)) (dep anx str : Z),
    length last_7 = 7%nat /\
    dass_total ((fun entry => depression (dass_today entry.2)) <$> last_7) = Returns dep /\
    dass_total ((fun entry => anxiety (dass_today entry.2)) <$> last_7) = Returns anx /\
    dass_total ((fun entry => dass_stress (dass_today entry.2)) <$> last_7) = Returns str /\
    (exists_fails out = true \/
     existsb (same_week uid (week_range clk last_7).1 (week_range clk last_7).2)
       (user_weekly_dass db) = false) /\
    db' = set_user_weekly_dass
            (fun docs =>
               docs ++ [{| w_user_id := uid;
                           week_start := (week_range clk last_7).1;
                           week_end := (week_range clk last_7).2;
                           depression_total := dep;
                           anxiety_total := anx;
                           stress_total := str;
                           calculated_at := utcnow clk |}]) db /\
    weekly = if truthy (auto_id clk) then
               Some {| weekly_id := auto_id clk;
                       r_week_start := (week_range clk last_7).1;
                       r_week_end := (week_range clk last_7).2;
                       r_depression_total := dep;
                       r_anxiety_total := anx;
                       r_stress_total := str |}
             else None.
Proof.
  intros Hinit Hreach. rewrite weekly_aggregation_run by assumption. cbv zeta.
  destruct (_ && _) eqn:Hdue; [ | intros; simplify_eq; auto ].
  apply andb_true_iff in Hdue as [_ Hlen]. apply Nat.eqb_eq in Hlen.
  intros H. do 3 step_bind H.
  destruct (_ && _) eqn:Hexists; [ simplify_eq; auto | ].
  destruct (save_fails out); simplify_eq; [ auto | ].
  right. eexists _, _, _, _.
  split; [ exact Hlen | ]. do 3 (split; [ eassumption | ]).
  split; [ | split; reflexivity ].
  apply andb_false_iff in Hexists as [Hfails | Hnone]; [ left | right; exact Hnone ].
  now apply negb_false_iff in Hfails.
Qed.

Lemma validate_refusal_body (payload : option QuizPayload) (refusal : Response QuizBody) :
  validate payload = inl refusal -> exists f : Failure, body refusal = Rejected f.
Proof.
  unfold validate. intros H.
  repeat case_match; simplify_eq; eexists; reflexivity.
Qed.

(** The aggregates a submission leaves, whatever its answer. *)
Lemma submit_aggregates (clk : Clock) (out : Outage) (db : Firestore) (uid : string)
  (payload : option QuizPayload) :
  let result := submit_daily_quiz clk out db uid payload in
  (user_weekly_dass result.1 = user_weekly_dass db /\
   forall id hi lo weekly, body result.2 = Saved id hi lo weekly -> weekly = None) \/
  exists (last_7 : list (string * MoodLog)) (dep anx str : Z),
    length last_7 = 7%nat /\
    dass_total ((fun entry => depression (dass_today entry.2)) <$> last_7) = Returns dep /\
    dass_total ((fun entry => anxiety (dass_today entry.2)) <$> last_7) = Returns anx /\
    dass_total ((fun entry => dass_stress (dass_today entry.2)) <$> last_7) = Returns str /\
    (exists_fails out = true \/
     existsb (same_week uid (week_range clk last_7).1 (week_range clk last_7).2)
       (user_weekly_dass db) = false) /\
    user_weekly_dass result.1
    = user_weekly_dass db
      ++ [{| w_user_id := uid;
             week_start := (week_range clk last_7).1;
             week_end := (week_range clk last_7).2;
             depression_total := dep;
             anxiety_total := anx;
             stress_total := str;
             calculated_at := utcnow clk |}] /\
    forall id hi lo weekly,
      body result.2 = Saved id hi lo weekly ->
      weekly = if truthy (auto_id clk) then
                 Some {| weekly_id := auto_id clk;
                         r_week_start := (week_range clk last_7).1;
                         r_week_end := (week_range clk last_7).2;
                         r_depression_total := dep;
                         r_anxiety_total := anx;
                         r_stress_total := str |}
               else None.
Proof.
  cbv zeta. unfold submit_daily_quiz.
  destruct (validate payload) as [refusal | [[[accepted core] rotating] dass]] eqn:Hvalid.
  { left. split; [ reflexivity | ]. apply validate_refusal_body in Hvalid as [f Hf].
    simpl. rewrite Hf. intros id hi lo weekly Hbody. discriminate. }
  destruct (daily_doc_of accepted core rotating dass) as [daily_doc | ];
    [ | left; split; [ reflexivity | simpl; intros; discriminate ] ].
  unfold upsert_daily_mood_log, get_firestore_client, request.
  destruct (initialized db) eqn:Hinit;
    [ | left; split; [ reflexivity | simpl; intros; discriminate ] ].
  rewrite bind_Returns.
  destruct (reachable db) eqn:Hreach;
    [ | left; split; [ reflexivity | simpl; intros; discriminate ] ].
  cbn iota beta.
  set (db1 := set_user_mood_logs _ db).
  destruct (weekly_aggregation clk out db1 uid) as [[db2 weekly] | ] eqn:Hweekly;
    [ | left; split; [ reflexivity | simpl; intros; discriminate ] ].
  apply weekly_aggregation_outcome in Hweekly
      as [[-> ->] | (last_7 & dep & anx & str & Hlen & Hdep & Hanx & Hstr & Hnone & -> & ->)];
    [ | | exact Hinit | exact Hreach ].
  - left. split; [ reflexivity | ]. simpl. intros id hi lo weekly Hbody. now simplify_eq.
  - right. exists last_7, dep, anx, str.
    repeat (split; [ assumption | ]). split; [ reflexivity | ].
    simpl. intros id hi lo weekly Hbody. now simplify_eq.
Qed.

Lemma dass_sum_bound (vals : list Z) (total : Z) :
  dass_sum vals = Returns total -> 0 <= total <= 3 * Z.of_nat (length vals).
Proof.
  revert total. induction vals as [ | s vals IH]; simpl; intros total H.
  - simplify_eq. lia.
  - step_bind H. step_bind H. simplify_eq.
    specialize (IH _ eq_refl).
    assert (0 <= a <= 3).
    { unfold _to_dass_scale in E.
      repeat match type of E with
             | (if ?c then _ else _) = _ => destruct c; [ simplify_eq; lia | ]
             end.
      discriminate. }
    lia.
Qed.

(** A weekly total over seven days is an even number between 0 and 42. *)
Lemma dass_total_bound (vals : list Z) (total : Z) :
  length vals = 7%nat -> dass_total vals = Returns total ->
  0 <= total <= 42 /\ Z.even total = true.
Proof.
  unfold dass_total. intros Hlen H. step_bind H. simplify_eq.
  apply dass_sum_bound in E. rewrite Hlen in E.
  split; [ lia | ]. rewrite Z.even_mul. apply orb_true_r.
Qed.

Lemma week_range_ordered (clk : Clock) (last_7 : list (string * MoodLog)) :
  String.leb (week_range clk last_7).1 (week_range clk last_7).2 = true.
Proof.
  destruct (week_range_spans clk last_7) as [Hbetween Hin].
  destruct (dates_of last_7) as [ | d dates] eqn:Hdates.
  - unfold week_range. rewrite Hdates. apply StrOrder.leb_refl.
  - destruct Hin as [Hfirst _]; [ discriminate | ].
    exact (proj2 (Hbetween _ Hfirst)).
Qed.

(** X15: a submission adds at most one weekly aggregate, at the end of the
    collection. The aggregate is the submitting user's, is dated at the time
    of the submission, spans a range whose start is not after its end, and
    carries three totals that are even numbers between 0 and 42; the answer
    reports a weekly result exactly when an aggregate was added under a
    non-empty id, and reports its range and totals. *)
Theorem weekly_aggregate_shape (clk : Clock) (out : Outage) (db : Firestore) (uid : string)
  (payload : option QuizPayload) :
  let result := submit_daily_quiz clk out db uid payload in
  (user_weekly_dass result.1 = user_weekly_dass db /\
   forall id hi lo weekly, body result.2 = Saved id hi lo weekly -> weekly = None) \/
  exists w : WeeklyDass,
    user_weekly_dass result.1 = user_weekly_dass db ++ [w] /\
    w_user_id w = uid /\ calculated_at w = utcnow clk /\
    String.leb (week_start w) (week_end w) = true /\
    Forall (fun total => 0 <= total <= 42 /\ Z.even total = true)
      [depression_total w; anxiety_total w; stress_total w] /\
    forall id hi lo weekly,
      body result.2 = Saved id hi lo weekly ->
      weekly = if truthy (auto_id clk) then
                 Some {| weekly_id := auto_id clk;
                         r_week_start := week_start w;
                         r_week_end := week_end w;
                         r_depression_total := depression_total w;
                         r_anxiety_total := anxiety_total w;
                         r_stress_total := stress_total w |}
               else None.
Proof.
  cbv zeta.
  destruct (submit_aggregates clk out db uid payload)
    as [Hsame | (last_7 & dep & anx & str & Hlen & Hdep & Hanx & Hstr & _ & Hadded & Hbody)];
    [ left; exact Hsame | right ].
  eexists. split; [ exact Hadded | ]. simpl.
  split; [ reflexivity | ]. split; [ reflexivity | ].
  split; [ apply week_range_ordered | ]. split; [ | exact Hbody ].
  repeat constructor;
    (eapply dass_total_bound; [ | eassumption ]; now rewrite length_fmap).
Qed.

(** The user and the range an aggregate is stored for. *)
Definition week_key (w : WeeklyDass) : string * string * string :=
  (w_user_id w, week_start w, week_end w).

(** No two aggregates are stored for the same user and range. *)
Definition one_aggregate_per_week (db : Firestore) : Prop :=
  NoDup (week_key <$> user_weekly_dass db).




(** The store after the seventh day of the week was filed, every request
    answered: it holds the aggregate of 1 to 7 January. *)
Definition first_week : Firestore :=
  (submit_daily_quiz (clock_at "2025-01-08" 7) no_outage six_days "alice"
     (Some (day_payload "2025-01-07" (2, 5, 1)))).1.

(** When the existence check fails, it reads as no aggregate: the seventh
    day filed again, still the user's seventh log, stores a second aggregate
    for the range that has one. *)
Lemma unanswered_check_duplicates :
  let out := {| count_fails := false; recent_fails := false;
                exists_fails := true; save_fails := false |} in
  let again :=
    submit_daily_quiz (clock_at "2025-01-08" 8) out first_week "alice"
      (Some (day_payload "2025-01-07" (2, 5, 1))) in
  one_aggregate_per_week first_week /\
  status again.2 = 201 /\
  week_key <$> user_weekly_dass again.1
  = [("alice", "2025-01-01", "2025-01-07"); ("alice", "2025-01-01", "2025-01-07")] /\
  ~ one_aggregate_per_week again.1.
Proof.
  cbv zeta. unfold one_aggregate_per_week.
  set (again := submit_daily_quiz _ _ _ _ _).
  assert (Hweek : week_key <$> user_weekly_dass first_week
                  = [("alice", "2025-01-01", "2025-01-07")]) by (vm_compute; reflexivity).
  assert (Hagain : week_key <$> user_weekly_dass again.1
                   = [("alice", "2025-01-01", "2025-01-07");
                      ("alice", "2025-01-01", "2025-01-07")]) by (vm_compute; reflexivity).
  rewrite Hweek, Hagain.
  split; [ apply NoDup_singleton | ]. split; [ vm_compute; reflexivity | ].
  split; [ reflexivity | ].
  intros Hnodup. apply NoDup_cons in Hnodup as [Hfresh _]. apply Hfresh, list_elem_of_here.
Qed.

(** X17: the day's log is written before the weekly aggregation runs. A
    complete body sent to a store that answers is stored under the composite
    id of the user and the date, with the scores of the body, the user, the
    date and the time of the submission, whether the request is then answered
    201 or, the aggregation having raised, with the 500 server error, and
    whichever requests of the aggregation fail. *)
Theorem complete_quiz_is_stored (clk : Clock) (out : Outage) (db : Firestore) (uid : string)
  (payload : option QuizPayload) :
  initialized db = true -> reachable db = true -> complete payload ->
  let result := submit_daily_quiz clk out db uid payload in
  (status result.2 = 201 \/ result.2 = server_error) /\
  exists (body_ : QuizPayload) (log : MoodLog),
    payload = Some body_ /\
    user_mood_logs result.1
    = <[composite_id uid (quiz_date clk payload) := log]> (user_mood_logs db) /\
    reflects log body_ /\
    user_id log = Some uid /\
    date log = Some (quiz_date clk payload) /\
    submitted_at log = Some (utcnow clk).
Proof.
  intros Hinit Hreach Hcomplete. cbv zeta.
  apply validate_complete in Hcomplete as (accepted & core & rotating & dass & Hvalid).
  pose proof (validate_accepts _ _ _ _ _ Hvalid)
    as (Hpayload & Hcore & Hrotating & Hdass & Hlen & _).
  destruct (daily_doc_of_accepted accepted core rotating dass Hlen)
    as (high & low & core_avg_ & rotating_avg_ & _ & Hdoc).
  unfold submit_daily_quiz. rewrite Hvalid, Hdoc.
  unfold upsert_daily_mood_log, get_firestore_client, request.
  rewrite Hinit, Hreach, bind_Returns. cbn beta iota.
  set (db1 := set_user_mood_logs _ db).
  assert (Hstored :
            forall db2 : Firestore,
              user_mood_logs db2 = user_mood_logs db1 ->
              exists (body_ : QuizPayload) (log : MoodLog),
                payload = Some body_ /\
                user_mood_logs db2
                = <[composite_id uid (quiz_date clk payload) := log]> (user_mood_logs db) /\
                reflects log body_ /\
                user_id log = Some uid /\
                date log = Some (quiz_date clk payload) /\
                submitted_at log = Some (utcnow clk)).
  { intros db2 ->. eexists accepted, _. split; [ exact Hpayload | ].
    unfold db1, quiz_date. rewrite Hpayload. simpl.
    split; [ reflexivity | ]. unfold reflects. simpl. repeat split; assumption. }
  destruct (weekly_aggregation clk out db1 uid) as [[db2 weekly] | ] eqn:Hweekly.
  - destruct (weekly_aggregation_logs clk out db1 uid db2 weekly Hinit Hreach Hweekly)
      as (Hlogs & _ & _).
    split; [ left; reflexivity | ]. apply Hstored. exact Hlogs.
  - split; [ right; reflexivity | ]. apply Hstored. reflexivity.
Qed.

Lemma complete_quiz_is_stored_witness :
  exists log : MoodLog,
    user_mood_logs
      (submit_daily_quiz (clock_at "2025-01-07" 1) no_outage empty_store "alice"
         (Some example_payload)).1
    = <[composite_id "alice" "2025-01-07" := log]> ∅ /\
    submitted_at log = Some (utcnow (clock_at "2025-01-07" 1)).
Proof.
  destruct (complete_quiz_is_stored (clock_at "2025-01-07" 1) no_outage empty_store "alice"
              (Some example_payload) eq_refl eq_refl example_payload_complete)
    as (_ & body_ & log & _ & Hlogs & _ & _ & _ & Hstamp).
  exists log. split; [ exact Hlogs | exact Hstamp ].
Defined.

End QuizFlow.

(** ** Lookups of the mood service *)

Module LookupFacts.

Import MoodService MoodApi MoodLookup MoodFacts.

Lemma NoDup_all_equal {A : Type} (x : A) (l : list A) :
  NoDup l -> x ∈ l -> (forall y, y ∈ l -> y = x) -> l = [x].
Proof.
  intros Hnodup Hin Hall. destruct l as [ | a [ | b l]].
  - now apply elem_of_nil in Hin.
  - now rewrite (Hall a (list_elem_of_here _ _)).
  - exfalso. apply NoDup_cons in Hnodup as [Hfresh _]. apply Hfresh.
    rewrite (Hall a (list_elem_of_here _ _)).
    rewrite <- (Hall b (list_elem_of_further _ _ _ (list_elem_of_here _ _))).
    apply list_elem_of_here.
Qed.

(** On a store whose logs are stored under their composite ids, the logs of
    a user for a date are the one document under the id of that user and
    date, if there is one. *)
Lemma logs_of_user_and_date (db : Firestore) (uid date_str : string) (log : MoodLog) :
  keyed db ->
  user_mood_logs db !! composite_id uid date_str = Some log ->
  user_id log = Some uid -> date log = Some date_str ->
  filter (fun entry => date entry.2 = Some date_str) (logs_of_user db uid)
  = [(composite_id uid date_str, log)].
Proof.
  intros Hkeyed Hlookup Huser Hdate. apply NoDup_all_equal.
  - unfold logs_of_user. do 2 apply NoDup_filter. apply NoDup_map_to_list.
  - apply list_elem_of_filter. split; [ exact Hdate | ].
    apply list_elem_of_filter. split; [ exact Huser | ].
    now apply elem_of_map_to_list.
  - intros [id other] Hin.
    apply list_elem_of_filter in Hin as [Hdate' Hin].
    apply list_elem_of_filter in Hin as [Huser' Hin].
    apply elem_of_map_to_list in Hin. simpl in Hdate', Huser'.
    destruct (Hkeyed id other Hin) as (u & d & Hu & Hd & ->).
    assert (u = uid) by congruence. assert (d = date_str) by congruence. subst u d.
    rewrite Hlookup in Hin. congruence.
Qed.

(** X18: a saved quiz can be looked up by its date. After a submission
    answered 201 and filed under a date (the date the body carries, or the
    day of the request for a body that carries none), on a store whose daily
    logs are stored under their composite ids, the lookup of the user's log
    for that date returns the document stored under the id made of the user,
    an underscore and the date, which is the document of the body, field by
    field, stamped by the request. *)
Theorem saved_quiz_is_found_by_date (clk : Clock) (out : Outage) (db db' : Firestore)
  (uid date_str : string) (body_ : QuizPayload) (resp : Response QuizBody) :
  keyed db ->
  submit_daily_quiz clk out db uid (Some body_) = (db', resp) -> status resp = 201 ->
  filed_under clk body_ date_str ->
  exists log : MoodLog,
    get_daily_mood_log_by_date db' uid date_str
    = Returns (Some (uid +:+ "_" +:+ date_str, log)) /\
    user_mood_logs db' !! (uid +:+ "_" +:+ date_str) = Some log /\
    document_of body_ uid date_str (utcnow clk) log.
Proof.
  intros Hkeyed Hsubmit Hstatus Hfiled.
  pose proof (submit_keyed _ _ _ _ _ _ _ Hsubmit Hstatus Hkeyed) as Hkeyed'.
  destruct (submit_stored _ _ _ _ _ _ _ Hsubmit Hstatus)
    as (_ & _ & _ & _ & _ & _ & _ & _ & _ & Hinit & Hreach).
  destruct (submit_document _ _ _ _ _ _ _ _ Hsubmit Hstatus Hfiled)
    as (log & Hlogs & Hdocument & _).
  assert (Hlookup : user_mood_logs db' !! (uid +:+ "_" +:+ date_str) = Some log)
    by (rewrite Hlogs; apply lookup_insert_eq).
  exists log. split; [ | split; assumption ].
  unfold get_daily_mood_log_by_date, get_firestore_client, request.
  rewrite Hinit, Hreach, bind_Returns. simpl except.
  rewrite (logs_of_user_and_date db' uid date_str log); try assumption.
  - reflexivity.
  - apply Hdocument.
  - apply Hdocument.
Qed.

(** A body dated the 7th and filed on the 9th is found under the 7th. *)
Lemma saved_quiz_is_found_by_date_witness :
  exists log : MoodLog,
    get_daily_mood_log_by_date
      (submit_daily_quiz (clock_at "2025-01-09" 1) no_outage empty_store "alice"
         (Some example_payload)).1
      "alice" "2025-01-07"
    = Returns (Some ("alice_2025-01-07", log)) /\
    document_of example_payload "alice" "2025-01-07" (utcnow (clock_at "2025-01-09" 1)) log.
Proof.
  set (saved := submit_daily_quiz (clock_at "2025-01-09" 1) no_outage empty_store "alice"
                  (Some example_payload)).
  assert (Hstatus : status saved.2 = 201) by reflexivity.
  assert (Hfiled : filed_under (clock_at "2025-01-09" 1) example_payload "2025-01-07")
    by (left; split; [ reflexivity | discriminate ]).
  destruct (saved_quiz_is_found_by_date (clock_at "2025-01-09" 1) no_outage empty_store
              saved.1 "alice" "2025-01-07" example_payload saved.2 keyed_empty
              (surjective_pairing saved) Hstatus Hfiled)
    as (log & Hfound & _ & Hdocument).
  exists log. split; [ exact Hfound | exact Hdocument ].
Defined.

(** *** The order of the questions *)

Section Questions.

Context {Q : Type}.

(** A key of one kind and a key of the other. *)
Definition same_kind (a b : SortKey) : Prop :=
  match a, b with
  | IntKey _, IntKey _ | StrKey _, StrKey _ => True
  | _, _ => False
  end.

(** All the keys of the list are of the kind of [a]. *)
Definition all_of_kind (a : SortKey) (items : list (SortKey * Q)) : Prop :=
  Forall (fun item => same_kind a item.1) items.

Lemma same_kind_trans (a b c : SortKey) : same_kind a b -> same_kind b c -> same_kind a c.
Proof. destruct a, b, c; simpl; tauto. Qed.

Lemma same_kind_sym (a b : SortKey) : same_kind a b -> same_kind b a.
Proof. destruct a, b; simpl; tauto. Qed.

Lemma key_lt_same_kind (a b : SortKey) :
  same_kind a b <-> exists below : bool, key_lt a b = Returns below.
Proof.
  destruct a, b; simpl;
    (split; [ first [ tauto | intros _; eauto ]
            | first [ tauto | intros [below H]; discriminate ] ]).
Qed.

#[local] Instance same_kind_dec (a b : SortKey) : Decision (same_kind a b).
Proof. destruct a, b; simpl; apply _. Defined.

(** Inserting an item among items of its kind. *)
Lemma insert_same_kind (x : SortKey * Q) (sorted_ : list (SortKey * Q)) :
  all_of_kind x.1 sorted_ ->
  exists placed : list (SortKey * Q),
    insert_by_key x sorted_ = Returns placed /\ Permutation placed (x :: sorted_).
Proof.
  induction sorted_ as [ | y rest IH]; intros Hkind; [ simpl; eauto | ].
  apply Forall_cons in Hkind as [Hy Hrest].
  apply same_kind_sym, key_lt_same_kind in Hy as [[ | ] Hbelow];
    simpl; rewrite Hbelow; [ | eauto ].
  destruct (IH Hrest) as (placed & -> & Hperm). rewrite bind_Returns.
  eexists. split; [ reflexivity | ]. rewrite Hperm. apply perm_swap.
Qed.

(** Inserting an item among items of the other kind raises. *)
Lemma insert_other_kind (x y : SortKey * Q) (rest : list (SortKey * Q)) :
  ~ same_kind y.1 x.1 -> insert_by_key x (y :: rest) = Raises.
Proof.
  intros Hother. simpl.
  destruct (key_lt y.1 x.1) as [below | ] eqn:Hbelow; [ | reflexivity ].
  exfalso. apply Hother, key_lt_same_kind. eauto.
Qed.

(** Items of one kind are sorted into a permutation of themselves. *)
Lemma sorted_same_kind (a : SortKey) (items : list (SortKey * Q)) :
  all_of_kind a items ->
  exists sorted_ : list (SortKey * Q),
    sorted_by_key items = Returns sorted_ /\ Permutation sorted_ items.
Proof.
  induction items as [ | x rest IH]; intros Hkind; [ simpl; eauto | ].
  apply Forall_cons in Hkind as [Hx Hrest].
  destruct (IH Hrest) as (sorted_rest & Hsorted & Hperm).
  simpl. rewrite Hsorted, bind_Returns.
  destruct (insert_same_kind x sorted_rest) as (placed & -> & Hplaced).
  - unfold all_of_kind. rewrite Hperm.
    eapply Forall_impl; [ exact Hrest | ].
    intros item Hitem. simpl in Hitem |- *.
    exact (same_kind_trans _ _ _ (same_kind_sym _ _ Hx) Hitem).
  - eexists. split; [ reflexivity | ]. rewrite Hplaced. now constructor.
Qed.

(** Whenever the sort returns, it returns a permutation. *)
Lemma insert_by_key_Permutation (x : SortKey * Q) (sorted_ placed : list (SortKey * Q)) :
  insert_by_key x sorted_ = Returns placed -> Permutation placed (x :: sorted_).
Proof.
  revert placed. induction sorted_ as [ | y rest IH]; intros placed; simpl.
  - intros H. now simplify_eq.
  - destruct (key_lt y.1 x.1) as [[ | ] | ]; [ | intros H; now simplify_eq | discriminate ].
    destruct (insert_by_key x rest) as [placed_rest | ]; [ | discriminate ].
    rewrite bind_Returns. intros H. simplify_eq.
    rewrite (IH _ eq_refl). apply perm_swap.
Qed.

Lemma sorted_by_key_Permutation (items sorted_ : list (SortKey * Q)) :
  sorted_by_key items = Returns sorted_ -> Permutation sorted_ items.
Proof.
  revert sorted_. induction items as [ | x rest IH]; intros sorted_; simpl.
  - intros H. now simplify_eq.
  - destruct (sorted_by_key rest) as [sorted_rest | ]; [ | discriminate ].
    rewrite bind_Returns. intros H. apply insert_by_key_Permutation in H.
    rewrite H. constructor. now apply IH.
Qed.

(** Keys of the two kinds make the sort raise. *)
Lemma sorted_mixed_raises (items : list (SortKey * Q)) (x y : SortKey * Q) :
  x ∈ items -> y ∈ items -> ~ same_kind x.1 y.1 -> sorted_by_key items = Raises.
Proof.
  intros Hx Hy Hother.
  assert (Hmixed : forall a : SortKey, ~ all_of_kind a items).
  { intros a Hall. unfold all_of_kind in Hall. rewrite Forall_forall in Hall.
    apply Hother.
    exact (same_kind_trans _ _ _ (same_kind_sym _ _ (Hall x Hx)) (Hall y Hy)). }
  clear x y Hx Hy Hother.
  induction items as [ | x rest IH]; [ exfalso; apply (Hmixed (IntKey 0)); constructor | ].
  simpl. destruct (sorted_by_key rest) as [sorted_rest | ] eqn:Hsorted;
    [ rewrite bind_Returns | reflexivity ].
  pose proof (sorted_by_key_Permutation _ _ Hsorted) as Hperm.
  destruct sorted_rest as [ | y sorted_rest].
  - apply Permutation_nil_l in Hperm. subst rest.
    exfalso. apply (Hmixed x.1). constructor; [ | constructor ].
    destruct x.1; exact I.
  - apply insert_other_kind. intros Hkind.
    destruct (decide (Forall (fun item : SortKey * Q => same_kind y.1 item.1) rest))
      as [Hall | Hsome].
    + apply (Hmixed x.1). constructor; [ destruct x.1; exact I | ].
      eapply Forall_impl; [ exact Hall | ].
      intros item Hitem. simpl in Hitem |- *.
      exact (same_kind_trans _ _ _ (same_kind_sym _ _ Hkind) Hitem).
    + enough (Hraises : Returns (y :: sorted_rest) = Raises) by discriminate.
      apply IH. intros a Hall. apply Hsome.
      assert (Hy : y ∈ rest) by (rewrite <- Hperm; apply list_elem_of_here).
      unfold all_of_kind in Hall. rewrite Forall_forall in Hall.
      apply Forall_forall. intros item Hitem. simpl.
      exact (same_kind_trans _ _ _ (same_kind_sym _ _ (Hall y Hy)) (Hall item Hitem)).
Qed.

(** The decimal value of a string of digits. *)
Definition digits_value (x : string) : Z :=
  fold_left (fun v c => 10 * v + (Z.of_N (code c) - 48)) (list_ascii_of_string x) 0.

(** A non-empty string of the digits 0 to 9. *)
Definition ascii_digits (x : string) : Prop :=
  x <> "" /\ Forall (fun c => is_ascii_digit c = true) (list_ascii_of_string x).

Lemma int_of_digits_fold (chars : list ascii) (v : Z) :
  Forall (fun c => is_ascii_digit c = true) chars ->
  fold_left
    (fun value c =>
       v ← value;
       if is_ascii_digit c then Returns (10 * v + (Z.of_N (code c) - 48)) else Raises)
    chars (Returns v)
  = Returns (fold_left (fun v c => 10 * v + (Z.of_N (code c) - 48)) chars v).
Proof.
  intros Hdigits. revert v. induction Hdigits as [ | c chars Hc _ IH]; intros v;
    [ reflexivity | ].
  simpl. rewrite ?bind_Returns, Hc. apply IH.
Qed.

Lemma int_of_digits_raises (chars : list ascii) (value : outcome Z) :
  value = Raises \/ Exists (fun c => is_ascii_digit c = false) chars ->
  fold_left
    (fun value c =>
       v ← value;
       if is_ascii_digit c then Returns (10 * v + (Z.of_N (code c) - 48)) else Raises)
    chars value
  = Raises.
Proof.
  revert value. induction chars as [ | c chars IH]; intros value [-> | Hsome].
  - reflexivity.
  - now apply Exists_nil in Hsome.
  - simpl. apply IH. now left.
  - simpl. apply IH. apply Exists_cons in Hsome as [Hc | Hsome]; [ left | now right ].
    destruct value; [ rewrite ?bind_Returns; simpl; rewrite Hc | ]; reflexivity.
Qed.

Lemma sort_key_digits (x : string) :
  ascii_digits x -> sort_key x = Returns (IntKey (digits_value x)).
Proof.
  intros [Hsome Hdigits]. unfold sort_key, isdigit.
  apply String.eqb_neq in Hsome. rewrite Hsome. simpl negb.
  assert (Hall : forallb isdigit_char (list_ascii_of_string x) = true).
  { apply forallb_forall. intros c Hc. apply list_elem_of_In in Hc.
    rewrite Forall_forall in Hdigits. unfold isdigit_char.
    now rewrite (Hdigits c Hc). }
  rewrite Hall. simpl. unfold int_of_digits.
  now rewrite (int_of_digits_fold _ 0 Hdigits).
Qed.

(** A key counted as digits by [isdigit] that holds a superscript. *)
Lemma sort_key_superscript (x : string) :
  isdigit x = true -> ~ ascii_digits x -> sort_key x = Raises.
Proof.
  intros Hdigit Hother. unfold sort_key. rewrite Hdigit. unfold int_of_digits.
  rewrite int_of_digits_raises; [ reflexivity | right ].
  assert (Hsome : Exists (not ∘ (fun c => is_ascii_digit c = true))
                    (list_ascii_of_string x)).
  { apply not_Forall_Exists; [ intros c; apply _ | ].
    intros Hall. apply Hother. split; [ intros ->; discriminate | exact Hall ]. }
  eapply Exists_impl; [ exact Hsome | ]. intros c Hc. simpl in Hc.
  destruct (is_ascii_digit c); [ exfalso; now apply Hc | reflexivity ].
Qed.

Lemma with_keys_values (items : list (string * Q)) (keyed_ : list (SortKey * Q)) :
  with_keys items = Returns keyed_ ->
  snd <$> keyed_ = snd <$> items /\
  Forall2 (fun item k => sort_key item.1 = Returns k.1) items keyed_.
Proof.
  revert keyed_. induction items as [ | [k v] rest IH]; intros keyed_; simpl.
  - intros H. simplify_eq. split; [ reflexivity | constructor ].
  - destruct (sort_key k) as [key | ] eqn:Hkey; [ | discriminate ].
    rewrite bind_Returns.
    destruct (with_keys rest) as [keyed_rest | ]; [ | discriminate ].
    rewrite bind_Returns. intros H. simplify_eq.
    destruct (IH _ eq_refl) as [Hvalues Hkeys].
    split; [ rewrite !fmap_cons, Hvalues; reflexivity | now constructor ].
Qed.

(** The items of integer keys, and their order. *)
Definition int_items (items : list (Z * Q)) : list (SortKey * Q) :=
  (fun item => (IntKey item.1, item.2)) <$> items.

Definition key_le (a b : Z * Q) : Prop := a.1 <= b.1.

Lemma insert_int_sorted (x : Z * Q) (sorted_ : list (Z * Q)) :
  StronglySorted key_le sorted_ ->
  exists placed : list (Z * Q),
    insert_by_key (IntKey x.1, x.2) (int_items sorted_) = Returns (int_items placed) /\
    Permutation placed (x :: sorted_) /\ StronglySorted key_le placed.
Proof.
  induction sorted_ as [ | y rest IH]; intros Hsorted.
  - exists [x]. repeat split; repeat constructor.
  - apply StronglySorted_inv in Hsorted as [Hrest Hy].
    unfold int_items. rewrite fmap_cons. fold (int_items rest).
    cbn [insert_by_key key_lt fst snd].
    destruct (Z.ltb_spec y.1 x.1) as [Hbelow | Habove].
    + destruct (IH Hrest) as (placed & -> & Hperm & Hplaced). rewrite bind_Returns.
      exists (y :: placed). split; [ reflexivity | ].
      split; [ rewrite Hperm; apply perm_swap | ].
      constructor; [ assumption | ]. rewrite Hperm.
      constructor; [ unfold key_le; lia | assumption ].
    + exists (x :: y :: rest). split; [ reflexivity | ]. split; [ reflexivity | ].
      constructor; [ now constructor | ].
      constructor; [ unfold key_le; lia | ].
      eapply Forall_impl; [ exact Hy | ]. unfold key_le. intros item Hitem. lia.
Qed.

Lemma sorted_ints (items : list (Z * Q)) :
  exists sorted_ : list (Z * Q),
    sorted_by_key (int_items items) = Returns (int_items sorted_) /\
    Permutation sorted_ items /\ StronglySorted key_le sorted_.
Proof.
  induction items as [ | x rest (sorted_rest & Hsorted & Hperm & Hordered)].
  - exists []. repeat split; constructor.
  - unfold int_items. rewrite fmap_cons. fold (int_items rest).
    cbn [sorted_by_key]. rewrite Hsorted, bind_Returns.
    destruct (insert_int_sorted x sorted_rest Hordered) as (placed & Hplaced & Hperm' & Hordered').
    exists placed. split; [ exact Hplaced | ].
    split; [ rewrite Hperm'; now constructor | assumption ].
Qed.

Lemma with_keys_digits (questions : list (string * Q)) :
  Forall (fun item => ascii_digits item.1) questions ->
  with_keys questions
  = Returns (int_items ((fun item => (digits_value item.1, item.2)) <$> questions)).
Proof.
  induction 1 as [ | [k v] rest Hk _ IH]; [ reflexivity | ].
  cbn [with_keys]. rewrite (sort_key_digits k Hk), bind_Returns, IH, bind_Returns.
  reflexivity.
Qed.

(** X19: a [questions] map loses no question and repeats none: on a store
    that answers, whatever the keys of the map, the questions returned are
    a permutation of its values. *)
Theorem questions_map_is_permuted (db : Firestore) (questions : list (string * Q)) :
  initialized db = true -> reachable db = true ->
  exists result : list Q,
    get_daily_questions db (Some (Some (FieldMap questions))) = Returns result /\
    Permutation result (snd <$> questions).
Proof.
  intros Hinit Hreach. unfold get_daily_questions, get_firestore_client, request.
  rewrite Hinit, Hreach, bind_Returns. simpl except.
  destruct (with_keys questions) as [keyed_ | ] eqn:Hkeys;
    [ rewrite bind_Returns | rewrite bind_Raises; eauto ].
  destruct (sorted_by_key keyed_) as [sorted_ | ] eqn:Hsorted; [ | eauto ].
  eexists. split; [ reflexivity | ].
  apply sorted_by_key_Permutation in Hsorted.
  apply with_keys_values in Hkeys as [<- _]. now rewrite Hsorted.
Qed.

(** X20: when every key of the map is a non-empty string of the digits 0 to
    9, the questions come in the order of the numbers the keys denote (the
    key 10 after the key 9, and leading zeros ignored), on a store that
    answers. *)
Theorem numeric_keys_sort_numerically (db : Firestore) (questions : list (string * Q)) :
  initialized db = true -> reachable db = true ->
  Forall (fun item => ascii_digits item.1) questions ->
  exists sorted_ : list (Z * Q),
    get_daily_questions db (Some (Some (FieldMap questions))) = Returns (snd <$> sorted_) /\
    Permutation sorted_ ((fun item => (digits_value item.1, item.2)) <$> questions) /\
    StronglySorted (fun a b => a.1 <= b.1) sorted_.
Proof.
  intros Hinit Hreach Hdigits. unfold get_daily_questions, get_firestore_client, request.
  rewrite Hinit, Hreach, bind_Returns. simpl except.
  rewrite (with_keys_digits questions Hdigits), bind_Returns.
  destruct (sorted_ints ((fun item => (digits_value item.1, item.2)) <$> questions))
    as (sorted_ & -> & Hperm & Hordered).
  exists sorted_. split; [ | split; assumption ].
  f_equal. unfold int_items. rewrite <- list_fmap_compose. reflexivity.
Qed.

(** X21: keys that cannot be sorted leave the questions in the order of the
    map: this is so when a key that [isdigit] accepts holds a superscript
    digit, which [int] refuses, and when a key of digits stands beside a key
    that is not one, as an [int] and a [str] do not compare. *)
Theorem unsortable_keys_keep_order (db : Firestore) (questions : list (string * Q)) :
  initialized db = true -> reachable db = true ->
  (exists item, item ∈ questions /\ isdigit item.1 = true /\ ~ ascii_digits item.1) \/
  (exists a b, a ∈ questions /\ b ∈ questions /\
               isdigit a.1 = true /\ isdigit b.1 = false) ->
  get_daily_questions db (Some (Some (FieldMap questions)))
  = Returns (snd <$> questions).
Proof.
  intros Hinit Hreach Hkeys. unfold get_daily_questions, get_firestore_client, request.
  rewrite Hinit, Hreach, bind_Returns. simpl except.
  destruct (with_keys questions) as [keyed_ | ] eqn:Hkeyed;
    [ rewrite bind_Returns | now rewrite bind_Raises ].
  apply with_keys_values in Hkeyed as [_ Hkeyed].
  assert (Hkey : forall item, item ∈ questions ->
            exists k, k ∈ keyed_ /\ sort_key item.1 = Returns k.1).
  { intros item Hitem. apply list_elem_of_lookup in Hitem as [i Hi].
    destruct (Forall2_lookup_l _ _ _ _ _ Hkeyed Hi) as (k & Hk & Hsort).
    exists k. split; [ eapply list_elem_of_lookup_2; exact Hk | exact Hsort ]. }
  destruct Hkeys as [(item & Hitem & Hdigit & Hother) | (a & b & Ha & Hb & Hda & Hdb)].
  - destruct (Hkey item Hitem) as (k & _ & Hsort).
    rewrite (sort_key_superscript _ Hdigit Hother) in Hsort. discriminate.
  - destruct (Hkey a Ha) as (ka & Hka & Hsa). destruct (Hkey b Hb) as (kb & Hkb & Hsb).
    rewrite (sorted_mixed_raises keyed_ ka kb Hka Hkb); [ reflexivity | ].
    unfold sort_key in Hsa, Hsb. rewrite Hda in Hsa. rewrite Hdb in Hsb.
    destruct (int_of_digits a.1); [ | discriminate ].
    injection Hsa as <-. injection Hsb as <-. simpl. tauto.
Qed.

End Questions.

Lemma questions_map_is_permuted_witness :
  exists result : list string,
    get_daily_questions empty_store
      (Some (Some (FieldMap [("b", "second"); ("a", "first")]))) = Returns result /\
    Permutation result ["second"; "first"].
Proof.
  exact (questions_map_is_permuted empty_store [("b", "second"); ("a", "first")]
           eq_refl eq_refl).
Defined.

Lemma numeric_keys_sort_numerically_witness :
  exists sorted_ : list (Z * string),
    get_daily_questions empty_store
      (Some (Some (FieldMap [("10", "ten"); ("9", "nine"); ("01", "one")])))
    = Returns (snd <$> sorted_) /\
    Permutation sorted_ [(10, "ten"); (9, "nine"); (1, "one")] /\
    StronglySorted (fun a b => a.1 <= b.1) sorted_.
Proof.
  apply (numeric_keys_sort_numerically empty_store
           [("10", "ten"); ("9", "nine"); ("01", "one")] eq_refl eq_refl).
  repeat constructor; discriminate.
Defined.

Lemma unsortable_keys_keep_order_witness :
  get_daily_questions empty_store
    (Some (Some (FieldMap [("2", "two"); ("intro", "welcome"); ("1", "one")])))
  = Returns ["two"; "welcome"; "one"].
Proof.
  apply (unsortable_keys_keep_order empty_store
           [("2", "two"); ("intro", "welcome"); ("1", "one")] eq_refl eq_refl).
  right. exists ("2", "two"), ("intro", "welcome").
  split; [ apply list_elem_of_here | ].
  split; [ apply list_elem_of_further, list_elem_of_here | ].
  split; reflexivity.
Defined.

End LookupFacts.
